(** * kg-covid-19: the HPOA disease-annotation transform

    A shallow embedding of
    [kg_covid_19/transform_utils/disease_annotations/disease_annotations.py]
    (class [DiseaseAnnotations] and its [TsvDialect]) together with the few
    pieces of the Python standard library that its behaviour rests on.

    Conventions.
    - A Python [str] is a [string] holding the UTF-8 encoding of the text.
      Every character the transform inspects (tab, backslash, space, CR, LF)
      is ASCII, so working on the encoded form changes nothing; the only
      place where code points are counted ([csv]'s field size limit) counts
      the bytes that start a code point.
    - A value that is either a [str] or [None] is an [option string].
    - Exceptions are values of type [exn]; a computation that may raise
      returns a [result].
    - The platform is POSIX: [os.linesep] is a line feed and [os.path.join]
      is [posixpath.join].
    - Library behaviour follows CPython 3.11. *)

From Stdlib Require Import ZArith Ascii String List Lia.
From stdpp Require Import base option list strings gmap sets.

Local Open Scope Z_scope.

(** ** Python standard library: [hashlib.md5] (RFC 1321) *)

Module Md5.

Definition wrap32 (x : Z) : Z := x mod 2 ^ 32.

Definition add32 (x y : Z) : Z := wrap32 (x + y).

Definition not32 (x : Z) : Z := Z.lxor x 0xffffffff.

Definition rotl32 (x c : Z) : Z :=
  Z.lor (wrap32 (Z.shiftl x c)) (Z.shiftr x (32 - c)).

(** Per-round shift amounts. *)
Definition shifts : list Z :=
  [7; 12; 17; 22; 7; 12; 17; 22; 7; 12; 17; 22; 7; 12; 17; 22;
   5; 9; 14; 20; 5; 9; 14; 20; 5; 9; 14; 20; 5; 9; 14; 20;
   4; 11; 16; 23; 4; 11; 16; 23; 4; 11; 16; 23; 4; 11; 16; 23;
   6; 10; 15; 21; 6; 10; 15; 21; 6; 10; 15; 21; 6; 10; 15; 21].

(** [floor (2^32 * abs (sin (i + 1)))] for [i] from 0 to 63. *)
Definition sines : list Z :=
  [0xd76aa478; 0xe8c7b756; 0x242070db; 0xc1bdceee;
   0xf57c0faf; 0x4787c62a; 0xa8304613; 0xfd469501;
   0x698098d8; 0x8b44f7af; 0xffff5bb1; 0x895cd7be;
   0x6b901122; 0xfd987193; 0xa679438e; 0x49b40821;
   0xf61e2562; 0xc040b340; 0x265e5a51; 0xe9b6c7aa;
   0xd62f105d; 0x02441453; 0xd8a1e681; 0xe7d3fbc8;
   0x21e1cde6; 0xc33707d6; 0xf4d50d87; 0x455a14ed;
   0xa9e3e905; 0xfcefa3f8; 0x676f02d9; 0x8d2a4c8a;
   0xfffa3942; 0x8771f681; 0x6d9d6122; 0xfde5380c;
   0xa4beea44; 0x4bdecfa9; 0xf6bb4b60; 0xbebfbc70;
   0x289b7ec6; 0xeaa127fa; 0xd4ef3085; 0x04881d05;
   0xd9d4d039; 0xe6db99e5; 0x1fa27cf8; 0xc4ac5665;
   0xf4292244; 0x432aff97; 0xab9423a7; 0xfc93a039;
   0x655b59c3; 0x8f0ccc92; 0xffeff47d; 0x85845dd1;
   0x6fa87e4f; 0xfe2ce6e0; 0xa3014314; 0x4e0811a1;
   0xf7537e82; 0xbd3af235; 0x2ad7d2bb; 0xeb86d391].

(** The [n] low bytes of [x], least significant first. *)
Fixpoint le_bytes (n : nat) (x : Z) : list Z :=
  match n with
  | O => []
  | S n' => x mod 256 :: le_bytes n' (x / 256)
  end.

(** Little-endian 32-bit words of a byte sequence. *)
Fixpoint words_le (bs : list Z) : list Z :=
  match bs with
  | b0 :: b1 :: b2 :: b3 :: rest =>
      (b0 + 256 * b1 + 65536 * b2 + 16777216 * b3) :: words_le rest
  | _ => []
  end.

(** Append the bit 1, zeros up to 56 modulo 64, and the bit length. *)
Definition pad (msg : list Z) : list Z :=
  let len := Z.of_nat (length msg) in
  msg ++ [0x80] ++ repeat 0 (Z.to_nat ((55 - len) mod 64))
      ++ le_bytes 8 ((8 * len) mod 2 ^ 64).

Fixpoint blocks (n : nat) (bs : list Z) : list (list Z) :=
  match n with
  | O => []
  | S n' => take 64 bs :: blocks n' (drop 64 bs)
  end.

Definition state : Type := Z * Z * Z * Z.

Definition round (m : list Z) (st : state) (i : nat) : state :=
  let '(a, b, c, d) := st in
  let iz := Z.of_nat i in
  let '(f, g) :=
    if iz <? 16 then (Z.lor (Z.land b c) (Z.land (not32 b) d), iz)
    else if iz <? 32 then
      (Z.lor (Z.land d b) (Z.land (not32 d) c), (5 * iz + 1) mod 16)
    else if iz <? 48 then (Z.lxor (Z.lxor b c) d, (3 * iz + 5) mod 16)
    else (Z.lxor c (Z.lor b (not32 d)), (7 * iz) mod 16) in
  let f' := add32 (add32 (add32 f a) (nth i sines 0)) (nth (Z.to_nat g) m 0) in
  (d, add32 b (rotl32 f' (nth i shifts 0)), b, c).

Definition compress (st : state) (block : list Z) : state :=
  let '(a0, b0, c0, d0) := st in
  let '(a, b, c, d) := fold_left (round (words_le block)) (seq 0 64) st in
  (add32 a0 a, add32 b0 b, add32 c0 c, add32 d0 d).

Definition init : state := (0x67452301, 0xefcdab89, 0x98badcfe, 0x10325476).

(** The 16-byte digest of a byte sequence. *)
Definition digest (msg : list Z) : list Z :=
  let padded := pad msg in
  let '(a, b, c, d) :=
    fold_left compress (blocks (length padded / 64) padded) init in
  le_bytes 4 a ++ le_bytes 4 b ++ le_bytes 4 c ++ le_bytes 4 d.

End Md5.

(** ** Python standard library: [uuid.UUID], [uuid.uuid3] *)

Module Uuid.

(** [bytes(name, "utf-8")]: the bytes of a string. *)
Fixpoint bytes_of_string (s : string) : list Z :=
  match s with
  | EmptyString => []
  | String c s' => Z.of_N (N_of_ascii c) :: bytes_of_string s'
  end.

(** [int.from_bytes(bs, "big")]. *)
Definition int_from_bytes (bs : list Z) : Z :=
  fold_left (fun acc b => 256 * acc + b) bs 0.

(** [UUID(bytes=..., version=...)]: the 128-bit integer with the RFC 4122
    variant and the version number stamped in. *)
Definition UUID (bytes : list Z) (version : Z) : Z :=
  let int := int_from_bytes bytes in
  let int := Z.land int (Z.lnot (Z.shiftl 0xc000 48)) in
  let int := Z.lor int (Z.shiftl 0x8000 48) in
  let int := Z.land int (Z.lnot (Z.shiftl 0xf000 64)) in
  Z.lor int (Z.shiftl version 76).

Definition hex_digit (d : Z) : ascii :=
  match d with
  | 0 => "0" | 1 => "1" | 2 => "2" | 3 => "3" | 4 => "4" | 5 => "5"
  | 6 => "6" | 7 => "7" | 8 => "8" | 9 => "9" | 10 => "a" | 11 => "b"
  | 12 => "c" | 13 => "d" | 14 => "e" | _ => "f"
  end%char.

(** The [n] lowest hexadecimal digits of [x], most significant first
    ([x] below [16^n]: ['%0nx' % x]). *)
Fixpoint hex (n : nat) (x : Z) (acc : string) : string :=
  match n with
  | O => acc
  | S n' => hex n' (x / 16) (String (hex_digit (x mod 16)) acc)
  end.

(** [str(UUID)]: the 8-4-4-4-12 rendering. *)
Definition str (u : Z) : string :=
  let h := hex 32 u "" in
  String.substring 0 8 h +:+ "-" +:+ String.substring 8 4 h +:+ "-" +:+
  String.substring 12 4 h +:+ "-" +:+ String.substring 16 4 h +:+ "-" +:+
  String.substring 20 12 h.

(** [uuid.NAMESPACE_DNS] = UUID('6ba7b810-9dad-11d1-80b4-00c04fd430c8'). *)
Definition NAMESPACE_DNS : Z := 0x6ba7b8109dad11d180b400c04fd430c8.

(** [UUID.bytes]: the 16 bytes, most significant first. *)
Definition bytes (u : Z) : list Z := rev (Md5.le_bytes 16 u).

(** [uuid3(namespace, name)]:
    [UUID(bytes=md5(namespace.bytes + bytes(name, "utf-8")).digest()[:16], version=3)]. *)
Definition uuid3 (namespace : Z) (name : string) : Z :=
  UUID (take 16 (Md5.digest (bytes namespace ++ bytes_of_string name))) 3.

End Uuid.

(** ** Values, exceptions and results *)

Definition TAB : ascii := "009"%char.
Definition LF : ascii := "010"%char.
Definition CR : ascii := "013"%char.
Definition SPACE : ascii := " "%char.
Definition BACKSLASH : ascii := "\"%char.

(** A row as [csv.DictReader] yields it: the values under the field names
    ([None] is the reader's [restval], given to the names a short line leaves
    without a value), and the surplus values of a long line, which the reader
    stores as a list under its [restkey], the key [None]. *)
Record SourceRow := mkSourceRow {
  named : gmap string (option string);
  rest : option (list string)
}.

(** The exceptions the transform can raise.  The two [ValueError]s raised by
    the transform itself carry the values their messages interpolate. *)
Inductive exn :=
  (** [ValueError(f'Unexpected qualifier `{qualifier}` in line {row}')] *)
  | ValueError_unexpected_qualifier (qualifier : option string) (row : SourceRow)
  (** [ValueError(f'Cannot open file with `{compression}` compression')] *)
  | ValueError_cannot_open (compression : string)
  (** any other [ValueError], with its message *)
  | ValueError (msg : string)
  (** [next] on an exhausted iterator *)
  | StopIteration
  (** a key missing from a dict *)
  | KeyError (key : string)
  (** [str.join] over a sequence holding a value that is not a [str] *)
  | TypeError (msg : string)
  (** [csv.Error] *)
  | csv_Error (msg : string)
  (** [open] failing on a path *)
  | OSError (path : string).

Inductive result (A : Type) : Type :=
  | Ok (a : A)
  | Raise (e : exn).
Arguments Ok {A} a.
Arguments Raise {A} e.

#[global] Instance result_ret : MRet result := fun A a => Ok a.
#[global] Instance result_bind : MBind result :=
  fun A B f m => match m with Ok a => f a | Raise e => Raise e end.

Definition is_Ok {A} (r : result A) : bool :=
  match r with Ok _ => true | Raise _ => false end.

(** ** Python standard library: text files and [os] *)

(** [os.linesep]. *)
Definition os_linesep : string := String LF "".

(** [os.path.join(a, b)]. *)
Definition os_path_join (a b : string) : string :=
  if String.prefix "/" b then b
  else if bool_decide (a = "") || bool_decide (String.substring (String.length a - 1) 1 a = "/")
       then a +:+ b
       else a +:+ "/" +:+ b.

(** The lines a text file opened with [newline=''] iterates over: universal
    newlines are recognised as line ends and handed over untranslated.
    [cur] is the line read so far. *)
Fixpoint iter_lines (cur : string) (text : string) : list string :=
  match text with
  | EmptyString => if bool_decide (cur = "") then [] else [cur]
  | String c text' =>
      if bool_decide (c = LF) then (cur +:+ String LF "") :: iter_lines "" text'
      else if bool_decide (c = CR) then
        match text' with
        | String c' text'' =>
            if bool_decide (c' = LF)
            then (cur +:+ String CR (String LF "")) :: iter_lines "" text''
            else (cur +:+ String CR "") :: iter_lines "" text'
        | EmptyString => (cur +:+ String CR "") :: iter_lines "" text'
        end
      else iter_lines (cur +:+ String c "") text'
  end.

(** [next(fh)]: the next line and the rest of the iterator. *)
Definition next {A} (it : list A) : result (A * list A) :=
  match it with
  | [] => Raise StopIteration
  | x :: it' => Ok (x, it')
  end.

(** The files of the machine: the text of every file, by path, and the paths
    [open] refuses (missing directory, missing permission). *)
Record filesystem := mkFilesystem {
  files : gmap string string;
  refused : gset string
}.

(** [open(path, newline='')]: the text to read. *)
Definition open_r (fs : filesystem) (path : string) : result string :=
  if bool_decide (path ∈ refused fs) then Raise (OSError path)
  else match files fs !! path with
       | Some text => Ok text
       | None => Raise (OSError path)
       end.

(** [open(path, 'w', newline='')]: the file is created, or emptied. *)
Definition open_w (fs : filesystem) (path : string) : result filesystem :=
  if bool_decide (path ∈ refused fs) then Raise (OSError path)
  else Ok (mkFilesystem (<[path := ""]> (files fs)) (refused fs)).

(** [fh.write(text)] on a file opened for writing at [path]. *)
Definition fh_write (fs : filesystem) (path : string) (text : string) : filesystem :=
  mkFilesystem (<[path := default "" (files fs !! path) +:+ text]> (files fs))
               (refused fs).

(** [gzip.open(filename, mode, newline=newline)]: before it touches the file,
    it rejects the text-only argument [newline] in a binary mode, and [mode]
    is binary unless it has a [t]:
    [raise ValueError("Argument 'newline' not supported in binary mode")].
    The transform only ever calls it with the default mode [rb] and
    [newline=''], which is the one call modelled. *)
Definition gzip_open_rb_newline (fs : filesystem) (filename : string) : result string :=
  Raise (ValueError "Argument 'newline' not supported in binary mode").

(** ** Python standard library: [csv] *)

Module csv.

Inductive Quoting := QUOTE_MINIMAL | QUOTE_ALL | QUOTE_NONNUMERIC | QUOTE_NONE.

(** The attributes of a [csv.Dialect] subclass that leaves [quotechar]
    at the base class's [None]. *)
Record Dialect := mkDialect {
  delimiter : ascii;
  escapechar : option ascii;
  doublequote : bool;
  skipinitialspace : bool;
  lineterminator : string;
  quoting : Quoting
}.

(** [csv.field_size_limit()]. *)
Definition field_limit : Z := 131072.

(** The parser states a reader reaches when nothing is quoted. *)
Inductive ParserState :=
  START_RECORD | START_FIELD | ESCAPED_CHAR | IN_FIELD | AFTER_ESCAPED_CRNL | EAT_CRNL.

#[global] Instance ParserState_eq_dec : EqDecision ParserState.
Proof. solve_decision. Defined.

Record Reader := mkReader {
  state : ParserState;
  fields : list string;      (* the fields of the record read so far *)
  field : string;            (* the field being read *)
  field_len : Z              (* its length in code points *)
}.

Definition parse_reset : Reader := mkReader START_RECORD [] "" 0.

(** A byte that is not a UTF-8 continuation byte starts a code point. *)
Definition starts_code_point (c : ascii) : bool :=
  negb (Z.land (Z.of_N (N_of_ascii c)) 0xc0 =? 0x80).

Definition parse_add_char (r : Reader) (c : ascii) : result Reader :=
  if starts_code_point c then
    if field_limit <=? field_len r
    then Raise (csv_Error "field larger than field limit (131072)")
    else Ok (mkReader (state r) (fields r) (field r +:+ String c "") (field_len r + 1))
  else Ok (mkReader (state r) (fields r) (field r +:+ String c "") (field_len r)).

Definition parse_save_field (r : Reader) : Reader :=
  mkReader (state r) (fields r ++ [field r]) "" 0.

Definition set_state (st : ParserState) (r : Reader) : Reader :=
  mkReader st (fields r) (field r) (field_len r).

Definition is_newline (c : ascii) : bool :=
  bool_decide (c = LF) || bool_decide (c = CR).

(** [parse_process_char] for a dialect with [quoting = QUOTE_NONE] and no
    [quotechar]; [None] is the end-of-line marker fed after each line. *)
Definition in_field (d : Dialect) (r : Reader) (c : option ascii) : result Reader :=
  match c with
  | None => Ok (set_state START_RECORD (parse_save_field r))
  | Some ch =>
      if is_newline ch then Ok (set_state EAT_CRNL (parse_save_field r))
      else if bool_decide (escapechar d = Some ch) then Ok (set_state ESCAPED_CHAR r)
      else if bool_decide (ch = delimiter d)
           then Ok (set_state START_FIELD (parse_save_field r))
      else parse_add_char r ch
  end.

Definition start_field (d : Dialect) (r : Reader) (c : option ascii) : result Reader :=
  match c with
  | None => Ok (set_state START_RECORD (parse_save_field r))
  | Some ch =>
      if is_newline ch then Ok (set_state EAT_CRNL (parse_save_field r))
      else if bool_decide (escapechar d = Some ch) then Ok (set_state ESCAPED_CHAR r)
      else if bool_decide (ch = SPACE) && skipinitialspace d then Ok r
      else if bool_decide (ch = delimiter d) then Ok (parse_save_field r)
      else r' ← parse_add_char r ch; mret (set_state IN_FIELD r')
  end.

Definition parse_process_char (d : Dialect) (r : Reader) (c : option ascii)
  : result Reader :=
  match state r with
  | START_RECORD =>
      match c with
      | None => Ok r
      | Some ch =>
          if is_newline ch then Ok (set_state EAT_CRNL r)
          else start_field d (set_state START_FIELD r) c
      end
  | START_FIELD => start_field d r c
  | ESCAPED_CHAR =>
      match c with
      | Some ch =>
          if is_newline ch
          then r' ← parse_add_char r ch; mret (set_state AFTER_ESCAPED_CRNL r')
          else r' ← parse_add_char r ch; mret (set_state IN_FIELD r')
      | None => r' ← parse_add_char r LF; mret (set_state IN_FIELD r')
      end
  | AFTER_ESCAPED_CRNL =>
      match c with
      | None => Ok r
      | Some _ => in_field d r c
      end
  | IN_FIELD => in_field d r c
  | EAT_CRNL =>
      match c with
      | None => Ok (set_state START_RECORD r)
      | Some ch =>
          if is_newline ch then Ok r
          else Raise (csv_Error "new-line character seen in unquoted field - do you need to open the file with newline=''?")
      end
  end.

(** The characters of one line, then the end-of-line marker. *)
Fixpoint process_line (d : Dialect) (r : Reader) (line : string) : result Reader :=
  match line with
  | EmptyString => parse_process_char d r None
  | String c line' => r' ← parse_process_char d r (Some c); process_line d r' line'
  end.

(** The records [csv.reader(lines, dialect)] iterates over, up to the first
    error.  [Reader_iternext] feeds lines to the parser until it is back at
    [START_RECORD]; at the end of the input a record in progress is
    returned if its last field is not empty. *)
Fixpoint reader_from (d : Dialect) (r : Reader) (lines : list string)
  : list (result (list string)) :=
  match lines with
  | [] => if field_len r =? 0 then [] else [Ok (fields (parse_save_field r))]
  | line :: lines' =>
      match process_line d r line with
      | Raise e => [Raise e]
      | Ok r' =>
          if bool_decide (state r' = START_RECORD)
          then Ok (fields r') :: reader_from d parse_reset lines'
          else reader_from d r' lines'
      end
  end.

Definition reader (lines : list string) (d : Dialect) : list (result (list string)) :=
  reader_from d parse_reset lines.

(** [csv.DictReader.__next__], the dict of one record:
    [d = dict(zip(self.fieldnames, row))], then the surplus values under
    [restkey] or [restval] for the names left over. *)
Definition DictReader_row (fieldnames : list string) (row : list string) : SourceRow :=
  let d := fold_left (fun d kv => <[kv.1 := Some kv.2]> d) (zip fieldnames row) ∅ in
  let lf := length fieldnames in
  let lr := length row in
  if (lf <? lr)%nat then mkSourceRow d (Some (drop lf row))
  else mkSourceRow (fold_left (fun d key => <[key := None]> d) (drop lr fieldnames) d) None.

(** The rows [csv.DictReader(lines, fieldnames, dialect)] iterates over, up
    to the first error: the reader's records, the empty ones skipped. *)
Fixpoint DictReader_rows (fieldnames : list string) (records : list (result (list string)))
  : list (result SourceRow) :=
  match records with
  | [] => []
  | Raise e :: _ => [Raise e]
  | Ok [] :: records' => DictReader_rows fieldnames records'
  | Ok row :: records' =>
      Ok (DictReader_row fieldnames row) :: DictReader_rows fieldnames records'
  end.

Definition DictReader (lines : list string) (fieldnames : list string) (d : Dialect)
  : list (result SourceRow) :=
  DictReader_rows fieldnames (reader lines d).

(** The writer side, for [quoting = QUOTE_NONE]: the delimiter, the escape
    character and the characters of the line terminator are written behind
    the escape character. *)
Definition wants_escape (d : Dialect) (c : ascii) : bool :=
  bool_decide (c = delimiter d) || bool_decide (escapechar d = Some c)
  || bool_decide (c ∈ String.list_ascii_of_string (lineterminator d)).

Fixpoint join_append_data (d : Dialect) (field : string) : result string :=
  match field with
  | EmptyString => Ok ""
  | String c field' =>
      tail ← join_append_data d field';
      if wants_escape d c then
        match escapechar d with
        | Some e => Ok (String e (String c tail))
        | None => Raise (csv_Error "need to escape, but no escapechar set")
        end
      else Ok (String c tail)
  end.

(** The record under construction and the number of fields joined. *)
Definition join_append (d : Dialect) (acc : string * nat) (field : option string)
  : result (string * nat) :=
  data ← join_append_data d (default "" field);
  let sep := if (0 <? acc.2)%nat then String (delimiter d) "" else "" in
  mret (acc.1 +:+ sep +:+ data, S acc.2).

Fixpoint join_all (d : Dialect) (acc : string * nat) (fields : list (option string))
  : result (string * nat) :=
  match fields with
  | [] => Ok acc
  | f :: fields' => acc' ← join_append d acc f; join_all d acc' fields'
  end.

(** [writer.writerow(fields)]: the text handed to the file's [write]. *)
Definition writerow (d : Dialect) (fields : list (option string)) : result string :=
  acc ← join_all d ("", O) fields;
  if (0 <? acc.2)%nat && bool_decide (acc.1 = "")
  then Raise (csv_Error "single empty field record must be quoted")
  else mret (acc.1 +:+ lineterminator d).

(** [DictWriter._dict_to_list], with [restval = ''] and
    [extrasaction = 'raise']. *)
Definition dict_to_list (fieldnames : list string) (rowdict : gmap string (option string))
  : result (list (option string)) :=
  if bool_decide (dom rowdict ⊆ list_to_set fieldnames)
  then Ok ((fun key => default (Some "") (rowdict !! key)) <$> fieldnames)
  else Raise (ValueError "dict contains fields not in fieldnames").

Definition DictWriter_writerow (fieldnames : list string) (d : Dialect)
    (rowdict : gmap string (option string)) : result string :=
  fields ← dict_to_list fieldnames rowdict; writerow d fields.

(** [header = dict(zip(self.fieldnames, self.fieldnames))]. *)
Definition DictWriter_writeheader (fieldnames : list string) (d : Dialect) : result string :=
  DictWriter_writerow fieldnames d
    (fold_left (fun h k => <[k := Some k]> h) fieldnames ∅).

End csv.

(** ** The transform: [disease_annotations.py] *)

(** [KgxNode = namedtuple('KgxNode', ['id', 'category', 'name', 'provided_by'])].
    The fields filled from a row hold what the row holds, a [str] or [None];
    the others hold the constants of [parse]. *)
Module KgxNode.
Record t := mk {
  id : option string;
  category : string;
  name : option string;
  provided_by : string
}.

#[global] Instance eq_dec : EqDecision t.
Proof. solve_decision. Defined.

#[global] Instance countable : Countable t :=
  inj_countable
    (fun n => [id n; Some (category n); name n; Some (provided_by n)])
    (fun l => match l with
              | [i; Some c; n; Some p] => Some (mk i c n p)
              | _ => None
              end)
    (fun n => match n with mk _ _ _ _ => eq_refl end).
End KgxNode.

(** [KgxEdge = namedtuple('KgxEdge', ['id', 'subject', 'predicate', 'object',
    'relation', 'primary_knowledge_source', 'category', 'publications'])]. *)
Module KgxEdge.
Record t := mk {
  id : string;
  subject : option string;
  predicate : string;
  object : option string;
  relation : string;
  primary_knowledge_source : string;
  category : string;
  publications : option string
}.

#[global] Instance eq_dec : EqDecision t.
Proof. solve_decision. Defined.

#[global] Instance countable : Countable t :=
  inj_countable
    (fun e => [Some (id e); subject e; Some (predicate e); object e; Some (relation e);
               Some (primary_knowledge_source e); Some (category e); publications e])
    (fun l => match l with
              | [Some i; s; Some pr; o; Some r; Some k; Some c; pu] =>
                  Some (mk i s pr o r k c pu)
              | _ => None
              end)
    (fun e => match e with mk _ _ _ _ _ _ _ _ => eq_refl end).
End KgxEdge.

(** [class TsvDialect(csv.Dialect)]. *)
Definition TsvDialect : csv.Dialect := {|
  csv.delimiter := TAB;
  csv.escapechar := Some BACKSLASH;
  csv.doublequote := false;
  csv.skipinitialspace := true;
  csv.lineterminator := os_linesep;
  csv.quoting := csv.QUOTE_NONE
|}.

(** The attributes of a [DiseaseAnnotations] object that the transform reads.
    The two directories are set by the base class [Transform]. *)
Record DiseaseAnnotations := mkDiseaseAnnotations {
  _file_header : list string;
  _add_excluded_phenotype : bool;
  input_base_dir : string;
  output_dir : string
}.

(** [DiseaseAnnotations.__init__], given the directories the base class's
    initialiser settles on. *)
Definition __init__ (input_base_dir output_dir : string) : DiseaseAnnotations := {|
  _file_header := ["DatabaseID"; "DiseaseName"; "Qualifier"; "HPO_ID";
                   "Reference"; "Evidence"; "Onset"; "Frequency"; "Sex";
                   "Modifier"; "Aspect"; "Biocuration"];
  _add_excluded_phenotype := false;
  input_base_dir := input_base_dir;
  output_dir := output_dir
|}.

(** The constants of [parse]. *)
Definition category : string := "biolink:Disease".
Definition provided_by : string := "HPO:hpoa".
Definition has_phenotype : string := "biolink:has_phenotype".
Definition has_symptom : string := "RO:0002200".
Definition phenotype_to_disease_association : string :=
  "biolink:PhenotypeToDiseaseAssociation".

(** [row[key]]. *)
Definition getitem (row : SourceRow) (key : string) : result (option string) :=
  match named row !! key with
  | Some v => Ok v
  | None => Raise (KeyError key)
  end.

(** [str(b)] for a [bool]. *)
Definition str_of_bool (b : bool) : string := if b then "True" else "False".

(** [sep.join(items)]: every item has to be a [str]. *)
Fixpoint str_join (sep : string) (items : list (option string)) : result string :=
  match items with
  | [] => Ok ""
  | None :: _ => Raise (TypeError "sequence item: expected str instance, NoneType found")
  | Some s :: items' =>
      match items' with
      | [] => Ok s
      | _ => tail ← str_join sep items'; mret (s +:+ sep +:+ tail)
      end
  end.

(** The truth value of an [Optional[str]]. *)
Definition truthy (s : option string) : bool :=
  match s with
  | None => false
  | Some s => negb (bool_decide (s = ""))
  end.

(** [DiseaseAnnotations._open_file]: the text of the opened file. *)
Definition _open_file (fs : filesystem) (data_file : string) (compression : option string)
  : result string :=
  if truthy compression then
    if bool_decide (compression = Some "gz") then gzip_open_rb_newline fs data_file
    else Raise (ValueError_cannot_open (default "" compression))
  else open_r fs data_file.

(** Lines 60 to 67: the qualifier of a row decides whether the phenotype is
    present. *)
Definition classify (row : SourceRow) : result bool :=
  qualifier ← getitem row "Qualifier";
  if bool_decide (qualifier = Some "") then Ok true
  else if bool_decide (qualifier = Some "NOT") then Ok false
  else Raise (ValueError_unexpected_qualifier qualifier row).

(** Lines 79 and 80. *)
Definition edge_id (disease_id hpo_id : option string) (phenotype_is_present : bool)
  : result string :=
  name ← str_join "-" [disease_id; hpo_id; Some (str_of_bool phenotype_is_present)];
  mret ("urn:uuid:" +:+ Uuid.str (Uuid.uuid3 Uuid.NAMESPACE_DNS name)).

(** Lines 72 to 84: the node and the edge of a retained row, added to the
    two sets. *)
Definition add_row (row : SourceRow) (phenotype_is_present : bool)
    (acc : gset KgxNode.t * gset KgxEdge.t) : result (gset KgxNode.t * gset KgxEdge.t) :=
  disease_name ← getitem row "DiseaseName";
  disease_id ← getitem row "DatabaseID";
  hpo_id ← getitem row "HPO_ID";
  let node := KgxNode.mk disease_id category disease_name provided_by in
  let nodes := {[node]} ∪ acc.1 in
  edge_id ← edge_id disease_id hpo_id phenotype_is_present;
  reference ← getitem row "Reference";
  let edge := KgxEdge.mk edge_id disease_id has_phenotype hpo_id has_symptom
                provided_by phenotype_to_disease_association reference in
  mret (nodes, {[edge]} ∪ acc.2).

(** The body of the [for row in reader] loop, lines 60 to 84. *)
Definition loop_body (self : DiseaseAnnotations) (row : SourceRow)
    (acc : gset KgxNode.t * gset KgxEdge.t) : result (gset KgxNode.t * gset KgxEdge.t) :=
  phenotype_is_present ← classify row;
  if negb (_add_excluded_phenotype self) && negb phenotype_is_present
  then Ok acc
  else add_row row phenotype_is_present acc.

(** The [for] loop over the rows of the reader; a row the reader fails on
    raises when the loop reaches it. *)
Fixpoint for_rows (self : DiseaseAnnotations) (rows : list (result SourceRow))
    (acc : gset KgxNode.t * gset KgxEdge.t) : result (gset KgxNode.t * gset KgxEdge.t) :=
  match rows with
  | [] => Ok acc
  | Raise e :: _ => Raise e
  | Ok row :: rows' => acc' ← loop_body self row acc; for_rows self rows' acc'
  end.

(** [[next(fh) for _ in range(n)]]: what is left of [fh]. *)
Fixpoint skip_lines (n : nat) (fh : list string) : result (list string) :=
  match n with
  | O => Ok fh
  | S n' => '(_, fh') ← next fh; skip_lines n' fh'
  end.

(** The rows the reader of [parse] yields for an opened file. *)
Definition rows_of (self : DiseaseAnnotations) (text : string)
  : result (list (result SourceRow)) :=
  fh ← skip_lines 5 (iter_lines "" text);
  mret (csv.DictReader fh (_file_header self) TsvDialect).

(** Lines 49 to 84 of [parse]: the two sets, built from the input file. *)
Definition read_phase (self : DiseaseAnnotations) (fs : filesystem) (data_file : string)
    (compression : option string) : result (gset KgxNode.t * gset KgxEdge.t) :=
  text ← _open_file fs data_file compression;
  rows ← rows_of self text;
  for_rows self rows (∅, ∅).

Definition node_tsv_column_names : list string :=
  ["id"; "category"; "name"; "provided_by"].

Definition edge_tsv_column_names : list string :=
  ["subject"; "predicate"; "object"; "relation"; "provided_by"; ""].

(** Lines 93 to 96: the dict written for a node. *)
Definition node_row (node : KgxNode.t) : gmap string (option string) :=
  <["provided_by" := Some (KgxNode.provided_by node)]>
  (<["name" := KgxNode.name node]>
  (<["category" := Some (KgxNode.category node)]>
  (<["id" := KgxNode.id node]> ∅))).

(** Lines 106 to 110: the dict written for an edge. *)
Definition edge_row (edge : KgxEdge.t) : gmap string (option string) :=
  <["provided_by" := Some (KgxEdge.primary_knowledge_source edge)]>
  (<["relation" := Some (KgxEdge.relation edge)]>
  (<["object" := KgxEdge.object edge]>
  (<["predicate" := Some (KgxEdge.predicate edge)]>
  (<["subject" := KgxEdge.subject edge]> ∅)))).

(** The rows of a table, written one after the other to the file at [path];
    a row the writer fails on leaves the file as it is by then. *)
Fixpoint write_rows (path : string) (fieldnames : list string)
    (rows : list (gmap string (option string))) (fs : filesystem)
  : filesystem * result unit :=
  match rows with
  | [] => (fs, Ok tt)
  | row :: rows' =>
      match csv.DictWriter_writerow fieldnames TsvDialect row with
      | Raise e => (fs, Raise e)
      | Ok line => write_rows path fieldnames rows' (fh_write fs path line)
      end
  end.

(** [with open(path, 'w', newline='') as fh]: a [DictWriter] on [fh] writes
    the header and then the rows. *)
Definition write_table (path : string) (fieldnames : list string)
    (rows : list (gmap string (option string))) (fs : filesystem)
  : filesystem * result unit :=
  match open_w fs path with
  | Raise e => (fs, Raise e)
  | Ok fs' =>
      match csv.DictWriter_writeheader fieldnames TsvDialect with
      | Raise e => (fs', Raise e)
      | Ok line => write_rows path fieldnames rows (fh_write fs' path line)
      end
  end.

Definition nodes_out_path (self : DiseaseAnnotations) : string :=
  os_path_join (output_dir self) "HPOA_nodes.tsv".

Definition edges_out_path (self : DiseaseAnnotations) : string :=
  os_path_join (output_dir self) "HPOA_edges.tsv".

(** Lines 86 to 111 of [parse], for the nodes and the edges in the order the
    two [for] loops meet them. *)
Definition write_phase (self : DiseaseAnnotations) (nodes : list KgxNode.t)
    (edges : list KgxEdge.t) (fs : filesystem) : filesystem * result unit :=
  match write_table (nodes_out_path self) node_tsv_column_names (node_row <$> nodes) fs with
  | (fs', Raise e) => (fs', Raise e)
  | (fs', Ok _) =>
      write_table (edges_out_path self) edge_tsv_column_names (edge_row <$> edges) fs'
  end.

(** Iterating over a Python [set] meets every element once, in an order the
    language leaves open. *)
Definition iterates `{Countable A} (s : gset A) (l : list A) : Prop :=
  l ≡ₚ elements s.

(** [DiseaseAnnotations.parse]: the file system it leaves and how it ends. *)
Inductive parse (self : DiseaseAnnotations) (data_file : string)
    (compression : option string) (fs : filesystem)
  : filesystem -> result unit -> Prop :=
  | parse_raises e :
      read_phase self fs data_file compression = Raise e ->
      parse self data_file compression fs fs (Raise e)
  | parse_writes nodes edges node_order edge_order fs' r :
      read_phase self fs data_file compression = Ok (nodes, edges) ->
      iterates nodes node_order ->
      iterates edges edge_order ->
      write_phase self node_order edge_order fs = (fs', r) ->
      parse self data_file compression fs fs' r.

(** One run of [parse], the sets iterated in the order of [elements]. *)
Definition parse_run (self : DiseaseAnnotations) (data_file : string)
    (compression : option string) (fs : filesystem) : filesystem * result unit :=
  match read_phase self fs data_file compression with
  | Raise e => (fs, Raise e)
  | Ok (nodes, edges) => write_phase self (elements nodes) (elements edges) fs
  end.

(** [DiseaseAnnotations.run]. *)
Definition run (self : DiseaseAnnotations) (data_file : option string) (fs : filesystem)
  : filesystem -> result unit -> Prop :=
  let data_file :=
    if truthy data_file then default "" data_file
    else os_path_join (input_base_dir self) "phenotype.hpoa" in
  parse self data_file None fs.

(** ** Vocabulary of the properties *)

(** The row the reader of [parse] makes of one record. *)
Definition parsed (record : list string) : SourceRow :=
  csv.DictReader_row (_file_header (__init__ "" "")) record.

(** A [DiseaseAnnotations] object as [__init__] leaves it, its attribute
    [_add_excluded_phenotype] then set to [flag]. *)
Definition configured (flag : bool) (input_dir out_dir : string) : DiseaseAnnotations :=
  let self := __init__ input_dir out_dir in
  mkDiseaseAnnotations (_file_header self) flag (input_base_dir self) (output_dir self).

(** A row is malformed when its qualifier is neither [''] nor ['NOT']. *)
Definition malformed (row : SourceRow) : Prop :=
  exists q, getitem row "Qualifier" = Ok q /\ q <> Some "" /\ q <> Some "NOT".

(** A field as the writer of [parse] puts it on a line: tab, backslash and
    line feed behind a backslash. *)
Fixpoint escape (s : string) : string :=
  match s with
  | EmptyString => ""
  | String c s' =>
      if bool_decide (c = TAB) || bool_decide (c = BACKSLASH) || bool_decide (c = LF)
      then String BACKSLASH (String c (escape s'))
      else String c (escape s')
  end.

(** A line of a tab-separated file: the fields, tabs between them, and the
    line end. *)
Definition tsv_line (fields : list string) : string :=
  String.concat (String TAB "") (escape <$> fields) +:+ String LF "".

(** The text of a [str] or [None] once written: [None] is written empty. *)
Definition text_of (v : option string) : string := default "" v.

(** The columns of a node and of an edge, in the order written. *)
Definition node_columns (n : KgxNode.t) : list string :=
  [text_of (KgxNode.id n); KgxNode.category n; text_of (KgxNode.name n);
   KgxNode.provided_by n].

Definition edge_columns (e : KgxEdge.t) : list string :=
  [text_of (KgxEdge.subject e); KgxEdge.predicate e; text_of (KgxEdge.object e);
   KgxEdge.relation e; KgxEdge.primary_knowledge_source e; ""].

(** The text of a table: the header line, then a line for each row. *)
Definition table_text (header : list string) (rows : list (list string)) : string :=
  tsv_line header +:+ String.concat "" (tsv_line <$> rows).

(** The node and the edge the builder makes of a row. *)
Definition value_of (row : SourceRow) (key : string) : option string :=
  default None (named row !! key).

Definition node_of (row : SourceRow) : KgxNode.t :=
  KgxNode.mk (value_of row "DatabaseID") category (value_of row "DiseaseName") provided_by.

Definition edge_of (row : SourceRow) (phenotype_is_present : bool) : KgxEdge.t :=
  KgxEdge.mk
    ("urn:uuid:" +:+ Uuid.str (Uuid.uuid3 Uuid.NAMESPACE_DNS
       (text_of (value_of row "DatabaseID") +:+ "-" +:+
        text_of (value_of row "HPO_ID") +:+ "-" +:+ str_of_bool phenotype_is_present)))
    (value_of row "DatabaseID") has_phenotype (value_of row "HPO_ID") has_symptom
    provided_by phenotype_to_disease_association (value_of row "Reference").

(** Every edge starts at a node of the node set. *)
Definition endpoints_covered (acc : gset KgxNode.t * gset KgxEdge.t) : Prop :=
  forall e, e ∈ acc.2 -> exists n, n ∈ acc.1 /\ KgxNode.id n = KgxEdge.subject e.

(** A line without a line end inside. *)
Definition plain (line : string) : Prop :=
  Forall (fun c => c <> LF /\ c <> CR) (String.list_ascii_of_string line).

(** What the loop keeps of a row: the row and its presence boolean, or
    nothing when the row is passed over. *)
Definition retained (self : DiseaseAnnotations) (row : SourceRow)
  : option (SourceRow * bool) :=
  match classify row with
  | Ok present =>
      if negb (_add_excluded_phenotype self) && negb present then None
      else Some (row, present)
  | Raise _ => None
  end.

(** The nodes and the edges of the rows kept, in the order of the rows. *)
Definition nodes_of (self : DiseaseAnnotations) (rows : list SourceRow) : list KgxNode.t :=
  (fun rp => node_of rp.1) <$> omap (retained self) rows.

Definition edges_of (self : DiseaseAnnotations) (rows : list SourceRow) : list KgxEdge.t :=
  (fun rp => edge_of rp.1 rp.2) <$> omap (retained self) rows.

(** The reader of [parse] fed the characters of a piece of a line. *)
Fixpoint feed (r : csv.Reader) (s : string) : result csv.Reader :=
  match s with
  | EmptyString => Ok r
  | String c s' => r' ← csv.parse_process_char TsvDialect r (Some c); feed r' s'
  end.

(** The length of a text in code points. *)
Fixpoint code_points (s : string) : Z :=
  match s with
  | EmptyString => 0
  | String c s' => (if csv.starts_code_point c then 1 else 0) + code_points s'
  end.

(** A field that the reader of [parse] gives back as the writer of [parse]
    was given it: no line end inside, no space at the start, and no longer
    than the reader's limit. *)
Definition readable (f : string) : Prop :=
  plain f /\ (forall f', f <> String SPACE f') /\ code_points f <= csv.field_limit.

(** The file system with the text of the file at [path] set. *)
Definition with_file (fs : filesystem) (path : string) (text : string) : filesystem :=
  mkFilesystem (<[path := text]> (files fs)) (refused fs).

(** A line as a file opened with [newline=''] hands it over: no line end
    inside, and at its end a line feed, a carriage return, the two, or
    nothing, for the last line of a file. *)
Definition file_line (line : string) : Prop :=
  exists body ending,
    line = body +:+ ending /\ plain body
    /\ ending ∈ [""; String LF ""; String CR ""; String CR (String LF "")].

(** The exceptions of the library that [parse] lets through. *)
Definition field_limit_error : exn :=
  csv_Error "field larger than field limit (131072)".

(** [str.join] on an item that is [None]; the message is kept without the
    position of the item. *)
Definition join_error : exn :=
  TypeError "sequence item: expected str instance, NoneType found".

Definition gzip_error : exn :=
  ValueError "Argument 'newline' not supported in binary mode".

(** A result of the reader: a value with the property [P], or the error of
    the field limit. *)
Definition reader_result {A} (P : A -> Prop) (r : result A) : Prop :=
  match r with
  | Ok a => P a
  | Raise e => e = field_limit_error
  end.

(** A record the loop takes in or passes over: four readable fields or
    more, the third of them [''] or ['NOT']. *)
Definition well_formed (record : list string) : Prop :=
  (4 <= length record)%nat /\ Forall readable record
  /\ (record !! 2%nat = Some "" \/ record !! 2%nat = Some "NOT").

(** The file [run] reads when it is given none. *)
Definition default_data_file (self : DiseaseAnnotations) : string :=
  os_path_join (input_base_dir self) "phenotype.hpoa".

(** A text without the spaces at its start. *)
Fixpoint lstrip (s : string) : string :=
  match s with
  | EmptyString => ""
  | String c s' => if bool_decide (c = SPACE) then lstrip s' else s
  end.

(** A field without a line end inside that is, without the spaces at its
    start, no longer than the reader's limit. *)
Definition spaced (f : string) : Prop :=
  plain f /\ code_points (lstrip f) <= csv.field_limit.

(** A text of [n] lower-case hexadecimal digits. *)
Definition hex_text (n : nat) (s : string) : Prop :=
  String.length s = n
  /\ Forall (fun c => c ∈ String.list_ascii_of_string "0123456789abcdef")
       (String.list_ascii_of_string s).

(** The text of a UUID of version 3 and of the RFC 4122 variant: groups of
    8, 4, 4, 4 and 12 digits, the third starting with the version and the
    fourth with the variant. *)
Definition uuid3_text (s : string) : Prop :=
  exists (a b c d e : string) (variant : ascii),
    s = a +:+ "-" +:+ b +:+ "-" +:+ String "3" c +:+ "-" +:+ String variant d +:+ "-" +:+ e
    /\ hex_text 8 a /\ hex_text 4 b /\ hex_text 3 c /\ hex_text 3 d /\ hex_text 12 e
    /\ variant ∈ String.list_ascii_of_string "89ab".

(** The lines behind the preamble of an annotation file: a record, written
    as the dialect writes it, or an empty line. *)
Definition line_text (line : option (list string)) : string :=
  match line with
  | Some record => tsv_line record
  | None => String LF ""
  end.

Definition lines_text (lines : list (option (list string))) : string :=
  String.concat "" (line_text <$> lines).

(** The records among the lines. *)
Definition records_of (lines : list (option (list string))) : list (list string) :=
  omap id lines.

(** An empty line, or a record of two readable fields or more. *)
Definition record_line (line : option (list string)) : Prop :=
  match line with
  | Some record => (2 <= length record)%nat /\ Forall readable record
  | None => True
  end.

(** An annotation file for the examples: the five lines of the preamble and
    the given records, one to a line, and a disk with that file only. *)
Definition preamble : string :=
  tsv_line ["#description: HPO annotations for rare diseases"]
  +:+ tsv_line ["#date: 2020-03-27"]
  +:+ tsv_line ["#tracker: https://github.com/obophenotype/human-phenotype-ontology"]
  +:+ tsv_line ["#HPO-version: http://purl.obolibrary.org/obo/hp.obo/hp/releases/2020-03-27"]
  +:+ tsv_line ["DatabaseID"; "DiseaseName"; "Qualifier"; "HPO_ID"; "Reference";
                "Evidence"; "Onset"; "Frequency"; "Sex"; "Modifier"; "Aspect";
                "Biocuration"].

Definition hpoa_text (records : list (list string)) : string :=
  preamble +:+ String.concat "" (tsv_line <$> records).

Definition hpoa_path : string := "data/raw/phenotype.hpoa".

Definition disk (text : string) : filesystem :=
  mkFilesystem {[hpoa_path := text]} ∅.

(** A record of twelve fields, the first five given. *)
Definition record_of (disease_id disease_name qualifier hpo_id reference : string)
  : list string :=
  [disease_id; disease_name; qualifier; hpo_id; reference;
   "TAS"; ""; ""; ""; ""; "P"; "HPO:probinson[2020-03-27]"].

(** * Properties *)

(** ** The standard library pieces, on known values *)

Example md5_empty :
  Uuid.hex 32 (Uuid.int_from_bytes (Md5.digest [])) "" = "d41d8cd98f00b204e9800998ecf8427e".
Proof. vm_compute. reflexivity. Qed.

Example md5_abc :
  Uuid.hex 32 (Uuid.int_from_bytes (Md5.digest (Uuid.bytes_of_string "abc"))) ""
  = "900150983cd24fb0d6963f7d28e17f72".
Proof. vm_compute. reflexivity. Qed.

(** Messages longer than one block exercise the padding. *)
Example md5_two_blocks :
  Uuid.hex 32 (Uuid.int_from_bytes (Md5.digest (repeat 97 64))) ""
  = "014842d480b571495a4a0363793f7367"
  /\ Uuid.hex 32 (Uuid.int_from_bytes (Md5.digest (repeat 97 56))) ""
     = "3b0c8ac703f828b04c6c197006d17218"
  /\ Uuid.hex 32 (Uuid.int_from_bytes (Md5.digest (repeat 97 55))) ""
     = "ef1772b6dff9a122358552954ad0df65".
Proof. vm_compute. auto. Qed.

Example uuid3_python_org :
  Uuid.str (Uuid.uuid3 Uuid.NAMESPACE_DNS "python.org")
  = "6fa459ea-ee8a-3ca4-894e-db77e160355e".
Proof. vm_compute. reflexivity. Qed.

Example reader_escaped_line_end :
  csv.reader (iter_lines "" ("a\" +:+ String LF ("b" +:+ String TAB ("c" +:+ String LF "")))) TsvDialect
  = [Ok ["a" +:+ String LF "b"; "c"]].
Proof. vm_compute. reflexivity. Qed.

Example reader_blank_and_space_lines :
  csv.reader (iter_lines "" (String LF (" " +:+ String CR (String LF "x")))) TsvDialect
  = [Ok []; Ok [""]; Ok ["x"]].
Proof. vm_compute. reflexivity. Qed.

(** ** Strings *)

Lemma string_app_cons (c : ascii) (s t : string) : String c s +:+ t = String c (s +:+ t).
Proof. reflexivity. Qed.

Lemma string_app_nil_r (s : string) : s +:+ "" = s.
Proof. induction s as [|c s IH]; [done|]. by rewrite string_app_cons, IH. Qed.

Lemma string_app_assoc (s t u : string) : (s +:+ t) +:+ u = s +:+ (t +:+ u).
Proof. induction s as [|c s IH]; [done|]. by rewrite !string_app_cons, IH. Qed.

Lemma string_app_eq_nil (s t : string) : s +:+ t = "" -> s = "" /\ t = "".
Proof. destruct s; [done|]. by rewrite string_app_cons. Qed.

(** ** The writer of [parse] *)

Lemma wants_escape_tsv (c : ascii) :
  csv.wants_escape TsvDialect c
  = bool_decide (c = TAB) || bool_decide (c = BACKSLASH) || bool_decide (c = LF).
Proof. destruct c as [[] [] [] [] [] [] [] []]; reflexivity. Qed.

Lemma join_append_data_escape (s : string) :
  csv.join_append_data TsvDialect s = Ok (escape s).
Proof.
  induction s as [|c s IH]; [done|].
  cbn [csv.join_append_data escape]. rewrite IH, wants_escape_tsv.
  cbn [mbind result_bind]. by destruct (_ || _).
Qed.

Lemma join_append_tsv (rec : string) (n : nat) (field : option string) :
  csv.join_append TsvDialect (rec, n) field
  = Ok (rec +:+ (if (0 <? n)%nat then String TAB "" else "") +:+ escape (text_of field), S n).
Proof. unfold csv.join_append. by rewrite join_append_data_escape. Qed.


Lemma join_all_tsv (fields : list (option string)) (rec : string) (n : nat) :
  (0 < n)%nat ->
  csv.join_all TsvDialect (rec, n) fields
  = Ok (rec +:+ String.concat "" ((fun f => String TAB (escape (text_of f))) <$> fields),
        (n + length fields)%nat).
Proof.
  revert rec n. induction fields as [|f fields IH]; intros rec n Hn.
  - cbn. by rewrite string_app_nil_r, Nat.add_0_r.
  - cbn [csv.join_all]. rewrite join_append_tsv. cbn [mbind result_bind].
    rewrite IH by lia. destruct n; [lia|]. cbn [Nat.ltb Nat.leb length fmap list_fmap].
    f_equal. f_equal; [|lia].
    rewrite string_app_assoc. f_equal.
    destruct fields; cbn [fmap list_fmap String.concat]; by rewrite ?string_app_nil_r.
Qed.

Lemma concat_tabs (fields : list string) (f : string) :
  String.concat (String TAB "") (f :: fields)
  = f +:+ String.concat "" ((fun f => String TAB f) <$> fields).
Proof.
  revert f. induction fields as [|f' fields IH]; intros f.
  - cbn. by rewrite string_app_nil_r.
  - change (String.concat (String TAB "") (f :: f' :: fields))
      with (f +:+ String TAB "" +:+ String.concat (String TAB "") (f' :: fields)).
    rewrite IH. f_equal.
    destruct fields; cbn [fmap list_fmap String.concat]; by rewrite ?string_app_nil_r.
Qed.

(** With two fields or more the writer cannot fail: the record has a tab. *)
Lemma writerow_tsv (f0 f1 : option string) (fields : list (option string)) :
  csv.writerow TsvDialect (f0 :: f1 :: fields)
  = Ok (tsv_line (text_of <$> f0 :: f1 :: fields)).
Proof.
  unfold csv.writerow.
  change (csv.join_all TsvDialect ("", 0%nat) (f0 :: f1 :: fields))
    with (csv.join_append TsvDialect ("", 0%nat) f0
          ≫= fun acc => csv.join_all TsvDialect acc (f1 :: fields)).
  rewrite join_append_tsv.
  cbn [mbind result_bind Nat.ltb Nat.leb]. rewrite join_all_tsv by lia.
  cbn [mbind result_bind fst snd Nat.add Nat.ltb Nat.leb andb]. case_bool_decide as Hnil.
  - apply string_app_eq_nil in Hnil as [_ Hnil].
    cbn [fmap list_fmap] in Hnil.
    destruct fields; cbn [String.concat] in Hnil; [discriminate|].
    rewrite string_app_cons in Hnil. discriminate.
  - cbn [mret result_ret csv.lineterminator TsvDialect]. unfold tsv_line, os_linesep.
    f_equal. f_equal. cbn [fmap list_fmap]. rewrite concat_tabs.
    change ("" +:+ "" +:+ ?x) with x. f_equal.
    cbn [fmap list_fmap]. do 2 f_equal.
    rewrite <- !list_fmap_compose. reflexivity.
Qed.

Lemma node_dict_to_list (n : KgxNode.t) :
  csv.dict_to_list node_tsv_column_names (node_row n)
  = Ok [KgxNode.id n; Some (KgxNode.category n); KgxNode.name n;
        Some (KgxNode.provided_by n)].
Proof. destruct n. vm_compute. reflexivity. Qed.

Lemma edge_dict_to_list (e : KgxEdge.t) :
  csv.dict_to_list edge_tsv_column_names (edge_row e)
  = Ok [KgxEdge.subject e; Some (KgxEdge.predicate e); KgxEdge.object e;
        Some (KgxEdge.relation e); Some (KgxEdge.primary_knowledge_source e); Some ""].
Proof. destruct e. vm_compute. reflexivity. Qed.

Lemma node_writerow (n : KgxNode.t) :
  csv.DictWriter_writerow node_tsv_column_names TsvDialect (node_row n)
  = Ok (tsv_line (node_columns n)).
Proof.
  unfold csv.DictWriter_writerow. rewrite node_dict_to_list.
  cbn [mbind result_bind]. by rewrite writerow_tsv.
Qed.

Lemma edge_writerow (e : KgxEdge.t) :
  csv.DictWriter_writerow edge_tsv_column_names TsvDialect (edge_row e)
  = Ok (tsv_line (edge_columns e)).
Proof.
  unfold csv.DictWriter_writerow. rewrite edge_dict_to_list.
  cbn [mbind result_bind]. by rewrite writerow_tsv.
Qed.

Lemma node_writeheader :
  csv.DictWriter_writeheader node_tsv_column_names TsvDialect
  = Ok (tsv_line node_tsv_column_names).
Proof. vm_compute. reflexivity. Qed.

Lemma edge_writeheader :
  csv.DictWriter_writeheader edge_tsv_column_names TsvDialect
  = Ok (tsv_line edge_tsv_column_names).
Proof. vm_compute. reflexivity. Qed.

Lemma fh_write_with_file (fs : filesystem) (path text line : string) :
  fh_write (with_file fs path text) path line = with_file fs path (text +:+ line).
Proof.
  unfold fh_write, with_file. cbn [files refused].
  by rewrite lookup_insert_eq, insert_insert_eq.
Qed.

Lemma write_rows_lines (path : string) (fieldnames : list string)
    (rows : list (gmap string (option string))) (lines : list string)
    (fs : filesystem) (text : string) :
  Forall2 (fun row line => csv.DictWriter_writerow fieldnames TsvDialect row = Ok line)
          rows lines ->
  write_rows path fieldnames rows (with_file fs path text)
  = (with_file fs path (text +:+ String.concat "" lines), Ok tt).
Proof.
  intros Hrows. revert text.
  induction Hrows as [|row line rows lines Hrow _ IH]; intros text.
  - cbn. by rewrite string_app_nil_r.
  - cbn [write_rows]. rewrite Hrow, fh_write_with_file, IH.
    do 2 f_equal. rewrite string_app_assoc. f_equal.
    destruct lines; cbn [String.concat]; by rewrite ?string_app_nil_r.
Qed.

Lemma write_table_lines (path : string) (fieldnames : list string)
    (rows : list (gmap string (option string))) (header : string)
    (lines : list string) (fs : filesystem) :
  csv.DictWriter_writeheader fieldnames TsvDialect = Ok header ->
  Forall2 (fun row line => csv.DictWriter_writerow fieldnames TsvDialect row = Ok line)
          rows lines ->
  write_table path fieldnames rows fs
  = if bool_decide (path ∈ refused fs) then (fs, Raise (OSError path))
    else (with_file fs path (header +:+ String.concat "" lines), Ok tt).
Proof.
  intros Hheader Hrows. unfold write_table, open_w.
  case_bool_decide; [done|]. rewrite Hheader.
  change (mkFilesystem (<[path:=""]> (files fs)) (refused fs)) with (with_file fs path "").
  rewrite fh_write_with_file. by apply write_rows_lines.
Qed.

Lemma write_nodes (path : string) (nodes : list KgxNode.t) (fs : filesystem) :
  write_table path node_tsv_column_names (node_row <$> nodes) fs
  = if bool_decide (path ∈ refused fs) then (fs, Raise (OSError path))
    else (with_file fs path (table_text node_tsv_column_names (node_columns <$> nodes)),
          Ok tt).
Proof.
  unfold table_text. apply write_table_lines; [apply node_writeheader|].
  rewrite <- list_fmap_compose. apply Forall2_fmap, Forall_Forall2_diag, Forall_forall.
  intros n _. apply node_writerow.
Qed.

Lemma write_edges (path : string) (edges : list KgxEdge.t) (fs : filesystem) :
  write_table path edge_tsv_column_names (edge_row <$> edges) fs
  = if bool_decide (path ∈ refused fs) then (fs, Raise (OSError path))
    else (with_file fs path (table_text edge_tsv_column_names (edge_columns <$> edges)),
          Ok tt).
Proof.
  unfold table_text. apply write_table_lines; [apply edge_writeheader|].
  rewrite <- list_fmap_compose. apply Forall2_fmap, Forall_Forall2_diag, Forall_forall.
  intros e _. apply edge_writerow.
Qed.

(** The write phase cannot fail but on opening a file. *)
Lemma write_phase_spec (self : DiseaseAnnotations) (nodes : list KgxNode.t)
    (edges : list KgxEdge.t) (fs : filesystem) :
  write_phase self nodes edges fs
  = if bool_decide (nodes_out_path self ∈ refused fs)
    then (fs, Raise (OSError (nodes_out_path self)))
    else
      let fs' := with_file fs (nodes_out_path self)
                   (table_text node_tsv_column_names (node_columns <$> nodes)) in
      if bool_decide (edges_out_path self ∈ refused fs)
      then (fs', Raise (OSError (edges_out_path self)))
      else (with_file fs' (edges_out_path self)
              (table_text edge_tsv_column_names (edge_columns <$> edges)), Ok tt).
Proof.
  unfold write_phase. rewrite write_nodes. case_bool_decide; [done|].
  rewrite write_edges. reflexivity.
Qed.

(** ** The rows of the reader *)

(** The reader fills every name of the header: the first five hold the
    first five fields of the record, or [None] where the record is short. *)
Lemma parsed_fields (record : list string) :
  getitem (parsed record) "DatabaseID" = Ok (record !! 0%nat)
  /\ getitem (parsed record) "DiseaseName" = Ok (record !! 1%nat)
  /\ getitem (parsed record) "Qualifier" = Ok (record !! 2%nat)
  /\ getitem (parsed record) "HPO_ID" = Ok (record !! 3%nat)
  /\ getitem (parsed record) "Reference" = Ok (record !! 4%nat).
Proof. do 13 (try destruct record as [|? record]); vm_compute; auto. Qed.

Lemma getitem_value_of (row : SourceRow) (key : string) (v : option string) :
  getitem row key = Ok v -> value_of row key = v.
Proof.
  unfold getitem, value_of. destruct (named row !! key); intros [=]. by subst.
Qed.

(** ** The builder *)

Ltac bind_cases H :=
  repeat match type of H with
  | context [getitem ?row ?key] =>
      let E := fresh "Hget" in
      destruct (getitem row key) eqn:E; cbn [mbind result_bind] in H; [|discriminate H];
      apply getitem_value_of in E
  end.

Lemma str_join_three (a b c : option string) (s : string) :
  str_join "-" [a; b; c] = Ok s ->
  is_Some a /\ is_Some b /\ is_Some c
  /\ s = text_of a +:+ "-" +:+ text_of b +:+ "-" +:+ text_of c.
Proof.
  destruct a, b, c; cbn; intros [=]; subst; eauto 10.
Qed.

(** What [add_row] does when it does not raise. *)
Lemma add_row_Ok (row : SourceRow) (present : bool)
    (acc acc' : gset KgxNode.t * gset KgxEdge.t) :
  add_row row present acc = Ok acc' ->
  acc' = ({[node_of row]} ∪ acc.1, {[edge_of row present]} ∪ acc.2)
  /\ is_Some (value_of row "DatabaseID") /\ is_Some (value_of row "HPO_ID").
Proof.
  unfold add_row. intros H. bind_cases H.
  unfold edge_id in H.
  destruct (str_join _ _) as [name|] eqn:Hjoin; cbn [mbind result_bind mret result_ret] in H;
    [|discriminate H].
  apply str_join_three in Hjoin as (Hd & Hh & _ & ->).
  bind_cases H. injection H as <-. subst. unfold node_of, edge_of. auto.
Qed.

(** [add_row] succeeds on a row that has a disease and a phenotype. *)
Lemma add_row_total (row : SourceRow) (present : bool)
    (acc : gset KgxNode.t * gset KgxEdge.t) (d h : string) (n r : option string) :
  getitem row "DatabaseID" = Ok (Some d) ->
  getitem row "DiseaseName" = Ok n ->
  getitem row "HPO_ID" = Ok (Some h) ->
  getitem row "Reference" = Ok r ->
  add_row row present acc
  = Ok ({[node_of row]} ∪ acc.1, {[edge_of row present]} ∪ acc.2).
Proof.
  intros Hd Hn Hh Hr. unfold add_row, edge_id, node_of, edge_of.
  rewrite Hd, Hn, Hh, Hr.
  rewrite (getitem_value_of _ _ _ Hd), (getitem_value_of _ _ _ Hn),
    (getitem_value_of _ _ _ Hh), (getitem_value_of _ _ _ Hr).
  reflexivity.
Qed.

(** [add_row] on the row of a record of four fields or more. *)
Lemma add_row_parsed (d n q h : string) (others : list string) (present : bool)
    (acc : gset KgxNode.t * gset KgxEdge.t) :
  let row := parsed (d :: n :: q :: h :: others) in
  add_row row present acc
  = Ok ({[node_of row]} ∪ acc.1, {[edge_of row present]} ∪ acc.2).
Proof.
  intros row.
  destruct (parsed_fields (d :: n :: q :: h :: others)) as (Hd & Hn & _ & Hh & Hr).
  by eapply add_row_total.
Qed.

(** The three ways through the body of the loop. *)
Lemma loop_body_cases (self : DiseaseAnnotations) (row : SourceRow)
    (acc : gset KgxNode.t * gset KgxEdge.t) :
  loop_body self row acc
  = match classify row with
    | Raise e => Raise e
    | Ok present =>
        if negb (_add_excluded_phenotype self) && negb present then Ok acc
        else add_row row present acc
    end.
Proof. unfold loop_body. by destruct (classify row). Qed.

Lemma classify_malformed (row : SourceRow) :
  malformed row ->
  exists q, getitem row "Qualifier" = Ok q
            /\ classify row = Raise (ValueError_unexpected_qualifier q row).
Proof.
  intros (q & Hq & Hne & Hnot). exists q. split; [done|].
  unfold classify. rewrite Hq. cbn [mbind result_bind].
  by rewrite !bool_decide_eq_false_2.
Qed.

Lemma for_rows_app (self : DiseaseAnnotations) (rows1 rows2 : list (result SourceRow))
    (acc : gset KgxNode.t * gset KgxEdge.t) :
  for_rows self (rows1 ++ rows2) acc
  = for_rows self rows1 acc ≫= for_rows self rows2.
Proof.
  revert acc. induction rows1 as [|[row|e] rows1 IH]; intros acc; cbn; [done| |done].
  destruct (loop_body self row acc); cbn; [apply IH|done].
Qed.

(** A malformed row anywhere makes the loop raise. *)
Lemma for_rows_malformed (self : DiseaseAnnotations) (rows : list (result SourceRow))
    (row : SourceRow) (acc : gset KgxNode.t * gset KgxEdge.t) :
  Ok row ∈ rows -> malformed row -> exists e, for_rows self rows acc = Raise e.
Proof.
  intros Hin Hbad. revert acc.
  induction rows as [|[row'|e] rows IH]; intros acc.
  - by apply elem_of_nil in Hin.
  - cbn [for_rows]. apply elem_of_cons in Hin as [[= <-]|Hin].
    + apply classify_malformed in Hbad as (q & _ & Hc).
      rewrite loop_body_cases, Hc. cbn. eauto.
    + destruct (loop_body self row' acc); cbn; eauto.
  - cbn. eauto.
Qed.

(** The first malformed row decides the error. *)
Lemma for_rows_first_malformed (self : DiseaseAnnotations)
    (before : list SourceRow) (row : SourceRow) (after : list (result SourceRow))
    (acc acc' : gset KgxNode.t * gset KgxEdge.t) (q : option string) :
  for_rows self (Ok <$> before) acc = Ok acc' ->
  getitem row "Qualifier" = Ok q -> q <> Some "" -> q <> Some "NOT" ->
  for_rows self ((Ok <$> before) ++ Ok row :: after) acc
  = Raise (ValueError_unexpected_qualifier q row).
Proof.
  intros Hbefore Hq Hne Hnot. rewrite for_rows_app, Hbefore. cbn.
  rewrite loop_body_cases. unfold classify. rewrite Hq. cbn.
  by rewrite !bool_decide_eq_false_2.
Qed.

(** ** The phases of [parse] *)

Lemma read_phase_rows (self : DiseaseAnnotations) (fs : filesystem) (data_file : string)
    (compression : option string) (text : string) (rows : list (result SourceRow)) :
  _open_file fs data_file compression = Ok text ->
  rows_of self text = Ok rows ->
  read_phase self fs data_file compression = for_rows self rows (∅, ∅).
Proof.
  intros Hopen Hrows. unfold read_phase. rewrite Hopen. cbn [mbind result_bind].
  by rewrite Hrows.
Qed.

(** When the read phase raises, [parse] raises the same and leaves the file
    system as it found it. *)
Lemma parse_read_raises (self : DiseaseAnnotations) (data_file : string)
    (compression : option string) (fs fs' : filesystem) (r : result unit) (e : exn) :
  read_phase self fs data_file compression = Raise e ->
  parse self data_file compression fs fs' r ->
  fs' = fs /\ r = Raise e.
Proof.
  intros Hread Hparse. destruct Hparse as [e' Hread'|? ? ? ? ? ? Hread'];
    rewrite Hread in Hread'; by simplify_eq.
Qed.

(** When the read phase ends well, [parse] writes the two sets, each in some
    order. *)
Lemma parse_read_Ok (self : DiseaseAnnotations) (data_file : string)
    (compression : option string) (fs fs' : filesystem) (r : result unit)
    (nodes : gset KgxNode.t) (edges : gset KgxEdge.t) :
  read_phase self fs data_file compression = Ok (nodes, edges) ->
  parse self data_file compression fs fs' r ->
  exists node_order edge_order,
    iterates nodes node_order /\ iterates edges edge_order
    /\ write_phase self node_order edge_order fs = (fs', r).
Proof.
  intros Hread Hparse. destruct Hparse as [e' Hread'|? ? ? ? ? ? Hread'];
    rewrite Hread in Hread'; simplify_eq. eauto.
Qed.

(** [parse] always ends: [parse_run] is one of its runs. *)
Lemma parse_run_parse (self : DiseaseAnnotations) (data_file : string)
    (compression : option string) (fs : filesystem) :
  parse self data_file compression fs
    (parse_run self data_file compression fs).1
    (parse_run self data_file compression fs).2.
Proof.
  unfold parse_run.
  destruct (read_phase self fs data_file compression) as [[nodes edges]|e] eqn:Hread.
  - eapply parse_writes; [done| | |apply surjective_pairing]; by unfold iterates.
  - by apply parse_raises.
Qed.


Lemma iterates_singleton `{Countable A} (x : A) (l : list A) :
  iterates ({[x]} : gset A) l -> l = [x].
Proof. unfold iterates. rewrite elements_singleton. apply Permutation_singleton_r. Qed.

Lemma iterates_elem_of `{Countable A} (s : gset A) (l : list A) (x : A) :
  iterates s l -> x ∈ l <-> x ∈ s.
Proof. unfold iterates. intros ->. apply elem_of_elements. Qed.

Lemma iterates_NoDup `{Countable A} (s : gset A) (l : list A) :
  iterates s l -> NoDup l.
Proof. unfold iterates. intros ->. apply NoDup_elements. Qed.

(** The two output files are different files. *)
Lemma out_paths_differ (self : DiseaseAnnotations) :
  nodes_out_path self <> edges_out_path self.
Proof.
  unfold nodes_out_path, edges_out_path, os_path_join.
  cbn [String.prefix]. destruct (_ || _); intros Heq.
  - by apply (inj (String.app _)) in Heq.
  - by apply (inj (String.app _)), (inj (String.app _)) in Heq.
Qed.

Example rows_of_example :
  rows_of (configured false "data/raw" "data/transformed/HPOA")
    (hpoa_text [record_of "OMIM:101600" "DiseaseX" "" "HP:0001" "PMID:1"])
  = Ok [Ok (parsed (record_of "OMIM:101600" "DiseaseX" "" "HP:0001" "PMID:1"))].
Proof. vm_compute. reflexivity. Qed.

Example open_example text : _open_file (disk text) hpoa_path None = Ok text.
Proof. vm_compute. reflexivity. Qed.

(** ** C1: the classifier *)

(** C1.  The row of every record has a qualifier, the third field of the
    record or [None].  The classifier answers present for [''] and excluded
    for ['NOT']; on any other qualifier it raises the [ValueError] that
    carries the qualifier and the row, whatever the retain-excluded flag of
    [self] and whatever has been collected: the body of the loop raises it,
    and so does [parse] when the rows before are processed without error,
    leaving the file system as it was. *)
Theorem C1_qualifier_classification (self : DiseaseAnnotations) (record : list string) :
  let row := parsed record in
  let q := record !! 2%nat in
  getitem row "Qualifier" = Ok q
  /\ (q = Some "" -> classify row = Ok true)
  /\ (q = Some "NOT" -> classify row = Ok false)
  /\ (q <> Some "" -> q <> Some "NOT" ->
      classify row = Raise (ValueError_unexpected_qualifier q row)
      /\ (forall acc,
            loop_body self row acc = Raise (ValueError_unexpected_qualifier q row))
      /\ (forall data_file compression fs text before after acc fs' r,
            _open_file fs data_file compression = Ok text ->
            rows_of self text = Ok ((Ok <$> before) ++ Ok row :: after) ->
            for_rows self (Ok <$> before) (∅, ∅) = Ok acc ->
            parse self data_file compression fs fs' r ->
            r = Raise (ValueError_unexpected_qualifier q row) /\ fs' = fs)).
Proof.
  intros row q.
  destruct (parsed_fields record) as (_ & _ & Hq & _).
  fold row q in Hq. split; [done|].
  unfold classify. rewrite Hq. cbn [mbind result_bind].
  split; [by intros ->|]. split; [by intros ->|]. intros Hne Hnot.
  rewrite !bool_decide_eq_false_2 by done. split; [done|]. split.
  - intros acc. rewrite loop_body_cases. unfold classify. rewrite Hq.
    cbn [mbind result_bind]. by rewrite !bool_decide_eq_false_2.
  - intros data_file compression fs text before after acc fs' r Hopen Hrows Hbefore Hparse.
    eapply parse_read_raises in Hparse as [-> ->]; [done|].
    rewrite (read_phase_rows _ _ _ _ _ _ Hopen Hrows).
    by eapply for_rows_first_malformed.
Qed.

Lemma C1_qualifier_classification_witness :
  classify (parsed (record_of "OMIM:101600" "DiseaseX" "" "HP:0001" "PMID:1")) = Ok true
  /\ classify (parsed (record_of "OMIM:101600" "DiseaseX" "NOT" "HP:0001" "PMID:1")) = Ok false
  /\ (let record := record_of "OMIM:101600" "DiseaseX" "MAYBE" "HP:0001" "PMID:1" in
      let self := configured true "data/raw" "out" in
      forall fs' r,
        parse self hpoa_path None
          (disk (hpoa_text [record_of "OMIM:1" "A" "" "HP:0002" "PMID:2"; record]))
          fs' r ->
        r = Raise (ValueError_unexpected_qualifier (Some "MAYBE") (parsed record))
        /\ fs' = disk (hpoa_text [record_of "OMIM:1" "A" "" "HP:0002" "PMID:2"; record]))
  /\ classify (parsed ["OMIM:101600"; "DiseaseX"])
     = Raise (ValueError_unexpected_qualifier None (parsed ["OMIM:101600"; "DiseaseX"])).
Proof.
  split.
  { apply (C1_qualifier_classification (configured false "" "")
             (record_of "OMIM:101600" "DiseaseX" "" "HP:0001" "PMID:1")).
    reflexivity. }
  split.
  { apply (C1_qualifier_classification (configured false "" "")
             (record_of "OMIM:101600" "DiseaseX" "NOT" "HP:0001" "PMID:1")).
    reflexivity. }
  split.
  { intros record self fs' r.
    refine (proj2 (proj2 (proj2 (proj2 (proj2 (C1_qualifier_classification self record)))
              _ _)) hpoa_path None _ _
              [parsed (record_of "OMIM:1" "A" "" "HP:0002" "PMID:2")] [] _ fs' r
              _ _ _).
    - discriminate.
    - discriminate.
    - reflexivity.
    - vm_compute. reflexivity.
    - cbn [fmap list_fmap for_rows]. rewrite loop_body_cases.
      change (classify _) with (Ok (A:=bool) true). cbn [negb andb].
      unfold record_of. rewrite add_row_parsed. reflexivity. }
  apply (C1_qualifier_classification (configured false "" "") ["OMIM:101600"; "DiseaseX"]);
    discriminate.
Defined.

(** ** C2: the identifier of an edge *)

(** C2.  When the builder takes a row in, the row has a disease and a
    phenotype, and the edge it inserts has for identifier ["urn:uuid:"]
    followed by the version-3 UUID, in the DNS namespace, of the disease, the
    phenotype and the presence boolean as a string, joined by ["-"].  So two
    rows that agree on the three give edges with the same identifier,
    whatever else they hold and whatever was collected before. *)
Theorem C2_edge_identifier (row : SourceRow) (present : bool)
    (acc acc' : gset KgxNode.t * gset KgxEdge.t) :
  add_row row present acc = Ok acc' ->
  exists disease_id hpo_id,
    getitem row "DatabaseID" = Ok (Some disease_id)
    /\ getitem row "HPO_ID" = Ok (Some hpo_id)
    /\ acc'.2 = {[edge_of row present]} ∪ acc.2
    /\ KgxEdge.id (edge_of row present)
       = "urn:uuid:" +:+ Uuid.str (Uuid.uuid3 Uuid.NAMESPACE_DNS
           (disease_id +:+ "-" +:+ hpo_id +:+ "-" +:+ str_of_bool present))
    /\ forall row2 acc2 acc2',
         add_row row2 present acc2 = Ok acc2' ->
         getitem row2 "DatabaseID" = Ok (Some disease_id) ->
         getitem row2 "HPO_ID" = Ok (Some hpo_id) ->
         acc2'.2 = {[edge_of row2 present]} ∪ acc2.2
         /\ KgxEdge.id (edge_of row2 present) = KgxEdge.id (edge_of row present).
Proof.
  intros Hadd. pose proof Hadd as Hok.
  apply add_row_Ok in Hok as (-> & [d Hd] & [h Hh]).
  assert (Hgd : getitem row "DatabaseID" = Ok (Some d)).
  { unfold add_row in Hadd. unfold getitem in *. unfold value_of in Hd.
    destruct (named row !! "DatabaseID"); [cbn in Hd; by subst|].
    destruct (named row !! "DiseaseName"); discriminate. }
  assert (Hgh : getitem row "HPO_ID" = Ok (Some h)).
  { unfold add_row in Hadd. unfold getitem in *. unfold value_of in Hh.
    destruct (named row !! "HPO_ID"); [cbn in Hh; by subst|].
    destruct (named row !! "DiseaseName"), (named row !! "DatabaseID"); discriminate. }
  exists d, h. split; [done|]. split; [done|]. split; [done|].
  unfold edge_of at 1. cbn [KgxEdge.id]. rewrite Hd, Hh. split; [done|].
  intros row2 acc2 acc2' Hadd2 Hd2 Hh2.
  apply add_row_Ok in Hadd2 as (-> & _). split; [done|].
  unfold edge_of. cbn [KgxEdge.id].
  by rewrite (getitem_value_of _ _ _ Hd2), (getitem_value_of _ _ _ Hh2), Hd, Hh.
Qed.


Lemma C2_edge_identifier_witness :
  let row := parsed (record_of "OMIM:101600" "DiseaseX" "" "HP:0001" "PMID:1") in
  let row2 := parsed (record_of "OMIM:101600" "Another name" "" "HP:0001" "PMID:2") in
  KgxEdge.id (edge_of row true) = "urn:uuid:e9548203-929b-3c25-b9c2-8a3f4ab67528"
  /\ KgxEdge.id (edge_of row2 true) = KgxEdge.id (edge_of row true).
Proof.
  intros row row2.
  pose proof (add_row_parsed "OMIM:101600" "DiseaseX" "" "HP:0001" _ true (∅, ∅)
                : add_row row true (∅, ∅) = _) as Hadd.
  pose proof (add_row_parsed "OMIM:101600" "Another name" "" "HP:0001" _ true (∅, ∅)
                : add_row row2 true (∅, ∅) = _) as Hadd2.
  destruct (C2_edge_identifier row true (∅, ∅) _ Hadd) as (d & h & Hd & Hh & _ & Hid & Hsame).
  assert (d = "OMIM:101600" /\ h = "HP:0001") as [-> ->].
  { vm_compute in Hd, Hh. injection Hd as Hd. injection Hh as Hh.
    split; symmetry; assumption. }
  split.
  - rewrite Hid. vm_compute. reflexivity.
  - refine (proj2 (Hsame row2 (∅, ∅) _ Hadd2 _ _)); vm_compute; reflexivity.
Defined.

(** ** C3: excluded phenotypes *)




(** ** C4: every edge starts at a node *)

Lemma loop_body_covered (self : DiseaseAnnotations) (row : SourceRow)
    (acc acc' : gset KgxNode.t * gset KgxEdge.t) :
  endpoints_covered acc -> loop_body self row acc = Ok acc' -> endpoints_covered acc'.
Proof.
  intros Hcov. rewrite loop_body_cases.
  destruct (classify row) as [present|e]; [|discriminate].
  destruct (negb _ && negb _); [by intros [= <-]|].
  intros Hadd. apply add_row_Ok in Hadd as (-> & _ & _).
  intros e. cbn [fst snd]. rewrite elem_of_union, elem_of_singleton.
  intros [->|He].
  - exists (node_of row). split; [|reflexivity].
    apply elem_of_union_l, elem_of_singleton. reflexivity.
  - destruct (Hcov e He) as (n & Hn & Hid). exists n. split; [|exact Hid].
    apply elem_of_union_r. exact Hn.
Qed.

Lemma for_rows_covered (self : DiseaseAnnotations) (rows : list (result SourceRow))
    (acc acc' : gset KgxNode.t * gset KgxEdge.t) :
  endpoints_covered acc -> for_rows self rows acc = Ok acc' -> endpoints_covered acc'.
Proof.
  revert acc. induction rows as [|[row|e] rows IH]; intros acc Hcov; cbn [for_rows].
  - by intros [= <-].
  - destruct (loop_body self row acc) as [acc1|e] eqn:Hbody; [|discriminate].
    cbn [mbind result_bind]. apply IH. by eapply loop_body_covered.
  - discriminate.
Qed.

Lemma read_phase_covered (self : DiseaseAnnotations) (fs : filesystem)
    (data_file : string) (compression : option string)
    (acc : gset KgxNode.t * gset KgxEdge.t) :
  read_phase self fs data_file compression = Ok acc -> endpoints_covered acc.
Proof.
  unfold read_phase.
  destruct (_open_file fs data_file compression) as [text|e]; [|discriminate].
  cbn [mbind result_bind].
  destruct (rows_of self text) as [rows|e]; [|discriminate].
  cbn [mbind result_bind]. apply for_rows_covered.
  intros e He. cbn [snd] in He. by apply elem_of_empty in He.
Qed.

(** C4.  When [parse] ends well, it has written a set of nodes and a set of
    edges, the ones the read phase built, and every edge of the edge set has
    for subject the identifier of some node of the node set. *)
Theorem C4_edge_subject_has_node (self : DiseaseAnnotations) (data_file : string)
    (compression : option string) (fs fs' : filesystem) :
  parse self data_file compression fs fs' (Ok tt) ->
  exists nodes edges,
    read_phase self fs data_file compression = Ok (nodes, edges)
    /\ forall e, e ∈ edges ->
         exists n, n ∈ nodes /\ KgxNode.id n = KgxEdge.subject e.
Proof.
  intros Hparse. inversion Hparse as [|nodes edges ? ? ? ? Hread]; subst.
  exists nodes, edges. split; [exact Hread|].
  apply (read_phase_covered _ _ _ _ _ Hread).
Qed.

Lemma C4_edge_subject_has_node_witness :
  let self := configured false "data/raw" "out" in
  let fs := disk (hpoa_text [record_of "OMIM:101600" "DiseaseX" "" "HP:0001" "PMID:1";
                             record_of "OMIM:101600" "DiseaseX" "" "HP:0002" "PMID:1"]) in
  (parse_run self hpoa_path None fs).2 = Ok tt
  /\ exists nodes edges,
       read_phase self fs hpoa_path None = Ok (nodes, edges)
       /\ forall e, e ∈ edges -> exists n, n ∈ nodes /\ KgxNode.id n = KgxEdge.subject e.
Proof.
  intros self fs.
  assert (Hok : (parse_run self hpoa_path None fs).2 = Ok tt).
  { vm_compute. reflexivity. }
  split; [exact Hok|].
  apply (C4_edge_subject_has_node self hpoa_path None fs
           (parse_run self hpoa_path None fs).1).
  rewrite <- Hok. apply parse_run_parse.
Defined.

(** ** C5: the columns written *)

(** What the two files hold once the write phase has ended well. *)
Lemma write_phase_Ok (self : DiseaseAnnotations) (nodes : list KgxNode.t)
    (edges : list KgxEdge.t) (fs fs' : filesystem) :
  write_phase self nodes edges fs = (fs', Ok tt) ->
  fs' = with_file (with_file fs (nodes_out_path self)
                     (table_text node_tsv_column_names (node_columns <$> nodes)))
          (edges_out_path self)
          (table_text edge_tsv_column_names (edge_columns <$> edges))
  /\ (nodes_out_path self ∉ refused fs) /\ (edges_out_path self ∉ refused fs).
Proof.
  rewrite write_phase_spec. case_bool_decide as Hn; [discriminate|].
  cbn zeta. case_bool_decide as He; [discriminate|]. by intros [= <-].
Qed.

(** C5.  The node file has the columns id, category, name, provided_by and
    the edge file the columns subject, predicate, object, relation,
    provided_by and a last column without a name.  The writer writes the
    header line of either file and, for a node, the line of its four fields
    in that order, and for an edge the line of its subject, predicate,
    object, relation and source followed by an empty field; it refuses no
    node and no edge.  Wherever the two files may be opened, the write phase
    ends well and leaves exactly these files: the node file with the header
    line and the line of each node in turn, the edge file with the header
    line and the line of each edge in turn.  So every run of [parse] whose
    read phase has built the two sets ends well there, with a line for each
    node and each edge of the sets, once, behind the header lines.  The
    identifier, the category and the publications of an edge are not among
    the columns and have no part in the line of the edge. *)
Theorem C5_written_columns :
  node_tsv_column_names = ["id"; "category"; "name"; "provided_by"]
  /\ edge_tsv_column_names
     = ["subject"; "predicate"; "object"; "relation"; "provided_by"; ""]
  /\ csv.DictWriter_writeheader node_tsv_column_names TsvDialect
     = Ok (tsv_line ["id"; "category"; "name"; "provided_by"])
  /\ csv.DictWriter_writeheader edge_tsv_column_names TsvDialect
     = Ok (tsv_line ["subject"; "predicate"; "object"; "relation"; "provided_by"; ""])
  /\ (forall n,
        csv.DictWriter_writerow node_tsv_column_names TsvDialect (node_row n)
        = Ok (tsv_line [text_of (KgxNode.id n); KgxNode.category n;
                        text_of (KgxNode.name n); KgxNode.provided_by n]))
  /\ (forall e,
        csv.DictWriter_writerow edge_tsv_column_names TsvDialect (edge_row e)
        = Ok (tsv_line [text_of (KgxEdge.subject e); KgxEdge.predicate e;
                        text_of (KgxEdge.object e); KgxEdge.relation e;
                        KgxEdge.primary_knowledge_source e; ""]))
  /\ (forall self nodes edges fs,
        nodes_out_path self ∉ refused fs -> edges_out_path self ∉ refused fs ->
        write_phase self nodes edges fs
        = (with_file
             (with_file fs (nodes_out_path self)
                (table_text ["id"; "category"; "name"; "provided_by"]
                   ((fun n => [text_of (KgxNode.id n); KgxNode.category n;
                               text_of (KgxNode.name n); KgxNode.provided_by n])
                    <$> nodes)))
             (edges_out_path self)
             (table_text
                ["subject"; "predicate"; "object"; "relation"; "provided_by"; ""]
                ((fun e => [text_of (KgxEdge.subject e); KgxEdge.predicate e;
                            text_of (KgxEdge.object e); KgxEdge.relation e;
                            KgxEdge.primary_knowledge_source e; ""])
                 <$> edges)),
           Ok tt))
  /\ (forall self nodes edges fs fs',
        write_phase self nodes edges fs = (fs', Ok tt) ->
        files fs' !! nodes_out_path self
        = Some (table_text ["id"; "category"; "name"; "provided_by"]
                  ((fun n => [text_of (KgxNode.id n); KgxNode.category n;
                              text_of (KgxNode.name n); KgxNode.provided_by n])
                   <$> nodes))
        /\ files fs' !! edges_out_path self
           = Some (table_text
                     ["subject"; "predicate"; "object"; "relation"; "provided_by"; ""]
                     ((fun e => [text_of (KgxEdge.subject e); KgxEdge.predicate e;
                                 text_of (KgxEdge.object e); KgxEdge.relation e;
                                 KgxEdge.primary_knowledge_source e; ""])
                      <$> edges)))
  /\ (forall self data_file compression fs fs' r nodes edges,
        read_phase self fs data_file compression = Ok (nodes, edges) ->
        parse self data_file compression fs fs' r ->
        nodes_out_path self ∉ refused fs -> edges_out_path self ∉ refused fs ->
        r = Ok tt
        /\ exists node_order edge_order,
             iterates nodes node_order /\ iterates edges edge_order
             /\ files fs' !! nodes_out_path self
                = Some (table_text ["id"; "category"; "name"; "provided_by"]
                          ((fun n => [text_of (KgxNode.id n); KgxNode.category n;
                                      text_of (KgxNode.name n); KgxNode.provided_by n])
                           <$> node_order))
             /\ files fs' !! edges_out_path self
                = Some (table_text
                          ["subject"; "predicate"; "object"; "relation"; "provided_by"; ""]
                          ((fun e => [text_of (KgxEdge.subject e); KgxEdge.predicate e;
                                      text_of (KgxEdge.object e); KgxEdge.relation e;
                                      KgxEdge.primary_knowledge_source e; ""])
                           <$> edge_order)))
  /\ (forall id subject predicate object relation source category publications
             id' category' publications',
        csv.DictWriter_writerow edge_tsv_column_names TsvDialect
          (edge_row (KgxEdge.mk id subject predicate object relation source
                       category publications))
        = csv.DictWriter_writerow edge_tsv_column_names TsvDialect
            (edge_row (KgxEdge.mk id' subject predicate object relation source
                         category' publications')))
  /\ ("id" ∉ edge_tsv_column_names) /\ ("category" ∉ edge_tsv_column_names)
  /\ ("publications" ∉ edge_tsv_column_names).
Proof.
  assert (Hfiles : forall (fs : filesystem) pn pe tn te, pn <> pe ->
            files (with_file (with_file fs pn tn) pe te) !! pn = Some tn
            /\ files (with_file (with_file fs pn tn) pe te) !! pe = Some te).
  { intros fs pn pe tn te Hne. unfold with_file. cbn [files]. split.
    - rewrite lookup_insert_ne by (intros Heq; by apply Hne).
      by rewrite lookup_insert_eq.
    - by rewrite lookup_insert_eq. }
  split; [reflexivity|]. split; [reflexivity|].
  split; [exact node_writeheader|]. split; [exact edge_writeheader|].
  split; [exact node_writerow|]. split; [exact edge_writerow|]. split.
  { intros self nodes edges fs Hn He. rewrite write_phase_spec. cbn zeta.
    by rewrite (bool_decide_eq_false_2 _ Hn), (bool_decide_eq_false_2 _ He). }
  split.
  { intros self nodes edges fs fs' Hwrite.
    apply write_phase_Ok in Hwrite as (-> & _ & _).
    apply Hfiles, out_paths_differ. }
  split.
  { intros self data_file compression fs fs' r nodes edges Hread Hparse Hn He.
    destruct (parse_read_Ok _ _ _ _ _ _ _ _ Hread Hparse)
      as (node_order & edge_order & Hno & Heo & Hwrite).
    rewrite write_phase_spec in Hwrite. cbn zeta in Hwrite.
    rewrite (bool_decide_eq_false_2 _ Hn), (bool_decide_eq_false_2 _ He) in Hwrite.
    apply pair_equal_spec in Hwrite as [<- <-]. split; [reflexivity|].
    exists node_order, edge_order. split; [exact Hno|]. split; [exact Heo|].
    apply Hfiles, out_paths_differ. }
  split; [reflexivity|].
  unfold edge_tsv_column_names. rewrite !elem_of_cons, !elem_of_nil.
  repeat split; intros H; repeat destruct H as [H|H]; try discriminate H; exact H.
Qed.

Lemma C5_written_columns_witness :
  let self := configured false "data/raw" "out" in
  let node := KgxNode.mk (Some "OMIM:101600") "biolink:Disease" (Some "DiseaseX") "HPO:hpoa" in
  let edge := KgxEdge.mk "urn:uuid:e9548203-929b-3c25-b9c2-8a3f4ab67528"
                (Some "OMIM:101600") "biolink:has_phenotype" (Some "HP:0001")
                "RO:0002200" "HPO:hpoa" "biolink:PhenotypeToDiseaseAssociation"
                (Some "PMID:1") in
  let written := write_phase self [node] [edge] (mkFilesystem ∅ ∅) in
  written.2 = Ok tt
  /\ files written.1 !! "out/HPOA_nodes.tsv"
     = Some (tsv_line ["id"; "category"; "name"; "provided_by"]
             +:+ tsv_line ["OMIM:101600"; "biolink:Disease"; "DiseaseX"; "HPO:hpoa"])
  /\ files written.1 !! "out/HPOA_edges.tsv"
     = Some (tsv_line ["subject"; "predicate"; "object"; "relation"; "provided_by"; ""]
             +:+ tsv_line ["OMIM:101600"; "biolink:has_phenotype"; "HP:0001";
                           "RO:0002200"; "HPO:hpoa"; ""]).
Proof.
  intros self node edge written.
  destruct C5_written_columns as (_ & _ & _ & _ & _ & _ & Hwrite & Hfiles & _).
  assert (Hwritten : written.2 = Ok tt).
  { unfold written. rewrite (Hwrite self [node] [edge] (mkFilesystem ∅ ∅)).
    - reflexivity.
    - vm_compute. intros H. discriminate H.
    - vm_compute. intros H. discriminate H. }
  split; [exact Hwritten|].
  destruct (Hfiles self [node] [edge] (mkFilesystem ∅ ∅) written.1) as [Hn He].
  { rewrite <- Hwritten. apply surjective_pairing. }
  split; [exact Hn|exact He].
Defined.

(** ** C6: one asserted row, end to end *)

(** A line without a line end inside, and its line feed, is one line of the
    file, whatever it holds. *)
Lemma iter_lines_plain (line : string) (cur text : string) :
  plain line ->
  iter_lines cur (line +:+ String LF text)
  = (cur +:+ line +:+ String LF "") :: iter_lines "" text.
Proof.
  unfold plain. revert cur. induction line as [|c line IH]; intros cur Hplain.
  - change ("" +:+ String LF text) with (String LF text). cbn [iter_lines].
    rewrite bool_decide_eq_true_2 by reflexivity. reflexivity.
  - cbn [String.list_ascii_of_string] in Hplain.
    apply Forall_cons in Hplain as [[Hlf Hcr] Hplain].
    rewrite string_app_cons. cbn [iter_lines].
    rewrite !bool_decide_eq_false_2 by done. rewrite IH by done.
    by rewrite string_app_assoc.
Qed.

(** The first five lines are passed over, whatever they hold. *)
Lemma skip_preamble (p1 p2 p3 p4 p5 body : string) :
  plain p1 -> plain p2 -> plain p3 -> plain p4 -> plain p5 ->
  skip_lines 5
    (iter_lines "" (p1 +:+ String LF (p2 +:+ String LF (p3 +:+ String LF
                   (p4 +:+ String LF (p5 +:+ String LF body))))))
  = Ok (iter_lines "" body).
Proof.
  intros H1 H2 H3 H4 H5. by rewrite !iter_lines_plain.
Qed.

(** The row of a record that has a disease, an empty qualifier and a
    phenotype is taken in as a present phenotype, under either flag. *)
Lemma loop_body_asserted (self : DiseaseAnnotations) (d n h : string)
    (others : list string) (acc : gset KgxNode.t * gset KgxEdge.t) :
  let row := parsed (d :: n :: "" :: h :: others) in
  loop_body self row acc
  = Ok ({[node_of row]} ∪ acc.1, {[edge_of row true]} ∪ acc.2).
Proof.
  intros row. rewrite loop_body_cases.
  destruct (parsed_fields (d :: n :: "" :: h :: others)) as (_ & _ & Hq & _).
  unfold classify. fold row in Hq. rewrite Hq. cbn [mbind result_bind lookup list_lookup].
  rewrite bool_decide_eq_true_2 by reflexivity. rewrite andb_false_r.
  apply add_row_parsed.
Qed.

Lemma parsed_columns (d n q h r : string) (others : list string) (present : bool) :
  let row := parsed (d :: n :: q :: h :: r :: others) in
  node_columns (node_of row) = [d; category; n; provided_by]
  /\ edge_columns (edge_of row present)
     = [d; has_phenotype; h; has_symptom; provided_by; ""]
  /\ KgxEdge.publications (edge_of row present) = Some r.
Proof.
  intros row.
  destruct (parsed_fields (d :: n :: q :: h :: r :: others)) as (Hd & Hn & _ & Hh & Hr).
  fold row in Hd, Hn, Hh, Hr.
  apply getitem_value_of in Hd, Hn, Hh, Hr.
  unfold node_columns, edge_columns, node_of, edge_of.
  cbn [KgxNode.id KgxNode.category KgxNode.name KgxNode.provided_by KgxEdge.subject
       KgxEdge.predicate KgxEdge.object KgxEdge.relation
       KgxEdge.primary_knowledge_source KgxEdge.publications].
  rewrite Hd, Hn, Hh, Hr. repeat split; reflexivity.
Qed.

(** C6.  Take a file of five lines, whatever they hold, followed by lines
    that the reader takes for the one record OMIM:101600, DiseaseX, an empty
    qualifier, HP:0001, PMID:1 and any further fields.  Under either flag,
    where [parse] may open its two output files it ends well; the node file
    then holds the header line and the one line OMIM:101600,
    biolink:Disease, DiseaseX, HPO:hpoa, and the edge file the header line
    and the one line OMIM:101600, biolink:has_phenotype, HP:0001,
    RO:0002200, HPO:hpoa and an empty last field. *)
Theorem C6_one_asserted_row (flag : bool) (input_dir out_dir data_file : string)
    (fs : filesystem) (p1 p2 p3 p4 p5 body : string) (others : list string) :
  let self := configured flag input_dir out_dir in
  plain p1 -> plain p2 -> plain p3 -> plain p4 -> plain p5 ->
  open_r fs data_file
  = Ok (p1 +:+ String LF (p2 +:+ String LF (p3 +:+ String LF
       (p4 +:+ String LF (p5 +:+ String LF body))))) ->
  csv.reader (iter_lines "" body) TsvDialect
  = [Ok ("OMIM:101600" :: "DiseaseX" :: "" :: "HP:0001" :: "PMID:1" :: others)] ->
  nodes_out_path self ∉ refused fs ->
  edges_out_path self ∉ refused fs ->
  forall fs' r,
    parse self data_file None fs fs' r ->
    r = Ok tt
    /\ fs' = with_file
               (with_file fs (nodes_out_path self)
                  (table_text ["id"; "category"; "name"; "provided_by"]
                     [["OMIM:101600"; "biolink:Disease"; "DiseaseX"; "HPO:hpoa"]]))
               (edges_out_path self)
               (table_text
                  ["subject"; "predicate"; "object"; "relation"; "provided_by"; ""]
                  [["OMIM:101600"; "biolink:has_phenotype"; "HP:0001"; "RO:0002200";
                    "HPO:hpoa"; ""]]).
Proof.
  intros self H1 H2 H3 H4 H5 Hopen Hrecord Hnodes Hedges fs' r Hparse.
  set (record := "OMIM:101600" :: "DiseaseX" :: "" :: "HP:0001" :: "PMID:1" :: others) in *.
  assert (Hread : read_phase self fs data_file None
                  = Ok ({[node_of (parsed record)]} ∪ ∅,
                        {[edge_of (parsed record) true]} ∪ ∅)).
  { unfold read_phase, _open_file. cbn [truthy]. rewrite Hopen.
    cbn [mbind result_bind]. unfold rows_of. rewrite skip_preamble by assumption.
    cbn [mbind result_bind mret result_ret]. unfold csv.DictReader. rewrite Hrecord.
    cbn [csv.DictReader_rows for_rows record].
    rewrite (loop_body_asserted self "OMIM:101600" "DiseaseX" "HP:0001" ("PMID:1" :: others)).
    reflexivity. }
  destruct (parse_read_Ok _ _ _ _ _ _ _ _ Hread Hparse)
    as (node_order & edge_order & Hn & He & Hwrite).
  rewrite union_empty_r_L in Hn. rewrite union_empty_r_L in He.
  apply iterates_singleton in Hn as ->. apply iterates_singleton in He as ->.
  rewrite write_phase_spec in Hwrite.
  rewrite (bool_decide_eq_false_2 _ Hnodes), (bool_decide_eq_false_2 _ Hedges) in Hwrite.
  cbn zeta in Hwrite. cbn [fmap list_fmap] in Hwrite.
  destruct (parsed_columns "OMIM:101600" "DiseaseX" "" "HP:0001" "PMID:1" others true)
    as (Hnc & Hec & _).
  fold record in Hnc, Hec. rewrite Hnc, Hec in Hwrite.
  injection Hwrite as Hfs Hr. split; [symmetry; exact Hr|]. symmetry. exact Hfs.
Qed.

Lemma C6_one_asserted_row_witness :
  let self := configured false "data/raw" "out" in
  let fs := disk (hpoa_text [record_of "OMIM:101600" "DiseaseX" "" "HP:0001" "PMID:1"]) in
  parse_run self hpoa_path None fs
  = (with_file
       (with_file fs "out/HPOA_nodes.tsv"
          (tsv_line ["id"; "category"; "name"; "provided_by"]
           +:+ tsv_line ["OMIM:101600"; "biolink:Disease"; "DiseaseX"; "HPO:hpoa"]))
       "out/HPOA_edges.tsv"
       (tsv_line ["subject"; "predicate"; "object"; "relation"; "provided_by"; ""]
        +:+ tsv_line ["OMIM:101600"; "biolink:has_phenotype"; "HP:0001"; "RO:0002200";
                      "HPO:hpoa"; ""]),
     Ok tt).
Proof.
  intros self fs.
  pose proof (parse_run_parse self hpoa_path None fs) as Hrun.
  assert (Hplain : forall p, bool_decide (plain p) = true -> plain p).
  { intros p. apply bool_decide_eq_true_1. }
  destruct (C6_one_asserted_row false "data/raw" "out" hpoa_path fs
              "#description: HPO annotations for rare diseases"
              "#date: 2020-03-27"
              "#tracker: https://github.com/obophenotype/human-phenotype-ontology"
              "#HPO-version: http://purl.obolibrary.org/obo/hp.obo/hp/releases/2020-03-27"
              (String.concat (String TAB "")
                 ["DatabaseID"; "DiseaseName"; "Qualifier"; "HPO_ID"; "Reference";
                  "Evidence"; "Onset"; "Frequency"; "Sex"; "Modifier"; "Aspect";
                  "Biocuration"])
              (tsv_line (record_of "OMIM:101600" "DiseaseX" "" "HP:0001" "PMID:1"))
              ["TAS"; ""; ""; ""; ""; "P"; "HPO:probinson[2020-03-27]"]
              ltac:(apply Hplain; vm_compute; reflexivity)
              ltac:(apply Hplain; vm_compute; reflexivity)
              ltac:(apply Hplain; vm_compute; reflexivity)
              ltac:(apply Hplain; vm_compute; reflexivity)
              ltac:(apply Hplain; vm_compute; reflexivity))
    with (fs' := (parse_run self hpoa_path None fs).1)
         (r := (parse_run self hpoa_path None fs).2) as [Hr Hfs].
  - vm_compute. reflexivity.
  - vm_compute. reflexivity.
  - vm_compute. intros H. discriminate H.
  - vm_compute. intros H. discriminate H.
  - exact Hrun.
  - rewrite (surjective_pairing (parse_run self hpoa_path None fs)), Hr, Hfs.
    vm_compute. reflexivity.
Defined.

(** ** C7: the compression tag *)

(** C7, as the code has it.  Without a tag, or with the empty tag, the file
    is opened as it is.  With a tag that is neither empty nor ["gz"],
    [_open_file] raises the [ValueError] that names the tag, before the file
    is looked at; [parse] raises it and leaves the file system as it found
    it: no output file is made or changed. *)
Theorem C7_unsupported_compression (self : DiseaseAnnotations) (data_file tag : string)
    (fs : filesystem) :
  tag <> "" -> tag <> "gz" ->
  _open_file fs data_file None = open_r fs data_file
  /\ _open_file fs data_file (Some "") = open_r fs data_file
  /\ _open_file fs data_file (Some tag) = Raise (ValueError_cannot_open tag)
  /\ forall fs' r,
       parse self data_file (Some tag) fs fs' r ->
       r = Raise (ValueError_cannot_open tag) /\ fs' = fs.
Proof.
  intros Hne Hgz. split; [reflexivity|]. split; [reflexivity|].
  assert (Hopen : _open_file fs data_file (Some tag) = Raise (ValueError_cannot_open tag)).
  { unfold _open_file. cbn [truthy]. rewrite (bool_decide_eq_false_2 _ Hne). cbn [negb].
    rewrite bool_decide_eq_false_2; [reflexivity|]. intros [= ->]. by apply Hgz. }
  split; [exact Hopen|]. intros fs' r Hparse.
  eapply parse_read_raises in Hparse as [-> ->]; [done|].
  unfold read_phase. by rewrite Hopen.
Qed.

Lemma C7_unsupported_compression_witness :
  let self := configured false "data/raw" "out" in
  let fs := disk (hpoa_text [record_of "OMIM:101600" "DiseaseX" "" "HP:0001" "PMID:1"]) in
  parse_run self hpoa_path (Some "zip") fs = (fs, Raise (ValueError_cannot_open "zip"))
  /\ _open_file fs "no/such/file" (Some "zip") = Raise (ValueError_cannot_open "zip").
Proof.
  intros self fs.
  destruct (C7_unsupported_compression self hpoa_path "zip" fs) as (_ & _ & _ & Hparse);
    [discriminate|discriminate|].
  destruct (C7_unsupported_compression self "no/such/file" "zip" fs) as (_ & _ & Hopen & _);
    [discriminate|discriminate|].
  split; [|exact Hopen].
  destruct (Hparse _ _ (parse_run_parse self hpoa_path (Some "zip") fs)) as [Hr Hfs].
  rewrite (surjective_pairing (parse_run self hpoa_path (Some "zip") fs)), Hr, Hfs.
  reflexivity.
Defined.

(** The empty tag is a tag other than ["gz"], and the transform does not
    fail on it: the file is read as it is and the two output files are
    written. *)
Lemma C7_empty_tag_counterexample :
  let self := configured false "data/raw" "out" in
  let text := hpoa_text [record_of "OMIM:101600" "DiseaseX" "" "HP:0001" "PMID:1"] in
  Some "" <> Some "gz"
  /\ _open_file (disk text) hpoa_path (Some "") = Ok text
  /\ (parse_run self hpoa_path (Some "") (disk text)).2 = Ok tt
  /\ is_Some (files (parse_run self hpoa_path (Some "") (disk text)).1
                !! "out/HPOA_nodes.tsv")
  /\ files (disk text) !! "out/HPOA_nodes.tsv" = None.
Proof.
  intros self text. split; [discriminate|]. split; [reflexivity|].
  split; [vm_compute; reflexivity|]. split; [|reflexivity].
  vm_compute. eexists. reflexivity.
Qed.

(** ** C8: set semantics *)

(** Whether [add_row] raises does not depend on what has been collected. *)
Lemma add_row_any_acc (row : SourceRow) (present : bool)
    (acc acc' acc2 : gset KgxNode.t * gset KgxEdge.t) :
  add_row row present acc = Ok acc' ->
  add_row row present acc2
  = Ok ({[node_of row]} ∪ acc2.1, {[edge_of row present]} ∪ acc2.2).
Proof.
  unfold add_row. intros H.
  destruct (getitem row "DiseaseName") as [n|] eqn:Hn; [|discriminate H].
  destruct (getitem row "DatabaseID") as [d|] eqn:Hd; [|discriminate H].
  destruct (getitem row "HPO_ID") as [h|] eqn:Hh; [|discriminate H].
  cbn [mbind result_bind] in *. unfold edge_id in *.
  destruct (str_join _ _) as [name|] eqn:Hjoin; [|discriminate H].
  cbn [mbind result_bind mret result_ret] in *.
  destruct (getitem row "Reference") as [ref|] eqn:Href; [|discriminate H].
  cbn [mbind result_bind mret result_ret] in *.
  apply str_join_three in Hjoin as (_ & _ & _ & ->).
  unfold node_of, edge_of.
  rewrite (getitem_value_of _ _ _ Hn), (getitem_value_of _ _ _ Hd),
    (getitem_value_of _ _ _ Hh), (getitem_value_of _ _ _ Href).
  reflexivity.
Qed.

(** The effect of the body of the loop on the two sets, whatever they hold. *)
Lemma loop_body_effect (self : DiseaseAnnotations) (row : SourceRow)
    (acc acc' acc2 : gset KgxNode.t * gset KgxEdge.t) :
  loop_body self row acc = Ok acc' ->
  loop_body self row acc2
  = Ok (list_to_set (nodes_of self [row]) ∪ acc2.1,
        list_to_set (edges_of self [row]) ∪ acc2.2).
Proof.
  rewrite !loop_body_cases. unfold nodes_of, edges_of, retained. cbn [omap list_omap].
  destruct (classify row) as [present|e]; [|discriminate].
  destruct (negb _ && negb _).
  - intros _. cbn [fmap list_fmap list_to_set]. rewrite !union_empty_l_L.
    by destruct acc2.
  - intros Hadd. rewrite (add_row_any_acc _ _ _ _ acc2 Hadd).
    cbn [fmap list_fmap list_to_set fst snd]. by rewrite !union_empty_r_L.
Qed.

Lemma kept_cons (self : DiseaseAnnotations) (row : SourceRow) (rows : list SourceRow) :
  nodes_of self (row :: rows) = nodes_of self [row] ++ nodes_of self rows
  /\ edges_of self (row :: rows) = edges_of self [row] ++ edges_of self rows.
Proof.
  unfold nodes_of, edges_of. cbn [omap list_omap].
  destruct (retained self row); split; reflexivity.
Qed.

(** The effect of the loop on the two sets: the nodes and the edges of the
    rows kept are added, each once. *)
Lemma for_rows_effect (self : DiseaseAnnotations) (rows : list SourceRow)
    (acc acc' acc2 : gset KgxNode.t * gset KgxEdge.t) :
  for_rows self (Ok <$> rows) acc = Ok acc' ->
  for_rows self (Ok <$> rows) acc2
  = Ok (list_to_set (nodes_of self rows) ∪ acc2.1,
        list_to_set (edges_of self rows) ∪ acc2.2).
Proof.
  revert acc acc2. induction rows as [|row rows IH]; intros acc acc2.
  - intros _. cbn. rewrite !union_empty_l_L. by destruct acc2.
  - cbn [fmap list_fmap for_rows].
    destruct (loop_body self row acc) as [acc1|e] eqn:Hbody; [|discriminate].
    cbn [mbind result_bind]. intros Hrows.
    rewrite (loop_body_effect _ _ _ _ acc2 Hbody). cbn [mbind result_bind].
    rewrite (IH _ _ Hrows). cbn [fst snd].
    destruct (kept_cons self row rows) as [-> ->].
    rewrite !list_to_set_app_L. f_equal. f_equal.
    + generalize (list_to_set (nodes_of self [row]) : gset KgxNode.t).
      generalize (list_to_set (nodes_of self rows) : gset KgxNode.t).
      intros s1 s2. set_solver.
    + generalize (list_to_set (edges_of self [row]) : gset KgxEdge.t).
      generalize (list_to_set (edges_of self rows) : gset KgxEdge.t).
      intros s1 s2. set_solver.
Qed.

(** Reading depends on the file read and on what may be opened alone. *)
Lemma read_phase_same_file (self : DiseaseAnnotations) (fs fs1 : filesystem)
    (data_file : string) (compression : option string) :
  refused fs1 = refused fs ->
  files fs1 !! data_file = files fs !! data_file ->
  read_phase self fs1 data_file compression = read_phase self fs data_file compression.
Proof.
  intros Hrefused Hfile. unfold read_phase, _open_file, gzip_open_rb_newline, open_r.
  by rewrite Hrefused, Hfile.
Qed.

(** A run of [parse] changes the two output files at most. *)
Lemma parse_other_files (self : DiseaseAnnotations) (data_file : string)
    (compression : option string) (fs fs' : filesystem) (r : result unit) :
  parse self data_file compression fs fs' r ->
  refused fs' = refused fs
  /\ forall path, path <> nodes_out_path self -> path <> edges_out_path self ->
       files fs' !! path = files fs !! path.
Proof.
  intros Hparse. destruct Hparse as [e _|nodes edges node_order edge_order fs' r _ _ _ Hwrite].
  - done.
  - rewrite write_phase_spec in Hwrite. cbn zeta in Hwrite.
    repeat case_bool_decide; injection Hwrite as <- <-; (split; [reflexivity|]);
      intros path Hn He; unfold with_file; cbn [files];
      by rewrite ?lookup_insert_ne.
Qed.

Lemma for_rows_Ok_rows (self : DiseaseAnnotations) (rows : list (result SourceRow))
    (acc acc' : gset KgxNode.t * gset KgxEdge.t) :
  for_rows self rows acc = Ok acc' -> exists rs, rows = Ok <$> rs.
Proof.
  revert acc. induction rows as [|[row|e] rows IH]; intros acc; cbn [for_rows].
  - intros _. by exists [].
  - destruct (loop_body self row acc) as [acc1|]; [|discriminate].
    cbn [mbind result_bind]. intros Hrows. destruct (IH _ Hrows) as [rs ->].
    by exists (row :: rs).
  - discriminate.
Qed.

(** C8.  Taking a row in a second time changes neither set and raises
    nothing.  When the loop ends well, no row was refused by the reader, the
    node set is the set of the nodes of the rows kept and the edge set the
    set of their edges, so rows that give the same node or the same edge
    give one element; the same rows read twice over give the same two sets.
    A run that ends well writes each node and each edge of these sets once;
    and unless the input file is one of the two output files, a run leaves
    the input such that a second run builds the same two sets. *)
Theorem C8_set_semantics :
  (forall self row acc acc',
     loop_body self row acc = Ok acc' -> loop_body self row acc' = Ok acc')
  /\ (forall self rows nodes edges,
        for_rows self rows (∅, ∅) = Ok (nodes, edges) ->
        exists rs, rows = Ok <$> rs
                   /\ nodes = list_to_set (nodes_of self rs)
                   /\ edges = list_to_set (edges_of self rs))
  /\ (forall self rs acc,
        for_rows self (Ok <$> rs) (∅, ∅) = Ok acc ->
        for_rows self (Ok <$> (rs ++ rs)) (∅, ∅) = Ok acc)
  /\ (forall self data_file compression fs fs',
        parse self data_file compression fs fs' (Ok tt) ->
        exists nodes edges node_order edge_order,
          read_phase self fs data_file compression = Ok (nodes, edges)
          /\ NoDup node_order /\ (forall n, n ∈ node_order <-> n ∈ nodes)
          /\ NoDup edge_order /\ (forall e, e ∈ edge_order <-> e ∈ edges)
          /\ files fs' !! nodes_out_path self
             = Some (table_text node_tsv_column_names (node_columns <$> node_order))
          /\ files fs' !! edges_out_path self
             = Some (table_text edge_tsv_column_names (edge_columns <$> edge_order)))
  /\ (forall self data_file compression fs fs' r,
        parse self data_file compression fs fs' r ->
        data_file <> nodes_out_path self -> data_file <> edges_out_path self ->
        read_phase self fs' data_file compression
        = read_phase self fs data_file compression).
Proof.
  split.
  { intros self row acc acc' Hbody.
    pose proof (loop_body_effect _ _ _ _ acc Hbody) as Hacc.
    rewrite Hbody in Hacc. injection Hacc as ->.
    rewrite (loop_body_effect _ _ _ _ _ Hbody). cbn [fst snd]. f_equal. f_equal.
    - generalize (list_to_set (nodes_of self [row]) : gset KgxNode.t). intros s.
      set_solver.
    - generalize (list_to_set (edges_of self [row]) : gset KgxEdge.t). intros s.
      set_solver. }
  split.
  { intros self rows nodes edges Hrows.
    destruct (for_rows_Ok_rows _ _ _ _ Hrows) as [rs ->]. exists rs.
    split; [reflexivity|].
    pose proof (for_rows_effect _ _ _ _ (∅, ∅) Hrows) as Hacc.
    rewrite Hrows in Hacc. cbn [fst snd] in Hacc. rewrite !union_empty_r_L in Hacc.
    injection Hacc as -> ->. split; reflexivity. }
  split.
  { intros self rs acc Hrows.
    pose proof (for_rows_effect _ _ _ _ (∅, ∅) Hrows) as Hacc.
    rewrite Hrows in Hacc. injection Hacc as ->.
    rewrite fmap_app, for_rows_app, Hrows. cbn [mbind result_bind].
    rewrite (for_rows_effect _ _ _ _ _ Hrows). cbn [fst snd]. f_equal. f_equal.
    - generalize (list_to_set (nodes_of self rs) : gset KgxNode.t). intros s.
      set_solver.
    - generalize (list_to_set (edges_of self rs) : gset KgxEdge.t). intros s.
      set_solver. }
  split.
  { intros self data_file compression fs fs' Hparse.
    inversion Hparse as [|nodes edges node_order edge_order ? ? Hread Hn He Hwrite]; subst.
    exists nodes, edges, node_order, edge_order. split; [exact Hread|].
    split; [by eapply iterates_NoDup|]. split; [intros n; by apply iterates_elem_of|].
    split; [by eapply iterates_NoDup|]. split; [intros e; by apply iterates_elem_of|].
    apply write_phase_Ok in Hwrite as (-> & _ & _). unfold with_file. cbn [files].
    split.
    - rewrite lookup_insert_ne by (intros Heq; symmetry in Heq; by apply out_paths_differ in Heq).
      by rewrite lookup_insert_eq.
    - by rewrite lookup_insert_eq. }
  intros self data_file compression fs fs' r Hparse Hn He.
  destruct (parse_other_files _ _ _ _ _ _ Hparse) as [Hrefused Hfiles].
  apply read_phase_same_file; [exact Hrefused|]. by apply Hfiles.
Qed.

Lemma C8_set_semantics_witness :
  let self := configured false "data/raw" "out" in
  let row := parsed (record_of "OMIM:101600" "DiseaseX" "" "HP:0001" "PMID:1") in
  for_rows self [Ok row; Ok row] (∅, ∅)
  = Ok ({[node_of row]} ∪ ∅, {[edge_of row true]} ∪ ∅).
Proof.
  intros self row.
  apply (proj1 (proj2 (proj2 C8_set_semantics)) self [row]).
  cbn [fmap list_fmap for_rows]. unfold row, record_of.
  rewrite loop_body_asserted. reflexivity.
Defined.

(** ** C9: a malformed row and the output files *)

(** C9.  When a row of the input is malformed, the read phase raises, in the
    loop over the rows; [parse] then raises before it opens any output file
    and leaves the file system as it found it, so neither output file is
    made, emptied or written. *)
Theorem C9_malformed_row_no_output (self : DiseaseAnnotations) (data_file : string)
    (compression : option string) (fs : filesystem) (text : string)
    (rows : list (result SourceRow)) (row : SourceRow) :
  _open_file fs data_file compression = Ok text ->
  rows_of self text = Ok rows ->
  Ok row ∈ rows ->
  malformed row ->
  (exists e, for_rows self rows (∅, ∅) = Raise e
             /\ read_phase self fs data_file compression = Raise e)
  /\ forall fs' r,
       parse self data_file compression fs fs' r ->
       fs' = fs
       /\ (exists e, r = Raise e)
       /\ files fs' !! nodes_out_path self = files fs !! nodes_out_path self
       /\ files fs' !! edges_out_path self = files fs !! edges_out_path self.
Proof.
  intros Hopen Hrows Hin Hbad.
  destruct (for_rows_malformed self rows row (∅, ∅) Hin Hbad) as [e He].
  assert (Hread : read_phase self fs data_file compression = Raise e).
  { by rewrite (read_phase_rows _ _ _ _ _ _ Hopen Hrows). }
  split; [by exists e|]. intros fs' r Hparse.
  destruct (parse_read_raises _ _ _ _ _ _ _ Hread Hparse) as [-> ->].
  split; [reflexivity|]. split; [by exists e|]. split; reflexivity.
Qed.

Lemma C9_malformed_row_no_output_witness :
  let self := configured true "data/raw" "out" in
  let fs := disk (hpoa_text [record_of "OMIM:101600" "DiseaseX" "" "HP:0001" "PMID:1";
                             record_of "OMIM:101600" "DiseaseX" "not" "HP:0002" "PMID:1"]) in
  (parse_run self hpoa_path None fs).1 = fs
  /\ (exists e, (parse_run self hpoa_path None fs).2 = Raise e)
  /\ files (parse_run self hpoa_path None fs).1 !! "out/HPOA_nodes.tsv" = None
  /\ files (parse_run self hpoa_path None fs).1 !! "out/HPOA_edges.tsv" = None.
Proof.
  intros self fs.
  destruct (C9_malformed_row_no_output self hpoa_path None fs
              (hpoa_text [record_of "OMIM:101600" "DiseaseX" "" "HP:0001" "PMID:1";
                          record_of "OMIM:101600" "DiseaseX" "not" "HP:0002" "PMID:1"])
              [Ok (parsed (record_of "OMIM:101600" "DiseaseX" "" "HP:0001" "PMID:1"));
               Ok (parsed (record_of "OMIM:101600" "DiseaseX" "not" "HP:0002" "PMID:1"))]
              (parsed (record_of "OMIM:101600" "DiseaseX" "not" "HP:0002" "PMID:1")))
    as [_ Hparse].
  - reflexivity.
  - vm_compute. reflexivity.
  - apply list_elem_of_further, list_elem_of_here.
  - exists (Some "not"). split; [vm_compute; reflexivity|]. split; discriminate.
  - destruct (Hparse _ _ (parse_run_parse self hpoa_path None fs))
      as (Hfs & Hr & Hnodes & Hedges).
    split; [exact Hfs|]. split; [exact Hr|].
    split; [exact Hnodes|exact Hedges].
Defined.

(** ** C10: edges that differ in their publications only *)

(** The node and the edge of a row kept are in the sets the loop ends with. *)
Lemma for_rows_keeps (self : DiseaseAnnotations) (rows : list (result SourceRow))
    (row : SourceRow) (present : bool) (acc acc' : gset KgxNode.t * gset KgxEdge.t) :
  for_rows self rows acc = Ok acc' ->
  Ok row ∈ rows ->
  retained self row = Some (row, present) ->
  node_of row ∈ acc'.1 /\ edge_of row present ∈ acc'.2.
Proof.
  intros Hrows Hin Hkept.
  destruct (for_rows_Ok_rows _ _ _ _ Hrows) as [rs ->].
  pose proof (for_rows_effect _ _ _ _ acc Hrows) as Hacc.
  rewrite Hrows in Hacc. injection Hacc as ->. cbn [fst snd].
  apply list_elem_of_fmap in Hin as (row' & [= <-] & Hin).
  assert (Hpair : (row, present) ∈ omap (retained self) rs).
  { apply list_elem_of_omap. by exists row. }
  split; apply elem_of_union_l, elem_of_list_to_set, list_elem_of_fmap;
    by exists (row, present).
Qed.

(** C10.  Take two rows of the input that the loop keeps with the same
    presence and that agree on the disease and on the phenotype but not on
    the reference.  Their edges have the same identifier and the same
    written columns, and are two edges all the same, since they differ in
    their publications: when the read phase ends well, both are in the edge
    set, and when [parse] ends well, the edge file holds the same line of
    data at two places. *)
Theorem C10_same_line_twice (self : DiseaseAnnotations) (data_file : string)
    (compression : option string) (fs : filesystem) (text : string)
    (rows : list (result SourceRow)) (row1 row2 : SourceRow) (present : bool) :
  _open_file fs data_file compression = Ok text ->
  rows_of self text = Ok rows ->
  Ok row1 ∈ rows -> Ok row2 ∈ rows ->
  retained self row1 = Some (row1, present) ->
  retained self row2 = Some (row2, present) ->
  value_of row1 "DatabaseID" = value_of row2 "DatabaseID" ->
  value_of row1 "HPO_ID" = value_of row2 "HPO_ID" ->
  value_of row1 "Reference" <> value_of row2 "Reference" ->
  edge_of row1 present <> edge_of row2 present
  /\ KgxEdge.id (edge_of row1 present) = KgxEdge.id (edge_of row2 present)
  /\ edge_columns (edge_of row1 present) = edge_columns (edge_of row2 present)
  /\ (forall nodes edges,
        read_phase self fs data_file compression = Ok (nodes, edges) ->
        edge_of row1 present ∈ edges /\ edge_of row2 present ∈ edges)
  /\ (forall fs',
        parse self data_file compression fs fs' (Ok tt) ->
        exists lines i j,
          files fs' !! edges_out_path self
          = Some (table_text edge_tsv_column_names lines)
          /\ i <> j
          /\ lines !! i = Some (edge_columns (edge_of row1 present))
          /\ lines !! j = Some (edge_columns (edge_of row1 present))).
Proof.
  intros Hopen Hrows Hin1 Hin2 Hkept1 Hkept2 Hd Hh Href.
  assert (Hne : edge_of row1 present <> edge_of row2 present).
  { intros Heq. apply (f_equal KgxEdge.publications) in Heq.
    unfold edge_of in Heq. cbn [KgxEdge.publications] in Heq. exact (Href Heq). }
  assert (Hcols : edge_columns (edge_of row1 present)
                  = edge_columns (edge_of row2 present)).
  { unfold edge_columns, edge_of.
    cbn [KgxEdge.subject KgxEdge.predicate KgxEdge.object KgxEdge.relation
         KgxEdge.primary_knowledge_source]. rewrite Hd, Hh. reflexivity. }
  assert (Hsets : forall nodes edges,
            read_phase self fs data_file compression = Ok (nodes, edges) ->
            edge_of row1 present ∈ edges /\ edge_of row2 present ∈ edges).
  { intros nodes edges Hread.
    rewrite (read_phase_rows _ _ _ _ _ _ Hopen Hrows) in Hread.
    destruct (for_rows_keeps _ _ _ _ _ _ Hread Hin1 Hkept1) as [_ H1].
    destruct (for_rows_keeps _ _ _ _ _ _ Hread Hin2 Hkept2) as [_ H2].
    split; assumption. }
  split; [exact Hne|]. split.
  { unfold edge_of. cbn [KgxEdge.id]. rewrite Hd, Hh. reflexivity. }
  split; [exact Hcols|]. split; [exact Hsets|].
  intros fs' Hparse.
  inversion Hparse as [|nodes edges node_order edge_order ? ? Hread Hn He Hwrite]; subst.
  destruct (Hsets _ _ Hread) as [H1 H2].
  apply (iterates_elem_of _ _ _ He) in H1, H2.
  apply list_elem_of_lookup in H1 as [i Hi]. apply list_elem_of_lookup in H2 as [j Hj].
  exists (edge_columns <$> edge_order), i, j.
  apply write_phase_Ok in Hwrite as (-> & _ & _). unfold with_file. cbn [files].
  split; [by rewrite lookup_insert_eq|]. split.
  { intros ->. rewrite Hi in Hj. exact (Hne (Some_inj _ _ Hj)). }
  rewrite !list_lookup_fmap, Hi, Hj. cbn [fmap option_fmap option_map].
  rewrite Hcols. split; reflexivity.
Qed.

Lemma C10_same_line_twice_witness :
  let self := configured false "data/raw" "out" in
  let fs := disk (hpoa_text [record_of "OMIM:101600" "DiseaseX" "" "HP:0001" "PMID:1";
                             record_of "OMIM:101600" "DiseaseX" "" "HP:0001" "PMID:2"]) in
  let fs' := (parse_run self hpoa_path None fs).1 in
  (exists lines i j,
     files fs' !! edges_out_path self = Some (table_text edge_tsv_column_names lines)
     /\ i <> j
     /\ lines !! i = Some ["OMIM:101600"; "biolink:has_phenotype"; "HP:0001";
                           "RO:0002200"; "HPO:hpoa"; ""]
     /\ lines !! j = Some ["OMIM:101600"; "biolink:has_phenotype"; "HP:0001";
                           "RO:0002200"; "HPO:hpoa"; ""])
  /\ files fs' !! "out/HPOA_edges.tsv"
     = Some (tsv_line ["subject"; "predicate"; "object"; "relation"; "provided_by"; ""]
             +:+ tsv_line ["OMIM:101600"; "biolink:has_phenotype"; "HP:0001";
                           "RO:0002200"; "HPO:hpoa"; ""]
             +:+ tsv_line ["OMIM:101600"; "biolink:has_phenotype"; "HP:0001";
                           "RO:0002200"; "HPO:hpoa"; ""]).
Proof.
  intros self fs fs'. split; [|vm_compute; reflexivity].
  assert (Hok : (parse_run self hpoa_path None fs).2 = Ok tt) by (vm_compute; reflexivity).
  pose proof (parse_run_parse self hpoa_path None fs) as Hrun. rewrite Hok in Hrun.
  destruct (C10_same_line_twice self hpoa_path None fs
              (hpoa_text [record_of "OMIM:101600" "DiseaseX" "" "HP:0001" "PMID:1";
                          record_of "OMIM:101600" "DiseaseX" "" "HP:0001" "PMID:2"])
              [Ok (parsed (record_of "OMIM:101600" "DiseaseX" "" "HP:0001" "PMID:1"));
               Ok (parsed (record_of "OMIM:101600" "DiseaseX" "" "HP:0001" "PMID:2"))]
              (parsed (record_of "OMIM:101600" "DiseaseX" "" "HP:0001" "PMID:1"))
              (parsed (record_of "OMIM:101600" "DiseaseX" "" "HP:0001" "PMID:2"))
              true)
    as (_ & _ & _ & _ & Hfile).
  - reflexivity.
  - vm_compute. reflexivity.
  - apply list_elem_of_here.
  - apply list_elem_of_further, list_elem_of_here.
  - vm_compute. reflexivity.
  - vm_compute. reflexivity.
  - vm_compute. reflexivity.
  - vm_compute. reflexivity.
  - vm_compute. intros H. discriminate H.
  - destruct (Hfile _ Hrun) as (lines & i & j & Hlines & Hij & Hi & Hj).
    exists lines, i, j. split; [exact Hlines|]. split; [exact Hij|].
    destruct (parsed_columns "OMIM:101600" "DiseaseX" "" "HP:0001" "PMID:1"
                ["TAS"; ""; ""; ""; ""; "P"; "HPO:probinson[2020-03-27]"] true)
      as (_ & Hcols & _).
    unfold record_of in Hi, Hj. rewrite Hcols in Hi, Hj. split; [exact Hi|exact Hj].
Defined.

(** * Further properties of the transform *)

(** ** The compression tag [gz] *)

(** X1.  With the tag ["gz"], [_open_file] calls [gzip.open] in its default binary
    mode with the text-only argument [newline]: the call raises a
    [ValueError] before the file is looked at, whatever the file holds and
    whether it is there or not, and [parse] ends with that error, the file
    system as it was. *)
Theorem gz_tag_always_raises (self : DiseaseAnnotations) (data_file : string)
    (fs : filesystem) :
  let e := ValueError "Argument 'newline' not supported in binary mode" in
  _open_file fs data_file (Some "gz") = Raise e
  /\ read_phase self fs data_file (Some "gz") = Raise e
  /\ forall fs' r,
       parse self data_file (Some "gz") fs fs' r -> fs' = fs /\ r = Raise e.
Proof.
  intros e. split; [reflexivity|]. split; [reflexivity|].
  intros fs' r Hparse.
  exact (parse_read_raises self data_file (Some "gz") fs fs' r e eq_refl Hparse).
Qed.

(** ** A file shorter than the preamble *)

Lemma skip_lines_spec (n : nat) (fh : list string) :
  skip_lines n fh
  = if (length fh <? n)%nat then Raise StopIteration else Ok (drop n fh).
Proof.
  revert fh. induction n as [|n IH]; intros fh; [reflexivity|].
  destruct fh as [|line fh]; [reflexivity|].
  cbn [skip_lines next mbind result_bind length drop]. rewrite IH.
  reflexivity.
Qed.

(** X2.  A file of fewer than five lines (an empty file, say) makes [parse] raise
    [StopIteration], the exception of [next] on the exhausted file, under
    either flag; no output file is made or changed. *)
Theorem short_file_raises_StopIteration (self : DiseaseAnnotations)
    (data_file : string) (compression : option string) (fs : filesystem)
    (text : string) :
  _open_file fs data_file compression = Ok text ->
  (length (iter_lines "" text) < 5)%nat ->
  read_phase self fs data_file compression = Raise StopIteration
  /\ forall fs' r,
       parse self data_file compression fs fs' r ->
       fs' = fs /\ r = Raise StopIteration.
Proof.
  intros Hopen Hshort.
  assert (Hread : read_phase self fs data_file compression = Raise StopIteration).
  { unfold read_phase, rows_of. rewrite Hopen. cbn [mbind result_bind].
    rewrite skip_lines_spec. apply Nat.ltb_lt in Hshort. by rewrite Hshort. }
  split; [exact Hread|]. intros fs' r Hparse.
  exact (parse_read_raises _ _ _ _ _ _ _ Hread Hparse).
Qed.

Lemma short_file_raises_StopIteration_witness :
  let self := configured false "data/raw" "out" in
  parse_run self hpoa_path None (disk "") = (disk "", Raise StopIteration)
  /\ parse_run self hpoa_path None
       (disk ("#description" +:+ String LF ("#date" +:+ String CR (String LF "#tracker"))))
     = (disk ("#description" +:+ String LF ("#date" +:+ String CR (String LF "#tracker"))),
        Raise StopIteration).
Proof.
  intros self. split.
  - destruct (short_file_raises_StopIteration self hpoa_path None (disk "") "")
      as [_ Hparse]; [reflexivity|apply Nat.ltb_lt; vm_compute; reflexivity|].
    destruct (Hparse _ _ (parse_run_parse self hpoa_path None (disk ""))) as [Hfs Hr].
    rewrite (surjective_pairing (parse_run self hpoa_path None (disk ""))), Hfs, Hr.
    reflexivity.
  - set (text := "#description" +:+ String LF ("#date" +:+ String CR (String LF "#tracker"))).
    destruct (short_file_raises_StopIteration self hpoa_path None (disk text) text)
      as [_ Hparse]; [reflexivity|apply Nat.ltb_lt; vm_compute; reflexivity|].
    destruct (Hparse _ _ (parse_run_parse self hpoa_path None (disk text))) as [Hfs Hr].
    rewrite (surjective_pairing (parse_run self hpoa_path None (disk text))), Hfs, Hr.
    reflexivity.
Defined.

(** ** What [parse] leaves alone *)

(** X3.  However [parse] ends, it has touched no file but its two output files,
    the input file among the files left alone unless it is one of the two,
    and it has not changed what may be opened. *)
Theorem parse_touches_output_files_only (self : DiseaseAnnotations)
    (data_file : string) (compression : option string) (fs fs' : filesystem)
    (r : result unit) (path : string) :
  parse self data_file compression fs fs' r ->
  path <> nodes_out_path self -> path <> edges_out_path self ->
  files fs' !! path = files fs !! path /\ refused fs' = refused fs.
Proof.
  intros Hparse Hn He.
  destruct (parse_other_files _ _ _ _ _ _ Hparse) as [Hrefused Hfiles].
  split; [by apply Hfiles|exact Hrefused].
Qed.

Lemma parse_touches_output_files_only_witness :
  let self := configured false "data/raw" "out" in
  let text := hpoa_text [record_of "OMIM:101600" "DiseaseX" "" "HP:0001" "PMID:1"] in
  files (parse_run self hpoa_path None (disk text)).1 !! hpoa_path = Some text.
Proof.
  intros self text.
  refine (proj1 (parse_touches_output_files_only self hpoa_path None (disk text) _ _
                   hpoa_path (parse_run_parse self hpoa_path None (disk text)) _ _));
    vm_compute; intros H; discriminate H.
Defined.

(** ** Failures of the write phase *)

(** X4.  Once the two sets are built, [parse] can fail on opening an output file
    only: the writer never refuses a node or an edge.  When the node file may
    not be opened nothing is changed.  When the edge file may not be opened,
    the node file has been written in full by then and stays so: the run
    ends with the error and a node file without its edge file.  When both
    may be opened the run ends well. *)
Theorem write_phase_failures (self : DiseaseAnnotations) (data_file : string)
    (compression : option string) (fs fs' : filesystem) (r : result unit)
    (nodes : gset KgxNode.t) (edges : gset KgxEdge.t) :
  read_phase self fs data_file compression = Ok (nodes, edges) ->
  parse self data_file compression fs fs' r ->
  (nodes_out_path self ∈ refused fs ->
   r = Raise (OSError (nodes_out_path self)) /\ fs' = fs)
  /\ (nodes_out_path self ∉ refused fs -> edges_out_path self ∈ refused fs ->
      r = Raise (OSError (edges_out_path self))
      /\ exists node_order,
           iterates nodes node_order
           /\ fs' = with_file fs (nodes_out_path self)
                      (table_text node_tsv_column_names (node_columns <$> node_order)))
  /\ (nodes_out_path self ∉ refused fs -> edges_out_path self ∉ refused fs ->
      r = Ok tt).
Proof.
  intros Hread Hparse.
  destruct (parse_read_Ok _ _ _ _ _ _ _ _ Hread Hparse)
    as (node_order & edge_order & Hn & He & Hwrite).
  rewrite write_phase_spec in Hwrite. cbn zeta in Hwrite.
  split; [|split].
  - intros Hrn. rewrite (bool_decide_eq_true_2 _ Hrn) in Hwrite.
    injection Hwrite as <- <-. split; reflexivity.
  - intros Hrn Hre.
    rewrite (bool_decide_eq_false_2 _ Hrn), (bool_decide_eq_true_2 _ Hre) in Hwrite.
    injection Hwrite as <- <-. split; [reflexivity|]. exists node_order. split; [exact Hn|reflexivity].
  - intros Hrn Hre.
    rewrite (bool_decide_eq_false_2 _ Hrn), (bool_decide_eq_false_2 _ Hre) in Hwrite.
    injection Hwrite as _ <-. reflexivity.
Qed.

(** The read phase on a file of one asserted row. *)
Lemma read_phase_one_asserted (self : DiseaseAnnotations) (fs : filesystem)
    (data_file : string) (compression : option string) (text : string)
    (d n h : string) (others : list string) :
  let row := parsed (d :: n :: "" :: h :: others) in
  _open_file fs data_file compression = Ok text ->
  rows_of self text = Ok [Ok row] ->
  read_phase self fs data_file compression
  = Ok ({[node_of row]} ∪ ∅, {[edge_of row true]} ∪ ∅).
Proof.
  intros row Hopen Hrows. rewrite (read_phase_rows _ _ _ _ _ _ Hopen Hrows).
  cbn [for_rows]. unfold row. rewrite loop_body_asserted. reflexivity.
Qed.

Lemma write_phase_failures_witness :
  let self := configured false "data/raw" "out" in
  let text := hpoa_text [record_of "OMIM:101600" "DiseaseX" "" "HP:0001" "PMID:1"] in
  let fs := mkFilesystem {[hpoa_path := text]} {["out/HPOA_edges.tsv"]} in
  (parse_run self hpoa_path None fs).2 = Raise (OSError "out/HPOA_edges.tsv")
  /\ files (parse_run self hpoa_path None fs).1 !! "out/HPOA_nodes.tsv"
     = Some (tsv_line ["id"; "category"; "name"; "provided_by"]
             +:+ tsv_line ["OMIM:101600"; "biolink:Disease"; "DiseaseX"; "HPO:hpoa"])
  /\ files (parse_run self hpoa_path None fs).1 !! "out/HPOA_edges.tsv" = None.
Proof.
  intros self text fs.
  pose proof (read_phase_one_asserted self fs hpoa_path None text
                "OMIM:101600" "DiseaseX" "HP:0001"
                ["PMID:1"; "TAS"; ""; ""; ""; ""; "P"; "HPO:probinson[2020-03-27]"]
                eq_refl ltac:(vm_compute; reflexivity)) as Hread.
  destruct (write_phase_failures self hpoa_path None fs _ _ _ _ Hread
              (parse_run_parse self hpoa_path None fs)) as (_ & Hedges & _).
  destruct Hedges as [Hr _].
  - vm_compute. intros H. discriminate H.
  - vm_compute. reflexivity.
  - split; [exact Hr|]. split; vm_compute; reflexivity.
Defined.

(** ** The body of the loop on the row of any record *)

(** X5.  On the row of a record, whatever its length, the body of the loop never
    raises [KeyError].  It raises the [ValueError] of the qualifier when the
    record has fewer than three fields or a third field other than [''] and
    ['NOT']; it passes over an excluded row when the flag is false; and for
    a row it keeps it raises [TypeError] when the record has three fields
    only, so no phenotype to join into the edge identifier, and adds the node
    and the edge otherwise. *)
Theorem loop_body_on_record (self : DiseaseAnnotations) (record : list string)
    (acc : gset KgxNode.t * gset KgxEdge.t) :
  let row := parsed record in
  let keep present :=
    match record !! 3%nat with
    | Some _ => Ok ({[node_of row]} ∪ acc.1, {[edge_of row present]} ∪ acc.2)
    | None => Raise (TypeError "sequence item: expected str instance, NoneType found")
    end in
  loop_body self row acc
  = match record !! 2%nat with
    | None => Raise (ValueError_unexpected_qualifier None row)
    | Some q =>
        if bool_decide (q = "") then keep true
        else if bool_decide (q = "NOT") then
          if _add_excluded_phenotype self then keep false else Ok acc
        else Raise (ValueError_unexpected_qualifier (Some q) row)
    end.
Proof.
  intros row keep. rewrite loop_body_cases.
  destruct (parsed_fields record) as (Hd & Hn & Hq & Hh & Hr).
  fold row in Hd, Hn, Hq, Hh, Hr.
  assert (Hadd : forall present, record !! 2%nat <> None ->
            add_row row present acc = keep present).
  { intros present Hlen. unfold add_row, edge_id, keep.
    rewrite Hd, Hn, Hh, Hr. cbn [mbind result_bind].
    destruct record as [|d [|n [|q [|h others]]]]; try (by destruct Hlen).
    - reflexivity.
    - cbn [lookup list_lookup str_join mbind result_bind mret result_ret].
      unfold node_of, edge_of.
      rewrite (getitem_value_of _ _ _ Hd), (getitem_value_of _ _ _ Hn),
        (getitem_value_of _ _ _ Hh), (getitem_value_of _ _ _ Hr).
      reflexivity. }
  unfold classify. rewrite Hq. cbn [mbind result_bind].
  destruct (record !! 2%nat) as [q|] eqn:Hq2; [|reflexivity].
  destruct (decide (q = "")) as [->|Hempty].
  - rewrite !bool_decide_eq_true_2 by reflexivity.
    rewrite andb_false_r. apply Hadd. discriminate.
  - rewrite (bool_decide_eq_false_2 (Some q = Some "")) by (intros [= ->]; by apply Hempty).
    rewrite (bool_decide_eq_false_2 (q = "")) by exact Hempty.
    destruct (decide (q = "NOT")) as [->|Hnot].
    + rewrite !bool_decide_eq_true_2 by reflexivity.
      destruct (_add_excluded_phenotype self); [|reflexivity].
      apply Hadd. discriminate.
    + rewrite (bool_decide_eq_false_2 (Some q = Some "NOT"))
        by (intros [= ->]; by apply Hnot).
      rewrite (bool_decide_eq_false_2 (q = "NOT")) by exact Hnot. reflexivity.
Qed.

(** ** Nodes that share an identifier *)

(** X6.  A node is its four fields, so the identifier alone does not make it one:
    two rows the loop keeps that agree on the disease but not on its name
    give two nodes with the same identifier, both in the node set, and a run
    that ends well writes a line for each, the two lines with the same
    first column. *)
Theorem same_id_two_nodes (self : DiseaseAnnotations) (data_file : string)
    (compression : option string) (fs : filesystem) (text : string)
    (rows : list (result SourceRow)) (row1 row2 : SourceRow) (p1 p2 : bool) :
  _open_file fs data_file compression = Ok text ->
  rows_of self text = Ok rows ->
  Ok row1 ∈ rows -> Ok row2 ∈ rows ->
  retained self row1 = Some (row1, p1) ->
  retained self row2 = Some (row2, p2) ->
  value_of row1 "DatabaseID" = value_of row2 "DatabaseID" ->
  value_of row1 "DiseaseName" <> value_of row2 "DiseaseName" ->
  node_of row1 <> node_of row2
  /\ KgxNode.id (node_of row1) = KgxNode.id (node_of row2)
  /\ (forall nodes edges,
        read_phase self fs data_file compression = Ok (nodes, edges) ->
        node_of row1 ∈ nodes /\ node_of row2 ∈ nodes)
  /\ (forall fs',
        parse self data_file compression fs fs' (Ok tt) ->
        exists lines i j,
          files fs' !! nodes_out_path self
          = Some (table_text node_tsv_column_names lines)
          /\ i <> j
          /\ lines !! i = Some [text_of (value_of row1 "DatabaseID"); category;
                                text_of (value_of row1 "DiseaseName"); provided_by]
          /\ lines !! j = Some [text_of (value_of row1 "DatabaseID"); category;
                                text_of (value_of row2 "DiseaseName"); provided_by]).
Proof.
  intros Hopen Hrows Hin1 Hin2 Hkept1 Hkept2 Hd Hname.
  assert (Hne : node_of row1 <> node_of row2).
  { intros Heq. apply (f_equal KgxNode.name) in Heq. exact (Hname Heq). }
  assert (Hsets : forall nodes edges,
            read_phase self fs data_file compression = Ok (nodes, edges) ->
            node_of row1 ∈ nodes /\ node_of row2 ∈ nodes).
  { intros nodes edges Hread.
    rewrite (read_phase_rows _ _ _ _ _ _ Hopen Hrows) in Hread.
    destruct (for_rows_keeps _ _ _ _ _ _ Hread Hin1 Hkept1) as [H1 _].
    destruct (for_rows_keeps _ _ _ _ _ _ Hread Hin2 Hkept2) as [H2 _].
    split; assumption. }
  split; [exact Hne|]. split; [exact Hd|]. split; [exact Hsets|].
  intros fs' Hparse.
  inversion Hparse as [|nodes edges node_order edge_order ? ? Hread Hn He Hwrite]; subst.
  destruct (Hsets _ _ Hread) as [H1 H2].
  apply (iterates_elem_of _ _ _ Hn) in H1, H2.
  apply list_elem_of_lookup in H1 as [i Hi]. apply list_elem_of_lookup in H2 as [j Hj].
  exists (node_columns <$> node_order), i, j.
  apply write_phase_Ok in Hwrite as (-> & _ & _). unfold with_file. cbn [files].
  split.
  { rewrite lookup_insert_ne by (intros Heq; symmetry in Heq; by apply out_paths_differ in Heq).
    by rewrite lookup_insert_eq. }
  split.
  { intros ->. rewrite Hi in Hj. exact (Hne (Some_inj _ _ Hj)). }
  rewrite !list_lookup_fmap, Hi, Hj. cbn [fmap option_fmap option_map].
  unfold node_columns, node_of.
  cbn [KgxNode.id KgxNode.category KgxNode.name KgxNode.provided_by].
  rewrite Hd. split; reflexivity.
Qed.

Lemma same_id_two_nodes_witness :
  let self := configured false "data/raw" "out" in
  let fs := disk (hpoa_text [record_of "OMIM:101600" "DiseaseX" "" "HP:0001" "PMID:1";
                             record_of "OMIM:101600" "DISEASE X" "" "HP:0002" "PMID:1"]) in
  exists lines i j,
    files (parse_run self hpoa_path None fs).1 !! "out/HPOA_nodes.tsv"
    = Some (table_text node_tsv_column_names lines)
    /\ i <> j
    /\ lines !! i = Some ["OMIM:101600"; "biolink:Disease"; "DiseaseX"; "HPO:hpoa"]
    /\ lines !! j = Some ["OMIM:101600"; "biolink:Disease"; "DISEASE X"; "HPO:hpoa"].
Proof.
  intros self fs.
  assert (Hok : (parse_run self hpoa_path None fs).2 = Ok tt) by (vm_compute; reflexivity).
  pose proof (parse_run_parse self hpoa_path None fs) as Hrun. rewrite Hok in Hrun.
  destruct (same_id_two_nodes self hpoa_path None fs
              (hpoa_text [record_of "OMIM:101600" "DiseaseX" "" "HP:0001" "PMID:1";
                          record_of "OMIM:101600" "DISEASE X" "" "HP:0002" "PMID:1"])
              [Ok (parsed (record_of "OMIM:101600" "DiseaseX" "" "HP:0001" "PMID:1"));
               Ok (parsed (record_of "OMIM:101600" "DISEASE X" "" "HP:0002" "PMID:1"))]
              (parsed (record_of "OMIM:101600" "DiseaseX" "" "HP:0001" "PMID:1"))
              (parsed (record_of "OMIM:101600" "DISEASE X" "" "HP:0002" "PMID:1"))
              true true)
    as (_ & _ & _ & Hfile).
  - reflexivity.
  - vm_compute. reflexivity.
  - apply list_elem_of_here.
  - apply list_elem_of_further, list_elem_of_here.
  - vm_compute. reflexivity.
  - vm_compute. reflexivity.
  - vm_compute. reflexivity.
  - vm_compute. intros H. discriminate H.
  - destruct (Hfile _ Hrun) as (lines & i & j & Hlines & Hij & Hi & Hj).
    exists lines, i, j. split; [exact Hlines|]. split; [exact Hij|].
    split; [exact Hi|exact Hj].
Defined.

(** ** Identifiers that coincide *)

(** X7.  The identifier of an edge is made of the joined text alone, and the join
    with ["-"] does not tell where the disease ends when an identifier has a
    hyphen of its own: two pairs of disease and phenotype whose joined texts
    are the same get the same edge identifier, under the same presence. *)
Theorem edge_id_of_joined_text (d1 h1 d2 h2 : string) (present : bool) :
  d1 +:+ "-" +:+ h1 = d2 +:+ "-" +:+ h2 ->
  edge_id (Some d1) (Some h1) present = edge_id (Some d2) (Some h2) present
  /\ exists id, edge_id (Some d1) (Some h1) present = Ok id.
Proof.
  intros Hjoin. unfold edge_id. cbn [str_join mbind result_bind mret result_ret].
  split; [|eexists; reflexivity].
  do 4 f_equal.
  rewrite <- (string_app_assoc d1 "-" (h1 +:+ "-" +:+ str_of_bool present)).
  rewrite <- (string_app_assoc d2 "-" (h2 +:+ "-" +:+ str_of_bool present)).
  rewrite <- (string_app_assoc (d1 +:+ "-") h1), <- (string_app_assoc (d2 +:+ "-") h2).
  rewrite (string_app_assoc d1 "-" h1), (string_app_assoc d2 "-" h2).
  by rewrite Hjoin.
Qed.

Lemma edge_id_of_joined_text_witness :
  edge_id (Some "DECIPHER:1-2") (Some "HP:0001") true
  = edge_id (Some "DECIPHER:1") (Some "2-HP:0001") true.
Proof.
  exact (proj1 (edge_id_of_joined_text "DECIPHER:1-2" "HP:0001" "DECIPHER:1" "2-HP:0001"
                  true eq_refl)).
Defined.

(** ** The columns the transform does not read *)

Lemma add_row_same_fields (row1 row2 : SourceRow) (present : bool)
    (acc : gset KgxNode.t * gset KgxEdge.t) :
  getitem row1 "DiseaseName" = getitem row2 "DiseaseName" ->
  getitem row1 "DatabaseID" = getitem row2 "DatabaseID" ->
  getitem row1 "HPO_ID" = getitem row2 "HPO_ID" ->
  getitem row1 "Reference" = getitem row2 "Reference" ->
  add_row row1 present acc = add_row row2 present acc.
Proof. intros Hn Hd Hh Hr. unfold add_row. by rewrite Hn, Hd, Hh, Hr. Qed.

(** X8.  The transform reads the first five columns of a record and no other:
    two records with the same first five fields, whatever their evidence,
    onset, frequency, sex, modifier, aspect and biocuration and however many
    fields they have, are kept or passed over alike and give the same node
    and the same edge. *)
Theorem later_columns_unread (self : DiseaseAnnotations) (record1 record2 : list string)
    (acc acc' : gset KgxNode.t * gset KgxEdge.t) :
  take 5 record1 = take 5 record2 ->
  loop_body self (parsed record1) acc = Ok acc' <->
  loop_body self (parsed record2) acc = Ok acc'.
Proof.
  intros Htake.
  assert (Hlookup : forall i, (i < 5)%nat -> record1 !! i = record2 !! i).
  { intros i Hi. by rewrite <- (lookup_take_lt record1 5 i), <- (lookup_take_lt record2 5 i), Htake. }
  destruct (parsed_fields record1) as (Hd1 & Hn1 & Hq1 & Hh1 & Hr1).
  destruct (parsed_fields record2) as (Hd2 & Hn2 & Hq2 & Hh2 & Hr2).
  rewrite <- Hlookup in Hd2, Hn2, Hq2, Hh2, Hr2 by lia.
  rewrite !loop_body_cases. unfold classify. rewrite Hq1, Hq2.
  cbn [mbind result_bind].
  repeat case_bool_decide; cbn [negb andb]; try (split; discriminate);
    try destruct (_add_excluded_phenotype self); cbn [negb andb]; try reflexivity;
    by rewrite (add_row_same_fields (parsed record1) (parsed record2))
      by congruence.
Qed.

Lemma later_columns_unread_witness :
  let self := configured false "data/raw" "out" in
  let record1 := ["OMIM:101600"; "DiseaseX"; ""; "HP:0001"; "PMID:1";
                  "TAS"; ""; ""; ""; ""; "P"; "HPO:probinson[2020-03-27]"] in
  let record2 := ["OMIM:101600"; "DiseaseX"; ""; "HP:0001"; "PMID:1";
                  "IEA"; "HP:0003577"; "1/2"; "MALE"; ""; "I"] in
  loop_body self (parsed record2) (∅, ∅)
  = Ok ({[node_of (parsed record1)]} ∪ ∅, {[edge_of (parsed record1) true]} ∪ ∅).
Proof.
  intros self record1 record2.
  apply (later_columns_unread self record1 record2 (∅, ∅)); [reflexivity|].
  apply loop_body_asserted.
Defined.

(** ** Reading back what the writer wrote *)

Lemma process_line_app (r : csv.Reader) (s1 s2 : string) :
  csv.process_line TsvDialect r (s1 +:+ s2)
  = feed r s1 ≫= fun r' => csv.process_line TsvDialect r' s2.
Proof.
  revert r. induction s1 as [|c s1 IH]; intros r; [reflexivity|].
  rewrite string_app_cons. cbn [csv.process_line feed].
  destruct (csv.parse_process_char TsvDialect r (Some c)) as [r'|e]; [|reflexivity].
  cbn [mbind result_bind]. apply IH.
Qed.

Lemma feed_app (r : csv.Reader) (s1 s2 : string) :
  feed r (s1 +:+ s2) = feed r s1 ≫= fun r' => feed r' s2.
Proof.
  revert r. induction s1 as [|c s1 IH]; intros r; [reflexivity|].
  rewrite string_app_cons. cbn [feed].
  destruct (csv.parse_process_char TsvDialect r (Some c)) as [r'|e]; [|reflexivity].
  cbn [mbind result_bind]. apply IH.
Qed.

Lemma code_points_nonneg (s : string) : 0 <= code_points s.
Proof. induction s as [|c s IH]; cbn [code_points]; [lia|]. destruct (csv.starts_code_point c); lia. Qed.

(** The characters the writer puts behind a backslash start a code point. *)
Lemma parse_add_char_below (st : csv.ParserState) (fs : list string) (p : string) (n : Z)
    (c : ascii) :
  n + (if csv.starts_code_point c then 1 else 0) <= csv.field_limit ->
  csv.parse_add_char (csv.mkReader st fs p n) c
  = Ok (csv.mkReader st fs (p +:+ String c "")
          (n + (if csv.starts_code_point c then 1 else 0))).
Proof.
  intros Hn. unfold csv.parse_add_char. cbn [csv.field_len csv.state csv.fields csv.field].
  destruct (csv.starts_code_point c).
  - rewrite (proj2 (Z.leb_gt _ _)) by lia. reflexivity.
  - by rewrite Z.add_0_r.
Qed.

Lemma in_field_plain (r : csv.Reader) (c : ascii) :
  c <> LF -> c <> CR -> c <> TAB -> c <> BACKSLASH ->
  csv.in_field TsvDialect r (Some c) = csv.parse_add_char r c.
Proof.
  intros Hlf Hcr Htab Hbs. unfold csv.in_field, csv.is_newline.
  cbn [csv.escapechar csv.delimiter TsvDialect].
  rewrite !bool_decide_eq_false_2 by congruence. reflexivity.
Qed.

Lemma start_field_plain (r : csv.Reader) (c : ascii) :
  c <> LF -> c <> CR -> c <> TAB -> c <> BACKSLASH -> c <> SPACE ->
  csv.start_field TsvDialect r (Some c)
  = csv.parse_add_char r c ≫= fun r' => Ok (csv.set_state csv.IN_FIELD r').
Proof.
  intros Hlf Hcr Htab Hbs Hsp. unfold csv.start_field, csv.is_newline.
  cbn [csv.escapechar csv.delimiter csv.skipinitialspace TsvDialect].
  rewrite !bool_decide_eq_false_2 by congruence. reflexivity.
Qed.

Lemma escaped_char (fs : list string) (p : string) (n : Z) (c : ascii) :
  c <> LF -> c <> CR ->
  csv.parse_process_char TsvDialect (csv.mkReader csv.ESCAPED_CHAR fs p n) (Some c)
  = csv.parse_add_char (csv.mkReader csv.ESCAPED_CHAR fs p n) c
    ≫= fun r' => Ok (csv.set_state csv.IN_FIELD r').
Proof.
  intros Hlf Hcr. unfold csv.parse_process_char, csv.is_newline. cbn [csv.state].
  rewrite !bool_decide_eq_false_2 by congruence. reflexivity.
Qed.

(** The rest of a field, as the writer writes it, read inside the field. *)
Lemma feed_in_field (g : string) (fs : list string) (p : string) (n : Z) :
  plain g -> n + code_points g <= csv.field_limit ->
  feed (csv.mkReader csv.IN_FIELD fs p n) (escape g)
  = Ok (csv.mkReader csv.IN_FIELD fs (p +:+ g) (n + code_points g)).
Proof.
  unfold plain. revert p n. induction g as [|c g IH]; intros p n Hplain Hn.
  - cbn. by rewrite string_app_nil_r, Z.add_0_r.
  - cbn [String.list_ascii_of_string] in Hplain.
    apply Forall_cons in Hplain as [[Hlf Hcr] Hplain].
    cbn [code_points] in Hn. pose proof (code_points_nonneg g) as Hg.
    assert (Hc : n + (if csv.starts_code_point c then 1 else 0) <= csv.field_limit)
      by (destruct (csv.starts_code_point c); lia).
    assert (Hrest : feed (csv.mkReader csv.IN_FIELD fs (p +:+ String c "")
                            (n + (if csv.starts_code_point c then 1 else 0))) (escape g)
                    = Ok (csv.mkReader csv.IN_FIELD fs (p +:+ String c g)
                            (n + code_points (String c g)))).
    { rewrite IH by (done || lia). cbn [code_points].
      by rewrite string_app_assoc, Z.add_assoc. }
    cbn [escape]. destruct (bool_decide (c = TAB) || bool_decide (c = BACKSLASH)
                            || bool_decide (c = LF)) eqn:Hesc.
    + cbn [feed]. change (csv.parse_process_char TsvDialect
                            (csv.mkReader csv.IN_FIELD fs p n) (Some BACKSLASH))
        with (Ok (csv.mkReader csv.ESCAPED_CHAR fs p n)).
      cbn [mbind result_bind]. rewrite escaped_char by done.
      rewrite parse_add_char_below by done. cbn [mbind result_bind csv.set_state
        csv.fields csv.field csv.field_len]. exact Hrest.
    + apply orb_false_elim in Hesc as [Hesc _]. apply orb_false_elim in Hesc as [Htab Hbs].
      apply bool_decide_eq_false_1 in Htab, Hbs.
      cbn [feed]. change (csv.parse_process_char TsvDialect
                            (csv.mkReader csv.IN_FIELD fs p n) (Some c))
        with (csv.in_field TsvDialect (csv.mkReader csv.IN_FIELD fs p n) (Some c)).
      rewrite in_field_plain by done. rewrite parse_add_char_below by done.
      cbn [mbind result_bind]. exact Hrest.
Qed.

(** A whole field, as the writer writes it, read from the start of a field:
    an empty field leaves the reader where it is. *)
Lemma feed_field (f : string) (fs : list string) :
  readable f ->
  feed (csv.mkReader csv.START_FIELD fs "" 0) (escape f)
  = Ok (if bool_decide (f = "") then csv.mkReader csv.START_FIELD fs "" 0
        else csv.mkReader csv.IN_FIELD fs f (code_points f)).
Proof.
  intros (Hplain & Hspace & Hlen). destruct f as [|c f]; [reflexivity|].
  rewrite bool_decide_eq_false_2 by discriminate.
  unfold plain in Hplain. cbn [String.list_ascii_of_string] in Hplain.
  apply Forall_cons in Hplain as [[Hlf Hcr] Hplain].
  assert (Hsp : c <> SPACE) by (intros ->; by eapply Hspace).
  cbn [code_points] in Hlen. pose proof (code_points_nonneg f) as Hf.
  assert (Hc : 0 + (if csv.starts_code_point c then 1 else 0) <= csv.field_limit)
    by (destruct (csv.starts_code_point c); lia).
  assert (Hrest : feed (csv.mkReader csv.IN_FIELD fs ("" +:+ String c "")
                          (0 + (if csv.starts_code_point c then 1 else 0))) (escape f)
                  = Ok (csv.mkReader csv.IN_FIELD fs (String c f)
                          (code_points (String c f)))).
  { rewrite feed_in_field by (done || lia). cbn [code_points].
    by rewrite Z.add_0_l. }
  cbn [escape]. destruct (bool_decide (c = TAB) || bool_decide (c = BACKSLASH)
                          || bool_decide (c = LF)) eqn:Hesc.
  - cbn [feed]. change (csv.parse_process_char TsvDialect
                          (csv.mkReader csv.START_FIELD fs "" 0) (Some BACKSLASH))
      with (Ok (csv.mkReader csv.ESCAPED_CHAR fs "" 0)).
    cbn [mbind result_bind]. rewrite escaped_char by done.
    rewrite parse_add_char_below by done. cbn [mbind result_bind csv.set_state
      csv.fields csv.field csv.field_len]. exact Hrest.
  - apply orb_false_elim in Hesc as [Hesc _]. apply orb_false_elim in Hesc as [Htab Hbs].
    apply bool_decide_eq_false_1 in Htab, Hbs.
    cbn [feed]. change (csv.parse_process_char TsvDialect
                          (csv.mkReader csv.START_FIELD fs "" 0) (Some c))
      with (csv.start_field TsvDialect (csv.mkReader csv.START_FIELD fs "" 0) (Some c)).
    rewrite start_field_plain by done. rewrite parse_add_char_below by done.
    cbn [mbind result_bind csv.set_state csv.fields csv.field csv.field_len]. exact Hrest.
Qed.

(** The fields of a line, as the writer writes them, read one after the
    other. *)
Lemma process_fields (rest : list string) (f : string) (fs : list string) :
  Forall readable (f :: rest) ->
  csv.process_line TsvDialect (csv.mkReader csv.START_FIELD fs "" 0)
    (String.concat (String TAB "") (escape <$> f :: rest) +:+ String LF "")
  = Ok (csv.mkReader csv.START_RECORD (fs ++ f :: rest) "" 0).
Proof.
  revert f fs. induction rest as [|f' rest IH]; intros f fs Hall;
    apply Forall_cons in Hall as [Hf Hall].
  - cbn [fmap list_fmap String.concat]. rewrite process_line_app, feed_field by done.
    cbn [mbind result_bind]. case_bool_decide as Hempty; [subst f|]; reflexivity.
  - change (String.concat (String TAB "") (escape <$> f :: f' :: rest))
      with (escape f +:+ String TAB "" +:+ String.concat (String TAB "") (escape <$> f' :: rest)).
    rewrite !string_app_assoc, process_line_app, feed_field by done.
    cbn [mbind result_bind]. rewrite string_app_cons.
    change ("" +:+ ?s) with s.
    assert (Hgoal : csv.process_line TsvDialect (csv.mkReader csv.START_FIELD (fs ++ [f]) "" 0)
                      (String.concat (String TAB "") (escape <$> f' :: rest) +:+ String LF "")
                    = Ok (csv.mkReader csv.START_RECORD (fs ++ f :: f' :: rest) "" 0)).
    { rewrite IH by done. by rewrite <- app_assoc. }
    case_bool_decide as Hempty; [subst f|]; exact Hgoal.
Qed.

Lemma plain_app (s t : string) : plain s -> plain t -> plain (s +:+ t).
Proof.
  unfold plain. induction s as [|c s IH]; intros Hs Ht; [exact Ht|].
  rewrite string_app_cons. cbn [String.list_ascii_of_string] in *.
  apply Forall_cons in Hs as [Hc Hs]. apply Forall_cons. split; [exact Hc|by apply IH].
Qed.

Lemma plain_escape (s : string) : plain s -> plain (escape s).
Proof.
  unfold plain. induction s as [|c s IH]; intros Hs; [exact Hs|].
  cbn [String.list_ascii_of_string escape] in *.
  apply Forall_cons in Hs as [Hc Hs]. specialize (IH Hs).
  destruct (_ || _); cbn [String.list_ascii_of_string];
    repeat (apply Forall_cons; split); try done; split; discriminate.
Qed.

Lemma plain_fields (fields : list string) :
  Forall readable fields -> plain (String.concat (String TAB "") (escape <$> fields)).
Proof.
  intros Hall. induction Hall as [|f fields Hf Hall IH]; [by constructor|].
  destruct fields as [|f' fields].
  - cbn [fmap list_fmap String.concat]. apply plain_escape, Hf.
  - change (String.concat (String TAB "") (escape <$> f :: f' :: fields))
      with (escape f +:+ String TAB "" +:+ String.concat (String TAB "") (escape <$> f' :: fields)).
    apply plain_app; [apply plain_escape, Hf|]. apply plain_app; [|exact IH].
    repeat constructor; discriminate.
Qed.

(** A line of two readable fields or more is one record for the reader: its
    fields. *)
Lemma process_tsv_line (f0 f1 : string) (fields : list string) :
  Forall readable (f0 :: f1 :: fields) ->
  csv.process_line TsvDialect csv.parse_reset (tsv_line (f0 :: f1 :: fields))
  = Ok (csv.mkReader csv.START_RECORD (f0 :: f1 :: fields) "" 0).
Proof.
  intros Hall. pose proof (process_fields (f1 :: fields) f0 [] Hall) as Hfields.
  cbn [app] in Hfields. unfold tsv_line. rewrite <- Hfields.
  assert (Hfirst : exists c s,
            String.concat (String TAB "") (escape <$> f0 :: f1 :: fields) +:+ String LF ""
            = String c s /\ csv.is_newline c = false).
  { change (String.concat (String TAB "") (escape <$> f0 :: f1 :: fields))
      with (escape f0 +:+ String TAB "" +:+ String.concat (String TAB "") (escape <$> f1 :: fields)).
    apply Forall_cons in Hall as [(Hplain & _ & _) _].
    destruct f0 as [|c f0]; [by eexists _, _|].
    unfold plain in Hplain. cbn [String.list_ascii_of_string] in Hplain.
    apply Forall_cons in Hplain as [[Hlf Hcr] _]. cbn [escape].
    destruct (_ || _); rewrite !string_app_cons; eexists _, _; (split; [reflexivity|]);
      [reflexivity|]. unfold csv.is_newline. by rewrite !bool_decide_eq_false_2. }
  destruct Hfirst as (c & s & -> & Hnl). cbn [csv.process_line].
  f_equal.
  unfold csv.parse_process_char. cbn [csv.state csv.parse_reset]. by rewrite Hnl.
Qed.

(** The lines of a text made of written lines are those lines. *)
Lemma iter_lines_tsv_lines (rows : list (list string)) :
  Forall (Forall readable) rows ->
  iter_lines "" (String.concat "" (tsv_line <$> rows)) = tsv_line <$> rows.
Proof.
  intros Hall. induction Hall as [|row rows Hrow Hall IH]; [reflexivity|].
  assert (Hcat : String.concat "" (tsv_line <$> row :: rows)
                 = tsv_line row +:+ String.concat "" (tsv_line <$> rows)).
  { destruct rows; cbn [fmap list_fmap String.concat]; by rewrite ?string_app_nil_r. }
  rewrite Hcat. unfold tsv_line at 1. rewrite string_app_assoc.
  change (String LF "" +:+ ?s) with (String LF s).
  rewrite iter_lines_plain by (by apply plain_fields). rewrite IH. reflexivity.
Qed.

(** The reader on written lines: a record for each line. *)
Lemma reader_tsv_lines (rows : list (list string)) :
  Forall (fun row => (2 <= length row)%nat /\ Forall readable row) rows ->
  csv.reader_from TsvDialect csv.parse_reset (tsv_line <$> rows) = Ok <$> rows.
Proof.
  intros Hall. induction Hall as [|row rows [Hlen Hrow] Hall IH]; [reflexivity|].
  destruct row as [|f0 [|f1 fields]]; [cbn in Hlen; lia..|].
  cbn [fmap list_fmap csv.reader_from]. rewrite process_tsv_line by done.
  cbn [csv.state csv.fields]. rewrite bool_decide_eq_true_2 by reflexivity.
  by rewrite IH.
Qed.

Lemma written_table_reads_back' (header : list string) (rows : list (list string)) :
  Forall (fun row => (2 <= length row)%nat /\ Forall readable row) (header :: rows) ->
  csv.reader (iter_lines "" (table_text header rows)) TsvDialect
  = Ok header :: (Ok <$> rows).
Proof.
  intros Hall. unfold csv.reader, table_text.
  assert (Hcat : tsv_line header +:+ String.concat "" (tsv_line <$> rows)
                 = String.concat "" (tsv_line <$> header :: rows)).
  { destruct rows; cbn [fmap list_fmap String.concat]; by rewrite ?string_app_nil_r. }
  rewrite Hcat, iter_lines_tsv_lines.
  - by rewrite reader_tsv_lines.
  - eapply Forall_impl; [exact Hall|]. by intros row [_ Hrow].
Qed.

(** X9.  A table written by the writer of [parse] and read by a reader of the
    same dialect gives back its header and its rows, when every row has two
    fields or more and every field is readable: no line end inside, no
    space at the start, within the reader's field limit.  Tabs and
    backslashes inside the fields come back as they were. *)
Theorem written_table_reads_back (header : list string) (rows : list (list string)) :
  Forall (fun row => (2 <= length row)%nat /\ Forall readable row) (header :: rows) ->
  csv.reader (iter_lines "" (table_text header rows)) TsvDialect
  = Ok header :: (Ok <$> rows).
Proof.
  intros Hall. unfold csv.reader, table_text.
  assert (Hcat : tsv_line header +:+ String.concat "" (tsv_line <$> rows)
                 = String.concat "" (tsv_line <$> header :: rows)).
  { destruct rows; cbn [fmap list_fmap String.concat]; by rewrite ?string_app_nil_r. }
  rewrite Hcat, iter_lines_tsv_lines.
  - by rewrite reader_tsv_lines.
  - eapply Forall_impl; [exact Hall|]. by intros row [_ Hrow].
Qed.

Lemma written_table_reads_back_witness :
  let row := ["OMIM:101600"; "Disease" +:+ String TAB "X"; "a\b"; "trailing space "] in
  csv.reader (iter_lines "" (table_text ["id"; "name"; "note"; ""] [row; row])) TsvDialect
  = [Ok ["id"; "name"; "note"; ""]; Ok row; Ok row].
Proof.
  intros row.
  assert (Hreadable : forall f,
            bool_decide (plain f) = true ->
            (forall f', f <> String SPACE f') ->
            (code_points f <=? csv.field_limit) = true -> readable f).
  { intros f Hplain Hspace Hlen. split; [exact (bool_decide_eq_true_1 _ Hplain)|].
    split; [exact Hspace|]. by apply Z.leb_le. }
  apply (written_table_reads_back ["id"; "name"; "note"; ""] [row; row]).
  unfold row.
  repeat (apply Forall_cons; split;
          [split; [cbn [length]; lia|];
           repeat (apply Forall_cons; split;
                   [apply Hreadable; [reflexivity|intros f' H; discriminate H|reflexivity]|]);
           apply Forall_nil_2|]).
  apply Forall_nil_2.
Defined.

(** ** The output files read back *)

(** The nodes and the edges of the two sets are the nodes and the edges of
    rows. *)
Lemma read_phase_elements (self : DiseaseAnnotations) (fs : filesystem)
    (data_file : string) (compression : option string)
    (nodes : gset KgxNode.t) (edges : gset KgxEdge.t) :
  read_phase self fs data_file compression = Ok (nodes, edges) ->
  (forall n, n ∈ nodes -> exists row, n = node_of row)
  /\ (forall e, e ∈ edges -> exists row present, e = edge_of row present).
Proof.
  unfold read_phase.
  destruct (_open_file fs data_file compression) as [text|]; [|discriminate].
  cbn [mbind result_bind]. destruct (rows_of self text) as [rows|]; [|discriminate].
  cbn [mbind result_bind]. intros Hrows.
  destruct (for_rows_Ok_rows _ _ _ _ Hrows) as [rs ->].
  pose proof (for_rows_effect _ _ _ _ (∅, ∅) Hrows) as Hacc.
  rewrite Hrows in Hacc. cbn [fst snd] in Hacc. rewrite !union_empty_r_L in Hacc.
  injection Hacc as -> ->.
  split.
  - intros n Hn. apply elem_of_list_to_set, list_elem_of_fmap in Hn as ([row p] & -> & _).
    by exists row.
  - intros e He. apply elem_of_list_to_set, list_elem_of_fmap in He as ([row p] & -> & _).
    by exists row, p.
Qed.

(** X10.  When [parse] ends well and the diseases, their names and the phenotypes
    are readable, each of the two files, read by a reader of the dialect,
    gives back its header and, for each node or edge once, the fields
    written for it. *)
Theorem output_files_read_back (self : DiseaseAnnotations) (data_file : string)
    (compression : option string) (fs fs' : filesystem)
    (nodes : gset KgxNode.t) (edges : gset KgxEdge.t) :
  read_phase self fs data_file compression = Ok (nodes, edges) ->
  parse self data_file compression fs fs' (Ok tt) ->
  (forall n, n ∈ nodes ->
     readable (text_of (KgxNode.id n)) /\ readable (text_of (KgxNode.name n))) ->
  (forall e, e ∈ edges ->
     readable (text_of (KgxEdge.subject e)) /\ readable (text_of (KgxEdge.object e))) ->
  exists node_text edge_text node_order edge_order,
    files fs' !! nodes_out_path self = Some node_text
    /\ files fs' !! edges_out_path self = Some edge_text
    /\ iterates nodes node_order /\ iterates edges edge_order
    /\ csv.reader (iter_lines "" node_text) TsvDialect
       = Ok ["id"; "category"; "name"; "provided_by"]
         :: ((fun n => Ok [text_of (KgxNode.id n); "biolink:Disease";
                           text_of (KgxNode.name n); "HPO:hpoa"])
             <$> node_order)
    /\ csv.reader (iter_lines "" edge_text) TsvDialect
       = Ok ["subject"; "predicate"; "object"; "relation"; "provided_by"; ""]
         :: ((fun e => Ok [text_of (KgxEdge.subject e); "biolink:has_phenotype";
                           text_of (KgxEdge.object e); "RO:0002200"; "HPO:hpoa"; ""])
             <$> edge_order).
Proof.
  intros Hread Hparse Hnodes Hedges.
  destruct (read_phase_elements _ _ _ _ _ _ Hread) as [Hnode_of Hedge_of].
  destruct (parse_read_Ok _ _ _ _ _ _ _ _ Hread Hparse)
    as (node_order & edge_order & Hn & He & Hwrite).
  apply write_phase_Ok in Hwrite as (-> & _ & _).
  exists (table_text node_tsv_column_names (node_columns <$> node_order)),
    (table_text edge_tsv_column_names (edge_columns <$> edge_order)),
    node_order, edge_order.
  assert (Hconst : forall f, bool_decide (plain f) = true ->
            (forall f', f <> String SPACE f') ->
            (code_points f <=? csv.field_limit) = true -> readable f).
  { intros f Hplain Hspace Hlen. split; [exact (bool_decide_eq_true_1 _ Hplain)|].
    split; [exact Hspace|]. by apply Z.leb_le. }
  split.
  { unfold with_file. cbn [files].
    rewrite lookup_insert_ne by (intros Heq; symmetry in Heq; by apply out_paths_differ in Heq).
    by rewrite lookup_insert_eq. }
  split; [unfold with_file; cbn [files]; by rewrite lookup_insert_eq|].
  split; [exact Hn|]. split; [exact He|]. split.
  - rewrite written_table_reads_back'.
    + f_equal. rewrite <- list_fmap_compose. apply Forall_fmap_ext_1.
      apply Forall_forall. intros n Hin. apply (iterates_elem_of _ _ _ Hn) in Hin.
      destruct (Hnode_of n Hin) as [row ->]. reflexivity.
    + apply Forall_cons. split.
      { split; [cbn; lia|].
        repeat (apply Forall_cons; split;
                [apply Hconst; [reflexivity|intros f' H; discriminate H|reflexivity]|]).
        apply Forall_nil_2. }
      apply Forall_fmap, Forall_forall. intros n Hin.
      apply (iterates_elem_of _ _ _ Hn) in Hin.
      destruct (Hnodes n Hin) as [Hid Hname]. destruct (Hnode_of n Hin) as [row ->].
      split; [cbn; lia|]. unfold node_columns, node_of.
      cbn [KgxNode.id KgxNode.category KgxNode.name KgxNode.provided_by] in *.
      apply Forall_cons; split; [exact Hid|].
      apply Forall_cons; split;
        [apply Hconst; [reflexivity|intros f' H; discriminate H|reflexivity]|].
      apply Forall_cons; split; [exact Hname|].
      apply Forall_cons; split;
        [apply Hconst; [reflexivity|intros f' H; discriminate H|reflexivity]|].
      apply Forall_nil_2.
  - rewrite written_table_reads_back'.
    + f_equal. rewrite <- list_fmap_compose. apply Forall_fmap_ext_1.
      apply Forall_forall. intros e Hin. apply (iterates_elem_of _ _ _ He) in Hin.
      destruct (Hedge_of e Hin) as (row & present & ->). reflexivity.
    + apply Forall_cons. split.
      { split; [cbn; lia|].
        repeat (apply Forall_cons; split;
                [apply Hconst; [reflexivity|intros f' H; discriminate H|reflexivity]|]).
        apply Forall_nil_2. }
      apply Forall_fmap, Forall_forall. intros e Hin.
      apply (iterates_elem_of _ _ _ He) in Hin.
      destruct (Hedges e Hin) as [Hs Ho]. destruct (Hedge_of e Hin) as (row & present & ->).
      split; [cbn; lia|]. unfold edge_columns, edge_of.
      unfold edge_of in Hs, Ho.
      cbn [KgxEdge.subject KgxEdge.predicate KgxEdge.object KgxEdge.relation
           KgxEdge.primary_knowledge_source] in *.
      apply Forall_cons; split; [exact Hs|].
      apply Forall_cons; split;
        [apply Hconst; [reflexivity|intros f' H; discriminate H|reflexivity]|].
      apply Forall_cons; split; [exact Ho|].
      repeat (apply Forall_cons; split;
              [apply Hconst; [reflexivity|intros f' H; discriminate H|reflexivity]|]).
      apply Forall_nil_2.
Qed.

Lemma parsed_values (d n q h r : string) (others : list string) :
  let row := parsed (d :: n :: q :: h :: r :: others) in
  value_of row "DatabaseID" = Some d /\ value_of row "DiseaseName" = Some n
  /\ value_of row "HPO_ID" = Some h /\ value_of row "Reference" = Some r.
Proof.
  intros row.
  destruct (parsed_fields (d :: n :: q :: h :: r :: others)) as (Hd & Hn & _ & Hh & Hr).
  fold row in Hd, Hn, Hh, Hr. apply getitem_value_of in Hd, Hn, Hh, Hr.
  repeat split; assumption.
Qed.

Lemma readable_check (f : string) :
  bool_decide (plain f) = true ->
  (forall f', f <> String SPACE f') ->
  (code_points f <=? csv.field_limit) = true -> readable f.
Proof.
  intros Hplain Hspace Hlen. split; [exact (bool_decide_eq_true_1 _ Hplain)|].
  split; [exact Hspace|]. by apply Z.leb_le.
Qed.

Lemma output_files_read_back_witness :
  let self := configured false "data/raw" "out" in
  let fs := disk (hpoa_text [record_of "OMIM:101600" "DiseaseX" "" "HP:0001" "PMID:1"]) in
  exists node_text edge_text,
    files (parse_run self hpoa_path None fs).1 !! "out/HPOA_nodes.tsv" = Some node_text
    /\ files (parse_run self hpoa_path None fs).1 !! "out/HPOA_edges.tsv" = Some edge_text
    /\ csv.reader (iter_lines "" node_text) TsvDialect
       = [Ok ["id"; "category"; "name"; "provided_by"];
          Ok ["OMIM:101600"; "biolink:Disease"; "DiseaseX"; "HPO:hpoa"]]
    /\ csv.reader (iter_lines "" edge_text) TsvDialect
       = [Ok ["subject"; "predicate"; "object"; "relation"; "provided_by"; ""];
          Ok ["OMIM:101600"; "biolink:has_phenotype"; "HP:0001"; "RO:0002200";
              "HPO:hpoa"; ""]].
Proof.
  intros self fs.
  set (others := ["TAS"; ""; ""; ""; ""; "P"; "HPO:probinson[2020-03-27]"]).
  set (row := parsed ("OMIM:101600" :: "DiseaseX" :: "" :: "HP:0001" :: "PMID:1" :: others)).
  pose proof (read_phase_one_asserted self fs hpoa_path None _
                "OMIM:101600" "DiseaseX" "HP:0001" ("PMID:1" :: others)
                eq_refl ltac:(vm_compute; reflexivity)) as Hread.
  fold row in Hread. rewrite !union_empty_r_L in Hread.
  assert (Hok : (parse_run self hpoa_path None fs).2 = Ok tt) by (vm_compute; reflexivity).
  pose proof (parse_run_parse self hpoa_path None fs) as Hrun. rewrite Hok in Hrun.
  destruct (parsed_values "OMIM:101600" "DiseaseX" "" "HP:0001" "PMID:1" others)
    as (Hd & Hn & Hh & _). fold row in Hd, Hn, Hh.
  destruct (output_files_read_back self hpoa_path None fs _ _ _ Hread Hrun)
    as (node_text & edge_text & node_order & edge_order
        & Hnf & Hef & Hno & Heo & Hnodes & Hedges).
  - intros n Hin. apply elem_of_singleton in Hin as ->. unfold node_of.
    cbn [KgxNode.id KgxNode.name]. rewrite Hd, Hn.
    split; (apply readable_check; [reflexivity|intros f' H; discriminate H|reflexivity]).
  - intros e Hin. apply elem_of_singleton in Hin as ->. unfold edge_of.
    cbn [KgxEdge.subject KgxEdge.object]. rewrite Hd, Hh.
    split; (apply readable_check; [reflexivity|intros f' H; discriminate H|reflexivity]).
  - apply iterates_singleton in Hno as ->. apply iterates_singleton in Heo as ->.
    exists node_text, edge_text. split; [exact Hnf|]. split; [exact Hef|].
    rewrite Hnodes, Hedges. unfold node_of, edge_of.
    cbn [fmap list_fmap KgxNode.id KgxNode.name KgxEdge.subject KgxEdge.object].
    rewrite Hd, Hn, Hh. split; reflexivity.
Defined.

(** ** The exceptions of [parse] *)

Lemma plain_snoc (s : string) (c : ascii) :
  plain s -> c <> LF -> c <> CR -> plain (s +:+ String c "").
Proof.
  intros Hs Hlf Hcr. apply plain_app; [exact Hs|].
  unfold plain. cbn [String.list_ascii_of_string]. by repeat constructor.
Qed.

Lemma iter_lines_file_lines (text cur : string) :
  plain cur -> Forall file_line (iter_lines cur text).
Proof.
  assert (Hend : forall cur ending,
            plain cur ->
            ending ∈ [""; String LF ""; String CR ""; String CR (String LF "")] ->
            file_line (cur +:+ ending)).
  { intros c e Hc He. by exists c, e. }
  assert (Hnil : plain "") by constructor.
  remember (String.length text) as n eqn:Hn.
  revert text cur Hn. induction (lt_wf n) as [n _ IH]. intros text cur -> Hcur.
  destruct text as [|c text]; cbn [iter_lines].
  - case_bool_decide; [constructor|].
    apply Forall_cons; split; [|constructor].
    rewrite <- (string_app_nil_r cur). apply Hend; [exact Hcur|set_solver].
  - case_bool_decide as Hlf.
    { apply Forall_cons; split; [apply Hend; [exact Hcur|set_solver]|].
      eapply IH; [|reflexivity|exact Hnil]. cbn [String.length]. lia. }
    case_bool_decide as Hcr.
    + destruct text as [|c' text].
      * apply Forall_cons; split; [apply Hend; [exact Hcur|set_solver]|].
        eapply IH; [|reflexivity|exact Hnil]. cbn [String.length]. lia.
      * case_bool_decide.
        -- apply Forall_cons; split; [apply Hend; [exact Hcur|set_solver]|].
           eapply IH; [|reflexivity|exact Hnil]. cbn [String.length]. lia.
        -- apply Forall_cons; split; [apply Hend; [exact Hcur|set_solver]|].
           eapply IH; [|reflexivity|exact Hnil]. cbn [String.length]. lia.
    + eapply IH; [|reflexivity|by apply plain_snoc]. cbn [String.length]. lia.
Qed.

Lemma parse_add_char_result (r : csv.Reader) (c : ascii) :
  reader_result (fun r' => csv.state r' = csv.state r) (csv.parse_add_char r c).
Proof.
  unfold csv.parse_add_char.
  destruct (csv.starts_code_point c); [destruct (_ <=? _)|]; by cbn.
Qed.

Lemma add_char_then (r : csv.Reader) (c : ascii) (st : csv.ParserState) :
  st <> csv.EAT_CRNL ->
  reader_result (fun r' => csv.state r' <> csv.EAT_CRNL)
    (csv.parse_add_char r c ≫= fun r' => mret (csv.set_state st r')).
Proof.
  intros Hst. pose proof (parse_add_char_result r c) as Hadd.
  destruct (csv.parse_add_char r c) as [r'|e]; [exact Hst|exact Hadd].
Qed.

(** A character that is no line end never takes the reader to the state in
    which it refuses characters. *)
Lemma process_char_plain (r : csv.Reader) (c : ascii) :
  c <> LF -> c <> CR -> csv.state r <> csv.EAT_CRNL ->
  reader_result (fun r' => csv.state r' <> csv.EAT_CRNL)
    (csv.parse_process_char TsvDialect r (Some c)).
Proof.
  intros Hlf Hcr Hst.
  assert (Hnl : csv.is_newline c = false).
  { unfold csv.is_newline. by rewrite !bool_decide_eq_false_2. }
  assert (Hin : forall r0, csv.state r0 <> csv.EAT_CRNL ->
            reader_result (fun r' => csv.state r' <> csv.EAT_CRNL)
              (csv.in_field TsvDialect r0 (Some c))).
  { intros r0 H0. unfold csv.in_field. rewrite Hnl.
    repeat case_bool_decide; try (cbn; discriminate).
    pose proof (parse_add_char_result r0 c) as Hadd.
    destruct (csv.parse_add_char r0 c) as [r'|e]; [|exact Hadd].
    cbn in Hadd |- *. by rewrite Hadd. }
  assert (Hstart : forall r0, csv.state r0 = csv.START_FIELD ->
            reader_result (fun r' => csv.state r' <> csv.EAT_CRNL)
              (csv.start_field TsvDialect r0 (Some c))).
  { intros r0 H0. unfold csv.start_field. rewrite Hnl.
    case_bool_decide; [cbn; discriminate|].
    destruct (bool_decide (c = SPACE) && _); [cbn; by rewrite H0|].
    case_bool_decide; [cbn; by rewrite H0|].
    by apply add_char_then. }
  unfold csv.parse_process_char.
  destruct (csv.state r) eqn:Hr; try (by apply Hin; rewrite Hr).
  - rewrite Hnl. by apply Hstart.
  - by apply Hstart.
  - rewrite Hnl. by apply add_char_then.
  - by destruct Hst.
Qed.

Lemma feed_plain_result (s : string) (r : csv.Reader) :
  plain s -> csv.state r <> csv.EAT_CRNL ->
  reader_result (fun r' => csv.state r' <> csv.EAT_CRNL) (feed r s).
Proof.
  unfold plain. revert r. induction s as [|c s IH]; intros r Hplain Hst; [exact Hst|].
  cbn [String.list_ascii_of_string] in Hplain.
  apply Forall_cons in Hplain as [[Hlf Hcr] Hplain]. cbn [feed].
  pose proof (process_char_plain r c Hlf Hcr Hst) as Hc.
  destruct (csv.parse_process_char TsvDialect r (Some c)) as [r'|e]; [|exact Hc].
  cbn [mbind result_bind]. by apply IH.
Qed.

(** The end of a line, and the end-of-line marker behind it. *)
Lemma process_ending_result (ending : string) (r : csv.Reader) :
  ending ∈ [""; String LF ""; String CR ""; String CR (String LF "")] ->
  csv.state r <> csv.EAT_CRNL ->
  reader_result (fun r' => csv.state r' <> csv.EAT_CRNL)
    (csv.process_line TsvDialect r ending).
Proof.
  intros Hending Hst.
  assert (Hadd : forall c,
            csv.parse_add_char r c = Raise field_limit_error
            \/ exists r', csv.parse_add_char r c = Ok r' /\ csv.state r' = csv.state r).
  { intros c. pose proof (parse_add_char_result r c) as H.
    destruct (csv.parse_add_char r c) as [r'|e]; [right; by exists r'|left; by rewrite H]. }
  rewrite !elem_of_cons, elem_of_nil in Hending.
  destruct r as [st fs p n]. cbn [csv.state] in Hst, Hadd.
  destruct Hending as [->|[->|[->|[->|[]]]]];
    cbn [csv.process_line]; unfold csv.parse_process_char; cbn [csv.state];
    destruct st; try (by destruct Hst); try (cbn; discriminate);
    try (destruct (Hadd LF) as [->|(r' & -> & Hr')]; [reflexivity|];
         cbn; unfold csv.parse_process_char; cbn; try rewrite Hr'; cbn; discriminate);
    try (destruct (Hadd CR) as [->|(r' & -> & Hr')]; [reflexivity|];
         cbn; unfold csv.parse_process_char; cbn; try rewrite Hr'; cbn; discriminate).
Qed.

Lemma process_file_line (line : string) (r : csv.Reader) :
  file_line line -> csv.state r <> csv.EAT_CRNL ->
  reader_result (fun r' => csv.state r' <> csv.EAT_CRNL)
    (csv.process_line TsvDialect r line).
Proof.
  intros (body & ending & -> & Hbody & Hending) Hst. rewrite process_line_app.
  pose proof (feed_plain_result body r Hbody Hst) as Hfeed.
  destruct (feed r body) as [r'|e]; [|exact Hfeed].
  cbn [mbind result_bind]. by apply process_ending_result.
Qed.

(** On the lines of a file the reader raises nothing but the error of the
    field limit. *)
Lemma reader_from_results (lines : list string) (r : csv.Reader) :
  Forall file_line lines -> csv.state r <> csv.EAT_CRNL ->
  Forall (reader_result (fun _ => True)) (csv.reader_from TsvDialect r lines).
Proof.
  intros Hlines. revert r. induction Hlines as [|line lines Hline Hlines IH]; intros r Hst.
  - cbn [csv.reader_from]. destruct (_ =? _); repeat constructor.
  - cbn [csv.reader_from]. pose proof (process_file_line line r Hline Hst) as Hr.
    destruct (csv.process_line TsvDialect r line) as [r'|e].
    + case_bool_decide; [|by apply IH].
      apply Forall_cons; split; [exact I|]. by apply IH.
    + apply Forall_cons; split; [exact Hr|constructor].
Qed.

(** The rows of a [DictReader] are rows of records that are not empty. *)
Lemma DictReader_rows_results (fieldnames : list string)
    (records : list (result (list string))) :
  Forall (reader_result (fun _ => True)) records ->
  Forall (reader_result (fun row =>
            exists record, record <> [] /\ row = csv.DictReader_row fieldnames record))
         (csv.DictReader_rows fieldnames records).
Proof.
  intros Hall. induction Hall as [|[record|e] records Hrecord Hall IH];
    cbn [csv.DictReader_rows]; [constructor| |].
  - destruct record as [|f record]; [exact IH|].
    apply Forall_cons; split; [|exact IH]. by exists (f :: record).
  - apply Forall_cons; split; [exact Hrecord|constructor].
Qed.

(** What the body of the loop raises on the row of a record. *)
Lemma loop_body_raises (self : DiseaseAnnotations) (record : list string)
    (acc : gset KgxNode.t * gset KgxEdge.t) (e : exn) :
  loop_body self (parsed record) acc = Raise e ->
  (e = ValueError_unexpected_qualifier (record !! 2%nat) (parsed record)
   /\ record !! 2%nat <> Some "" /\ record !! 2%nat <> Some "NOT")
  \/ (e = join_error /\ length record = 3%nat).
Proof.
  rewrite loop_body_cases.
  destruct (parsed_fields record) as (Hd & Hn & Hq & Hh & Hr).
  unfold classify. rewrite Hq. cbn [mbind result_bind].
  assert (Hadd : forall present, is_Some (record !! 2%nat) ->
            add_row (parsed record) present acc = Raise e ->
            e = join_error /\ length record = 3%nat).
  { intros present Hlen. unfold add_row, edge_id. rewrite Hd, Hn, Hh, Hr.
    cbn [mbind result_bind].
    destruct record as [|d [|n [|q [|h others]]]];
      try (by destruct Hlen as [? [=]]);
      cbn [lookup list_lookup str_join mbind result_bind mret result_ret length];
      try discriminate.
    intros [= <-]. by split. }
  case_bool_decide as Hempty.
  { rewrite andb_false_r. intros H. right. apply (Hadd true); [by rewrite Hempty|exact H]. }
  case_bool_decide as Hnot.
  { destruct (_add_excluded_phenotype self); cbn [negb andb]; [|discriminate].
    intros H. right. apply (Hadd false); [by rewrite Hnot|exact H]. }
  intros [= <-]. by left.
Qed.

Lemma for_rows_raises (self : DiseaseAnnotations) (rows : list (result SourceRow))
    (acc : gset KgxNode.t * gset KgxEdge.t) (e : exn) :
  Forall (reader_result (fun row => exists record, record <> [] /\ row = parsed record))
         rows ->
  for_rows self rows acc = Raise e ->
  e = field_limit_error
  \/ (exists record,
        e = ValueError_unexpected_qualifier (record !! 2%nat) (parsed record)
        /\ record <> [] /\ record !! 2%nat <> Some "" /\ record !! 2%nat <> Some "NOT")
  \/ e = join_error.
Proof.
  intros Hall. revert acc.
  induction Hall as [|[row|e'] rows Hrow Hall IH]; intros acc; cbn [for_rows].
  - discriminate.
  - destruct Hrow as (record & Hne & ->).
    destruct (loop_body self (parsed record) acc) as [acc'|e'] eqn:Hbody.
    + cbn [mbind result_bind]. apply IH.
    + cbn [mbind result_bind]. intros [= <-].
      destruct (loop_body_raises _ _ _ _ Hbody) as [(-> & Hq1 & Hq2)|[-> _]].
      * right. left. by exists record.
      * right. by right.
  - intros [= <-]. left. exact Hrow.
Qed.

Lemma skip_lines_suffix (n : nat) (fh fh' : list string) :
  skip_lines n fh = Ok fh' -> fh' = drop n fh.
Proof.
  rewrite skip_lines_spec. destruct (_ <? _)%nat; [discriminate|]. by intros [= <-].
Qed.

(** What reading the input file raises. *)
Lemma read_phase_raises (self : DiseaseAnnotations) (fs : filesystem)
    (data_file : string) (compression : option string) (e : exn) :
  _file_header self = _file_header (__init__ "" "") ->
  read_phase self fs data_file compression = Raise e ->
  (exists tag, compression = Some tag /\ tag <> "" /\ tag <> "gz"
               /\ e = ValueError_cannot_open tag)
  \/ (compression = Some "gz" /\ e = gzip_error)
  \/ ((compression = None \/ compression = Some "")
      /\ (e = OSError data_file
          \/ e = StopIteration
          \/ e = field_limit_error
          \/ (exists record,
                e = ValueError_unexpected_qualifier (record !! 2%nat) (parsed record)
                /\ record <> [] /\ record !! 2%nat <> Some ""
                /\ record !! 2%nat <> Some "NOT")
          \/ e = join_error)).
Proof.
  intros Hheader. unfold read_phase, _open_file.
  destruct (truthy compression) eqn:Htruthy.
  { case_bool_decide as Hgz.
    - intros [= <-]. right. left. by split.
    - intros [= <-]. left. destruct compression as [tag|]; [|discriminate].
      exists tag. cbn in Htruthy. case_bool_decide; [discriminate|].
      repeat split; [done|congruence]. }
  intros Hread. right. right. split.
  { destruct compression as [tag|]; [|by left]. cbn in Htruthy.
    case_bool_decide; [subst; by right|discriminate]. }
  unfold open_r in Hread.
  case_bool_decide; [injection Hread as <-; by left|].
  destruct (files fs !! data_file) as [text|]; [|injection Hread as <-; by left].
  cbn [mbind result_bind] in Hread. unfold rows_of in Hread.
  destruct (skip_lines 5 (iter_lines "" text)) as [fh|e'] eqn:Hskip.
  - cbn [mbind result_bind mret result_ret] in Hread.
    apply skip_lines_suffix in Hskip as ->.
    right. right. eapply for_rows_raises; [|exact Hread].
    rewrite Hheader. apply DictReader_rows_results, reader_from_results; [|discriminate].
    apply Forall_drop, iter_lines_file_lines. constructor.
  - cbn [mbind result_bind] in Hread. injection Hread as <-.
    rewrite skip_lines_spec in Hskip. destruct (_ <? _)%nat; [|discriminate].
    injection Hskip as <-. right. by left.
Qed.

(** X11.  Every way [parse] can fail, for an object set up by [__init__].  The
    compression tag is refused, or [gzip.open] refuses its argument; the
    input file cannot be opened; the file has fewer than five lines; a field
    is longer than the reader's limit; a row has a qualifier other than ['']
    and ['NOT'], a record of one or two fields among them; a row kept has
    three fields only; an output file cannot be opened.  So [parse] never
    raises [KeyError], short as a record may be, and the reader never meets
    a line end where it accepts none.  Every failure but the one on opening
    the edge file leaves the file system as it was. *)
Theorem parse_exceptions (self : DiseaseAnnotations) (data_file : string)
    (compression : option string) (fs fs' : filesystem) (e : exn) :
  _file_header self = _file_header (__init__ "" "") ->
  parse self data_file compression fs fs' (Raise e) ->
  ((exists tag, compression = Some tag /\ tag <> "" /\ tag <> "gz"
                /\ e = ValueError_cannot_open tag)
   \/ (compression = Some "gz" /\ e = gzip_error)
   \/ e = OSError data_file
   \/ e = StopIteration
   \/ e = field_limit_error
   \/ (exists record,
         e = ValueError_unexpected_qualifier (record !! 2%nat) (parsed record)
         /\ record <> [] /\ record !! 2%nat <> Some "" /\ record !! 2%nat <> Some "NOT")
   \/ e = join_error
   \/ e = OSError (nodes_out_path self)
   \/ e = OSError (edges_out_path self))
  /\ (forall key, e <> KeyError key)
  /\ (forall msg, e = csv_Error msg -> e = field_limit_error)
  /\ (e <> OSError (edges_out_path self) -> fs' = fs).
Proof.
  intros Hheader Hparse.
  assert (Hcases :
    (read_phase self fs data_file compression = Raise e /\ fs' = fs)
    \/ (e = OSError (nodes_out_path self) /\ fs' = fs)
    \/ e = OSError (edges_out_path self)).
  { inversion Hparse as [e' Hread|nodes edges node_order edge_order fs1 r Hread Hn He Hwrite];
      subst; [by left|right].
    rewrite write_phase_spec in Hwrite. cbn zeta in Hwrite.
    repeat case_bool_decide; apply pair_equal_spec in Hwrite as [Hfs Hr];
      [injection Hr as <-; by left|injection Hr as <-; by right|discriminate Hr]. }
  assert (Hlist :
    (exists tag, compression = Some tag /\ tag <> "" /\ tag <> "gz"
                 /\ e = ValueError_cannot_open tag)
    \/ (compression = Some "gz" /\ e = gzip_error)
    \/ e = OSError data_file
    \/ e = StopIteration
    \/ e = field_limit_error
    \/ (exists record,
          e = ValueError_unexpected_qualifier (record !! 2%nat) (parsed record)
          /\ record <> [] /\ record !! 2%nat <> Some "" /\ record !! 2%nat <> Some "NOT")
    \/ e = join_error
    \/ e = OSError (nodes_out_path self)
    \/ e = OSError (edges_out_path self)).
  { destruct Hcases as [[Hread _]|[[-> _]| ->]]; [|tauto..].
    destruct (read_phase_raises _ _ _ _ _ Hheader Hread)
      as [H|[H|[_ [H|[H|[H|[H|H]]]]]]]; tauto. }
  split; [exact Hlist|]. split; [|split].
  - intros key ->.
    destruct Hlist as [(tag & _ & _ & _ & [=])|[[_ [=]]|[[=]|[[=]|[[=]|
      [(record & [=] & _)|[[=]|[[=]|[=]]]]]]]]].
  - intros msg ->.
    destruct Hlist as [(tag & _ & _ & _ & [=])|[[_ [=]]|[[=]|[[=]|[H|
      [(record & [=] & _)|[[=]|[[=]|[=]]]]]]]]].
    exact H.
  - intros Hne. destruct Hcases as [[_ ->]|[[_ ->]|H]]; [reflexivity..|by destruct Hne].
Qed.

Lemma parse_exceptions_witness :
  let self := configured false "data/raw" "out" in
  let fs := disk (hpoa_text [record_of "OMIM:101600" "DiseaseX" "" "HP:0001" "PMID:1";
                             [" "]]) in
  parse_run self hpoa_path None fs
  = (fs, Raise (ValueError_unexpected_qualifier None (parsed [""]))).
Proof.
  intros self fs.
  assert (Hr : (parse_run self hpoa_path None fs).2
               = Raise (ValueError_unexpected_qualifier None (parsed [""])))
    by (vm_compute; reflexivity).
  pose proof (parse_run_parse self hpoa_path None fs) as Hrun. rewrite Hr in Hrun.
  destruct (parse_exceptions self hpoa_path None fs _ _ eq_refl Hrun) as (_ & _ & _ & Hfs).
  rewrite (surjective_pairing (parse_run self hpoa_path None fs)), Hr, Hfs;
    [reflexivity|discriminate].
Defined.

(** ** The order of the lines *)

(** X12.  The order in which the two sets are iterated decides the order of the
    lines behind the header and nothing else: two runs of [parse] from the
    same file system end alike, well or with the same exception, and leave
    every file either the same or, for an output file, with the same header
    and the same lines behind it in some order. *)
Theorem parse_order_of_lines_only (self : DiseaseAnnotations) (data_file : string)
    (compression : option string) (fs fs1 fs2 : filesystem) (r1 r2 : result unit) :
  parse self data_file compression fs fs1 r1 ->
  parse self data_file compression fs fs2 r2 ->
  r1 = r2 /\ refused fs1 = refused fs2
  /\ forall path,
       files fs1 !! path = files fs2 !! path
       \/ exists header lines1 lines2,
            files fs1 !! path = Some (table_text header lines1)
            /\ files fs2 !! path = Some (table_text header lines2)
            /\ lines1 ≡ₚ lines2.
Proof.
  intros Hparse1 Hparse2.
  destruct (read_phase self fs data_file compression) as [[nodes edges]|e] eqn:Hread.
  - destruct (parse_read_Ok _ _ _ _ _ _ _ _ Hread Hparse1)
      as (no1 & eo1 & Hn1 & He1 & Hwrite1).
    destruct (parse_read_Ok _ _ _ _ _ _ _ _ Hread Hparse2)
      as (no2 & eo2 & Hn2 & He2 & Hwrite2).
    assert (Hn : node_columns <$> no1 ≡ₚ node_columns <$> no2).
    { apply fmap_Permutation. unfold iterates in Hn1, Hn2. by rewrite Hn1, Hn2. }
    assert (He : edge_columns <$> eo1 ≡ₚ edge_columns <$> eo2).
    { apply fmap_Permutation. unfold iterates in He1, He2. by rewrite He1, He2. }
    rewrite write_phase_spec in Hwrite1, Hwrite2. cbn zeta in Hwrite1, Hwrite2.
    repeat case_bool_decide;
      apply pair_equal_spec in Hwrite1 as [<- <-];
      apply pair_equal_spec in Hwrite2 as [<- <-];
      (split; [reflexivity|]); (split; [reflexivity|]); intros path;
      unfold with_file; cbn [files].
    + by left.
    + destruct (decide (path = nodes_out_path self)) as [->|Hpn].
      * right. eexists _, _, _. rewrite !lookup_insert_eq. by repeat split.
      * left. by rewrite !lookup_insert_ne.
    + destruct (decide (path = edges_out_path self)) as [->|Hpe].
      { right. eexists _, _, _. rewrite !lookup_insert_eq. by repeat split. }
      rewrite !(lookup_insert_ne _ (edges_out_path self)) by done.
      destruct (decide (path = nodes_out_path self)) as [->|Hpn].
      * right. eexists _, _, _. rewrite !lookup_insert_eq. by repeat split.
      * left. by rewrite !lookup_insert_ne.
  - destruct (parse_read_raises _ _ _ _ _ _ _ Hread Hparse1) as [-> ->].
    destruct (parse_read_raises _ _ _ _ _ _ _ Hread Hparse2) as [-> ->].
    split; [reflexivity|]. split; [reflexivity|]. intros path. by left.
Qed.

Lemma parse_order_of_lines_only_witness :
  let self := configured false "data/raw" "out" in
  let fs := disk (hpoa_text [record_of "OMIM:101600" "DiseaseX" "" "HP:0001" "PMID:1";
                             record_of "OMIM:101600" "DiseaseX" "" "HP:0002" "PMID:1"]) in
  (parse_run self hpoa_path None fs).2 = Ok tt
  /\ forall fs' r, parse self hpoa_path None fs fs' r -> r = Ok tt.
Proof.
  intros self fs.
  assert (Hok : (parse_run self hpoa_path None fs).2 = Ok tt) by (vm_compute; reflexivity).
  split; [exact Hok|]. intros fs' r Hparse.
  destruct (parse_order_of_lines_only self hpoa_path None fs _ _ _ _ Hparse
              (parse_run_parse self hpoa_path None fs)) as [-> _].
  exact Hok.
Defined.

(** ** A file of well-formed records *)

Lemma DictReader_rows_records (fieldnames : list string) (records : list (list string)) :
  Forall (fun record => record <> []) records ->
  csv.DictReader_rows fieldnames (Ok <$> records)
  = (fun record => Ok (csv.DictReader_row fieldnames record)) <$> records.
Proof.
  intros Hall. induction Hall as [|record records Hrecord Hall IH]; [reflexivity|].
  cbn [fmap list_fmap csv.DictReader_rows]. rewrite IH.
  by destruct record.
Qed.

Lemma for_rows_well_formed (self : DiseaseAnnotations) (records : list (list string))
    (acc : gset KgxNode.t * gset KgxEdge.t) :
  Forall well_formed records ->
  exists acc', for_rows self (Ok <$> (parsed <$> records)) acc = Ok acc'.
Proof.
  intros Hall. revert acc. induction Hall as [|record records Hrecord Hall IH]; intros acc.
  - by exists acc.
  - cbn [fmap list_fmap for_rows].
    destruct (loop_body self (parsed record) acc) as [acc1|e] eqn:Hbody.
    + cbn [mbind result_bind]. apply IH.
    + destruct Hrecord as (Hlen & _ & Hq).
      destruct (loop_body_raises _ _ _ _ Hbody) as [(_ & H1 & H2)|[_ H3]]; [|lia].
      by destruct Hq.
Qed.

(** X13.  A file of five lines and of well-formed records behind them, each on a
    line of its own as the dialect writes it: [parse] takes every record in,
    builds the sets of the nodes and the edges of the records it keeps, and
    ends well wherever it may open its two output files. *)
Theorem well_formed_file_ends_well (self : DiseaseAnnotations) (data_file : string)
    (fs : filesystem) (p1 p2 p3 p4 p5 : string) (records : list (list string)) :
  _file_header self = _file_header (__init__ "" "") ->
  plain p1 -> plain p2 -> plain p3 -> plain p4 -> plain p5 ->
  open_r fs data_file
  = Ok (p1 +:+ String LF (p2 +:+ String LF (p3 +:+ String LF
       (p4 +:+ String LF (p5 +:+ String LF
          (String.concat "" (tsv_line <$> records))))))) ->
  Forall well_formed records ->
  let nodes : gset KgxNode.t := list_to_set (nodes_of self (parsed <$> records)) in
  let edges : gset KgxEdge.t := list_to_set (edges_of self (parsed <$> records)) in
  read_phase self fs data_file None = Ok (nodes, edges)
  /\ forall fs' r,
       parse self data_file None fs fs' r ->
       nodes_out_path self ∉ refused fs -> edges_out_path self ∉ refused fs ->
       r = Ok tt
       /\ exists node_order edge_order,
            iterates nodes node_order /\ iterates edges edge_order
            /\ fs' = with_file
                       (with_file fs (nodes_out_path self)
                          (table_text node_tsv_column_names (node_columns <$> node_order)))
                       (edges_out_path self)
                       (table_text edge_tsv_column_names (edge_columns <$> edge_order)).
Proof.
  intros Hheader H1 H2 H3 H4 H5 Hopen Hall nodes edges.
  assert (Hread : read_phase self fs data_file None = Ok (nodes, edges)).
  { unfold read_phase, _open_file. cbn [truthy]. rewrite Hopen.
    cbn [mbind result_bind]. unfold rows_of. rewrite skip_preamble by assumption.
    cbn [mbind result_bind mret result_ret]. unfold csv.DictReader, csv.reader.
    rewrite iter_lines_tsv_lines
      by (eapply Forall_impl; [exact Hall|]; by intros record (_ & Hr & _)).
    rewrite reader_tsv_lines
      by (eapply Forall_impl; [exact Hall|]; intros record (Hlen & Hr & _);
          split; [lia|exact Hr]).
    rewrite DictReader_rows_records
      by (eapply Forall_impl; [exact Hall|]; intros record (Hlen & _) ->;
          cbn in Hlen; lia).
    rewrite Hheader.
    change ((fun record => Ok (csv.DictReader_row (_file_header (__init__ "" "")) record))
              <$> records)
      with ((fun record => Ok (parsed record)) <$> records).
    rewrite (list_fmap_compose parsed Ok).
    destruct (for_rows_well_formed self records (∅, ∅) Hall) as [acc' Hacc].
    rewrite (for_rows_effect _ _ _ _ (∅, ∅) Hacc). cbn [fst snd].
    by rewrite !union_empty_r_L. }
  split; [exact Hread|]. intros fs' r Hparse Hn He.
  destruct (parse_read_Ok _ _ _ _ _ _ _ _ Hread Hparse)
    as (node_order & edge_order & Hno & Heo & Hwrite).
  rewrite write_phase_spec in Hwrite.
  rewrite (bool_decide_eq_false_2 _ Hn), (bool_decide_eq_false_2 _ He) in Hwrite.
  cbn zeta in Hwrite. apply pair_equal_spec in Hwrite as [<- <-].
  split; [reflexivity|]. by exists node_order, edge_order.
Qed.

Lemma well_formed_file_ends_well_witness :
  let self := configured false "data/raw" "out" in
  let records := [record_of "OMIM:101600" "DiseaseX" "" "HP:0001" "PMID:1";
                  record_of "OMIM:101600" "DiseaseX" "NOT" "HP:0002" "PMID:2";
                  ["OMIM:202700"; "Disease" +:+ String TAB "Y"; ""; "HP:0003"]] in
  let fs := disk (hpoa_text records) in
  (parse_run self hpoa_path None fs).2 = Ok tt
  /\ read_phase self fs hpoa_path None
     = Ok (list_to_set (nodes_of self (parsed <$> records)),
           list_to_set (edges_of self (parsed <$> records))).
Proof.
  intros self records fs.
  assert (Hplain : forall p, bool_decide (plain p) = true -> plain p).
  { intros p. apply bool_decide_eq_true_1. }
  destruct (well_formed_file_ends_well self hpoa_path fs
              "#description: HPO annotations for rare diseases"
              "#date: 2020-03-27"
              "#tracker: https://github.com/obophenotype/human-phenotype-ontology"
              "#HPO-version: http://purl.obolibrary.org/obo/hp.obo/hp/releases/2020-03-27"
              (String.concat (String TAB "")
                 ["DatabaseID"; "DiseaseName"; "Qualifier"; "HPO_ID"; "Reference";
                  "Evidence"; "Onset"; "Frequency"; "Sex"; "Modifier"; "Aspect";
                  "Biocuration"])
              records eq_refl
              ltac:(apply Hplain; vm_compute; reflexivity)
              ltac:(apply Hplain; vm_compute; reflexivity)
              ltac:(apply Hplain; vm_compute; reflexivity)
              ltac:(apply Hplain; vm_compute; reflexivity)
              ltac:(apply Hplain; vm_compute; reflexivity))
    as [Hread Hparse].
  - vm_compute. reflexivity.
  - unfold records, record_of.
    repeat (apply Forall_cons; split;
            [split; [cbn [length]; lia|split;
               [repeat (apply Forall_cons; split;
                        [apply readable_check;
                         [reflexivity|intros f' H; discriminate H|reflexivity]|]);
                apply Forall_nil_2
               |first [left; reflexivity|right; reflexivity]]]|]).
    apply Forall_nil_2.
  - split; [|exact Hread].
    destruct (Hparse _ _ (parse_run_parse self hpoa_path None fs)) as [Hr _].
    + vm_compute. intros H. discriminate H.
    + vm_compute. intros H. discriminate H.
    + exact Hr.
Defined.

(** ** [run] *)

(** X14.  [run] reads the file it is given and, given none or the empty string,
    the file [phenotype.hpoa] of the input directory; it never passes a
    compression tag on, so for an object set up by [__init__] it never
    fails on the tag or in [gzip.open]; and where the file to read is
    missing it ends with the [OSError] of [open] and leaves the file system
    as it was. *)
Theorem run_reads_uncompressed (self : DiseaseAnnotations) (data_file : option string)
    (fs fs' : filesystem) (r : result unit) :
  _file_header self = _file_header (__init__ "" "") ->
  run self data_file fs fs' r ->
  exists path,
    (data_file = None \/ data_file = Some "" -> path = default_data_file self)
    /\ (forall file, data_file = Some file -> file <> "" -> path = file)
    /\ parse self path None fs fs' r
    /\ (files fs !! path = None -> r = Raise (OSError path) /\ fs' = fs)
    /\ (forall tag, r <> Raise (ValueError_cannot_open tag))
    /\ r <> Raise gzip_error.
Proof.
  intros Hheader Hrun. unfold run in Hrun. cbn zeta in Hrun.
  eexists. split; [|split; [|split; [exact Hrun|]]].
  - intros [->| ->]; reflexivity.
  - intros file -> Hfile. cbn [truthy default]. by rewrite bool_decide_eq_false_2.
  - split.
    { intros Hmissing.
      match type of Hrun with
      | parse _ ?path _ _ _ _ =>
          assert (Hread : read_phase self fs path None = Raise (OSError path))
      end.
      { unfold read_phase, _open_file, open_r. cbn [truthy]. rewrite Hmissing.
        by case_bool_decide. }
      destruct (parse_read_raises _ _ _ _ _ _ _ Hread Hrun) as [-> ->]. by split. }
    assert (Hnone : forall e, r = Raise e ->
              (forall tag, e <> ValueError_cannot_open tag) /\ e <> gzip_error).
    { intros e ->.
      inversion Hrun as [e' Hread|nodes edges node_order edge_order fs1 r' Hread Hn He Hwrite];
        subst.
      - destruct (read_phase_raises _ _ _ _ _ Hheader Hread)
          as [(tag & [=] & _)|[[[=] _]|[_ H]]].
        destruct H as [->|[->|[->|[(record & -> & _)| ->]]]]; split; try intros tag;
          discriminate.
      - rewrite write_phase_spec in Hwrite. cbn zeta in Hwrite.
        repeat case_bool_decide; apply pair_equal_spec in Hwrite as [_ Hr];
          try discriminate Hr; injection Hr as <-; split; try intros tag; discriminate. }
    split.
    + intros tag Hr. by apply (proj1 (Hnone _ Hr) tag).
    + intros Hr. by apply (proj2 (Hnone _ Hr)).
Qed.

Lemma run_reads_uncompressed_witness :
  let self := configured false "data/raw" "out" in
  default_data_file self = "data/raw/phenotype.hpoa"
  /\ forall fs' r,
       run self None (mkFilesystem ∅ ∅) fs' r ->
       r = Raise (OSError "data/raw/phenotype.hpoa") /\ fs' = mkFilesystem ∅ ∅.
Proof.
  intros self. split; [reflexivity|]. intros fs' r Hrun.
  destruct (run_reads_uncompressed self None _ _ _ eq_refl Hrun)
    as (path & Hdefault & _ & _ & Hmissing & _).
  rewrite (Hdefault (or_introl eq_refl)) in Hmissing. by apply Hmissing.
Defined.

(** ** Spaces at the start of a field *)

Lemma lstrip_readable (f : string) : readable f -> lstrip f = f.
Proof.
  intros (_ & Hspace & _). destruct f as [|c f]; [reflexivity|].
  cbn [lstrip]. case_bool_decide as Hc; [|reflexivity]. subst c. by destruct (Hspace f).
Qed.

Lemma lstrip_no_space (f : string) : forall f', lstrip f <> String SPACE f'.
Proof.
  induction f as [|c f IH]; intros f'; cbn [lstrip]; [discriminate|].
  case_bool_decide as Hc; [apply IH|]. intros [= -> _]. by destruct Hc.
Qed.

Lemma plain_lstrip (f : string) : plain f -> plain (lstrip f).
Proof.
  unfold plain. induction f as [|c f IH]; intros Hplain; [exact Hplain|].
  cbn [lstrip]. case_bool_decide; [|exact Hplain].
  cbn [String.list_ascii_of_string] in Hplain. apply Forall_cons in Hplain as [_ Hplain].
  by apply IH.
Qed.

Lemma spaced_readable (f : string) : spaced f -> readable (lstrip f).
Proof.
  intros [Hplain Hlen]. split; [by apply plain_lstrip|]. split; [apply lstrip_no_space|exact Hlen].
Qed.

(** A whole field, as the writer writes it, read from the start of a field:
    the spaces at its start are passed over. *)
Lemma feed_field_spaced (f : string) (fs : list string) :
  spaced f ->
  feed (csv.mkReader csv.START_FIELD fs "" 0) (escape f)
  = Ok (if bool_decide (lstrip f = "") then csv.mkReader csv.START_FIELD fs "" 0
        else csv.mkReader csv.IN_FIELD fs (lstrip f) (code_points (lstrip f))).
Proof.
  induction f as [|c f IH]; intros Hf; [reflexivity|].
  destruct (decide (c = SPACE)) as [->|Hc].
  - change (lstrip (String SPACE f)) with (lstrip f).
    change (escape (String SPACE f)) with (String SPACE (escape f)). cbn [feed].
    change (csv.parse_process_char TsvDialect (csv.mkReader csv.START_FIELD fs "" 0)
              (Some SPACE))
      with (Ok (csv.mkReader csv.START_FIELD fs "" 0)).
    cbn [mbind result_bind]. apply IH.
    destruct Hf as [Hplain Hlen]. split.
    + unfold plain in *. cbn [String.list_ascii_of_string] in Hplain.
      by apply Forall_cons in Hplain as [_ Hplain].
    + exact Hlen.
  - assert (Hstrip : lstrip (String c f) = String c f).
    { cbn [lstrip]. by rewrite bool_decide_eq_false_2. }
    rewrite Hstrip. apply feed_field. rewrite <- Hstrip. by apply spaced_readable.
Qed.

Lemma process_fields_spaced (rest : list string) (f : string) (fs : list string) :
  Forall spaced (f :: rest) ->
  csv.process_line TsvDialect (csv.mkReader csv.START_FIELD fs "" 0)
    (String.concat (String TAB "") (escape <$> f :: rest) +:+ String LF "")
  = Ok (csv.mkReader csv.START_RECORD (fs ++ (lstrip <$> f :: rest)) "" 0).
Proof.
  revert f fs. induction rest as [|f' rest IH]; intros f fs Hall;
    apply Forall_cons in Hall as [Hf Hall].
  - cbn [fmap list_fmap String.concat]. rewrite process_line_app, feed_field_spaced by done.
    cbn [mbind result_bind]. case_bool_decide as Hempty; [rewrite Hempty|]; reflexivity.
  - change (String.concat (String TAB "") (escape <$> f :: f' :: rest))
      with (escape f +:+ String TAB "" +:+ String.concat (String TAB "") (escape <$> f' :: rest)).
    rewrite !string_app_assoc, process_line_app, feed_field_spaced by done.
    cbn [mbind result_bind]. rewrite string_app_cons.
    change ("" +:+ ?s) with s.
    assert (Hgoal : csv.process_line TsvDialect
                      (csv.mkReader csv.START_FIELD (fs ++ [lstrip f]) "" 0)
                      (String.concat (String TAB "") (escape <$> f' :: rest) +:+ String LF "")
                    = Ok (csv.mkReader csv.START_RECORD
                            (fs ++ (lstrip <$> f :: f' :: rest)) "" 0)).
    { rewrite IH by done. cbn [fmap list_fmap]. by rewrite <- app_assoc. }
    case_bool_decide as Hempty; [rewrite Hempty in Hgoal|]; exact Hgoal.
Qed.

Lemma plain_fields_plain (fields : list string) :
  Forall plain fields -> plain (String.concat (String TAB "") (escape <$> fields)).
Proof.
  intros Hall. induction Hall as [|f fields Hf Hall IH]; [by constructor|].
  destruct fields as [|f' fields].
  - cbn [fmap list_fmap String.concat]. by apply plain_escape.
  - change (String.concat (String TAB "") (escape <$> f :: f' :: fields))
      with (escape f +:+ String TAB "" +:+ String.concat (String TAB "") (escape <$> f' :: fields)).
    apply plain_app; [by apply plain_escape|]. apply plain_app; [|exact IH].
    repeat constructor; discriminate.
Qed.

Lemma process_tsv_line_spaced (f0 f1 : string) (fields : list string) :
  Forall spaced (f0 :: f1 :: fields) ->
  csv.process_line TsvDialect csv.parse_reset (tsv_line (f0 :: f1 :: fields))
  = Ok (csv.mkReader csv.START_RECORD (lstrip <$> f0 :: f1 :: fields) "" 0).
Proof.
  intros Hall. pose proof (process_fields_spaced (f1 :: fields) f0 [] Hall) as Hfields.
  cbn [app] in Hfields. unfold tsv_line. rewrite <- Hfields.
  assert (Hplain : plain (String.concat (String TAB "") (escape <$> f0 :: f1 :: fields))).
  { apply plain_fields_plain. eapply Forall_impl; [exact Hall|]. by intros f [Hf _]. }
  destruct (String.concat (String TAB "") (escape <$> f0 :: f1 :: fields)) as [|c s] eqn:Hline.
  { change (String.concat (String TAB "") (escape <$> f0 :: f1 :: fields))
      with (escape f0 +:+ String TAB "" +:+ String.concat (String TAB "") (escape <$> f1 :: fields))
      in Hline.
    apply string_app_eq_nil in Hline as [_ Hline]. discriminate Hline. }
  unfold plain in Hplain. cbn [String.list_ascii_of_string] in Hplain.
  apply Forall_cons in Hplain as [[Hlf Hcr] _].
  rewrite string_app_cons. cbn [csv.process_line]. f_equal.
  unfold csv.parse_process_char, csv.is_newline. cbn [csv.state csv.parse_reset].
  by rewrite !bool_decide_eq_false_2.
Qed.

Lemma iter_lines_tsv_lines_plain (rows : list (list string)) :
  Forall (Forall plain) rows ->
  iter_lines "" (String.concat "" (tsv_line <$> rows)) = tsv_line <$> rows.
Proof.
  intros Hall. induction Hall as [|row rows Hrow Hall IH]; [reflexivity|].
  assert (Hcat : String.concat "" (tsv_line <$> row :: rows)
                 = tsv_line row +:+ String.concat "" (tsv_line <$> rows)).
  { destruct rows; cbn [fmap list_fmap String.concat]; by rewrite ?string_app_nil_r. }
  rewrite Hcat. unfold tsv_line at 1. rewrite string_app_assoc.
  change (String LF "" +:+ ?s) with (String LF s).
  rewrite iter_lines_plain by (by apply plain_fields_plain). rewrite IH. reflexivity.
Qed.

Lemma reader_tsv_lines_spaced (rows : list (list string)) :
  Forall (fun row => (2 <= length row)%nat /\ Forall spaced row) rows ->
  csv.reader_from TsvDialect csv.parse_reset (tsv_line <$> rows)
  = (fun row : list string => Ok (lstrip <$> row)) <$> rows.
Proof.
  intros Hall. induction Hall as [|row rows [Hlen Hrow] Hall IH]; [reflexivity|].
  destruct row as [|f0 [|f1 fields]]; [cbn in Hlen; lia..|].
  cbn [fmap list_fmap csv.reader_from]. rewrite process_tsv_line_spaced by done.
  cbn [csv.state csv.fields]. rewrite bool_decide_eq_true_2 by reflexivity.
  by rewrite IH.
Qed.

(** X15.  The dialect skips the spaces at the start of a field.  A table written
    by the writer of [parse] and read by a reader of the same dialect gives
    back every field without the spaces at its start and otherwise as it
    was, when every row has two fields or more and the fields have no line
    end inside and are, without those spaces, within the reader's limit; so
    a field comes back as it was written just when it does not start with a
    space. *)
Theorem leading_spaces_are_lost (header : list string) (rows : list (list string)) :
  Forall (fun row => (2 <= length row)%nat /\ Forall spaced row) (header :: rows) ->
  csv.reader (iter_lines "" (table_text header rows)) TsvDialect
  = (fun row : list string => Ok (lstrip <$> row)) <$> header :: rows
  /\ forall f, lstrip f = f <-> forall f', f <> String SPACE f'.
Proof.
  intros Hall. split.
  - unfold csv.reader, table_text.
    assert (Hcat : tsv_line header +:+ String.concat "" (tsv_line <$> rows)
                   = String.concat "" (tsv_line <$> header :: rows)).
    { destruct rows; cbn [fmap list_fmap String.concat]; by rewrite ?string_app_nil_r. }
    rewrite Hcat, iter_lines_tsv_lines_plain.
    + by rewrite reader_tsv_lines_spaced.
    + eapply Forall_impl; [exact Hall|]. intros row [_ Hrow].
      eapply Forall_impl; [exact Hrow|]. by intros f [Hf _].
  - intros f. split.
    + intros Hf f' Heq. rewrite Heq in Hf. by apply (lstrip_no_space (String SPACE f') f').
    + intros Hf. destruct f as [|c f]; [reflexivity|]. cbn [lstrip].
      case_bool_decide as Hc; [|reflexivity]. subst c. by destruct (Hf f).
Qed.

Lemma leading_spaces_are_lost_witness :
  let header := ["id"; "  name"] in
  let row := [" OMIM:101600"; "   "] in
  csv.reader (iter_lines "" (table_text header [row])) TsvDialect
  = [Ok ["id"; "name"]; Ok ["OMIM:101600"; ""]].
Proof.
  intros header row.
  assert (Hspaced : forall f,
            bool_decide (plain f) = true ->
            (code_points (lstrip f) <=? csv.field_limit) = true -> spaced f).
  { intros f Hplain Hlen. split; [exact (bool_decide_eq_true_1 _ Hplain)|by apply Z.leb_le]. }
  refine (proj1 (leading_spaces_are_lost header [row] _)).
  unfold header, row.
  repeat (apply Forall_cons; split;
          [split; [cbn [length]; lia|];
           repeat (apply Forall_cons; split;
                   [apply Hspaced; reflexivity|]);
           apply Forall_nil_2|]).
  apply Forall_nil_2.
Defined.

(** ** A carriage return inside a field *)

Lemma escape_app (s t : string) : escape (s +:+ t) = escape s +:+ escape t.
Proof.
  induction s as [|c s IH]; [reflexivity|].
  rewrite string_app_cons. cbn [escape]. rewrite IH.
  by destruct (_ || _); rewrite !string_app_cons.
Qed.

(** A carriage return that no line feed follows ends a line. *)
Lemma iter_lines_plain_cr (line cur : string) (c : ascii) (text : string) :
  plain line -> c <> LF ->
  iter_lines cur (line +:+ String CR (String c text))
  = (cur +:+ line +:+ String CR "") :: iter_lines "" (String c text).
Proof.
  unfold plain. revert cur. induction line as [|c' line IH]; intros cur Hplain Hc.
  - change ("" +:+ String CR (String c text)) with (String CR (String c text)).
    cbn [iter_lines].
    rewrite (bool_decide_eq_false_2 (CR = LF)) by discriminate.
    rewrite (bool_decide_eq_true_2 (CR = CR)) by reflexivity.
    by rewrite (bool_decide_eq_false_2 (c = LF)).
  - cbn [String.list_ascii_of_string] in Hplain.
    apply Forall_cons in Hplain as [[Hlf Hcr] Hplain].
    rewrite string_app_cons. cbn [iter_lines].
    rewrite (bool_decide_eq_false_2 (c' = LF)), (bool_decide_eq_false_2 (c' = CR)) by done.
    rewrite IH by done. by rewrite string_app_assoc.
Qed.

(** The first character of a written line of two fields or more. *)
Lemma tsv_line_first (f0 f1 : string) (fields : list string) :
  plain f0 ->
  exists c s, tsv_line (f0 :: f1 :: fields) = String c s /\ c <> LF /\ c <> CR.
Proof.
  intros Hplain. unfold tsv_line.
  change (String.concat (String TAB "") (escape <$> f0 :: f1 :: fields))
    with (escape f0 +:+ String TAB "" +:+ String.concat (String TAB "") (escape <$> f1 :: fields)).
  apply plain_escape in Hplain. destruct (escape f0) as [|c s].
  - eexists _, _. split; [reflexivity|]. split; discriminate.
  - unfold plain in Hplain. cbn [String.list_ascii_of_string] in Hplain.
    apply Forall_cons in Hplain as [[Hlf Hcr] _].
    rewrite !string_app_cons. eexists _, _. by split.
Qed.

(** X16.  The writer does not put a carriage return behind a backslash, the line
    terminator being the line feed alone, and the reader takes it for the end
    of the record: a field with a carriage return inside is written as it is,
    and read back as the end of one record and the start of the next.  *)
Theorem carriage_return_splits_record (a b f1 : string) (rest : list string) :
  readable a -> a <> "" -> Forall readable (b :: f1 :: rest) ->
  csv.writerow TsvDialect (Some <$> (a +:+ String CR b) :: f1 :: rest)
  = Ok (tsv_line ((a +:+ String CR b) :: f1 :: rest))
  /\ csv.reader (iter_lines "" (tsv_line ((a +:+ String CR b) :: f1 :: rest))) TsvDialect
     = [Ok [a]; Ok (b :: f1 :: rest)].
Proof.
  intros Ha Hne Hall. split.
  { assert (Htext : forall l : list string, text_of <$> (Some <$> l) = l).
    { intros l. induction l as [|f l IH]; [reflexivity|].
      cbn [fmap list_fmap] in *. by rewrite IH. }
    cbn [fmap list_fmap]. rewrite writerow_tsv. cbn [fmap list_fmap].
    fold (@fmap list _ _ _ Some rest). fold (@fmap list _ _ _ text_of (Some <$> rest)).
    by rewrite Htext. }
  assert (Hline : tsv_line ((a +:+ String CR b) :: f1 :: rest)
                  = escape a +:+ String CR (tsv_line (b :: f1 :: rest))).
  { unfold tsv_line.
    change (String.concat (String TAB "") (escape <$> (a +:+ String CR b) :: f1 :: rest))
      with (escape (a +:+ String CR b) +:+ String TAB ""
            +:+ String.concat (String TAB "") (escape <$> f1 :: rest)).
    change (String.concat (String TAB "") (escape <$> b :: f1 :: rest))
      with (escape b +:+ String TAB ""
            +:+ String.concat (String TAB "") (escape <$> f1 :: rest)).
    rewrite escape_app. change (escape (String CR b)) with (String CR (escape b)).
    by rewrite !string_app_assoc, !string_app_cons. }
  rewrite Hline.
  pose proof Hall as Hb. apply Forall_cons in Hb as [(Hb & _ & _) _].
  destruct (tsv_line_first b f1 rest Hb) as (c & s & Hfirst & Hlf & Hcr).
  destruct Ha as (Hplain & Hspace & Hlen).
  rewrite Hfirst, iter_lines_plain_cr by (by try apply plain_escape).
  rewrite <- Hfirst. unfold tsv_line at 1. rewrite iter_lines_plain by (by apply plain_fields).
  change (iter_lines "" "") with (@nil string).
  change ("" +:+ ?x) with x.
  unfold csv.reader. cbn [csv.reader_from].
  assert (Hfeed : feed csv.parse_reset (escape a)
                  = Ok (csv.mkReader csv.IN_FIELD [] a (code_points a))).
  { pose proof (feed_field a [] (conj Hplain (conj Hspace Hlen))) as Hfield.
    rewrite bool_decide_eq_false_2 in Hfield by exact Hne.
    rewrite <- Hfield. destruct a as [|c' a]; [by destruct Hne|].
    unfold plain in Hplain. cbn [String.list_ascii_of_string] in Hplain.
    apply Forall_cons in Hplain as [[Hlf' Hcr'] _].
    cbn [escape]. destruct (_ || _); cbn [feed]; f_equal;
      unfold csv.parse_process_char, csv.is_newline; cbn [csv.state csv.parse_reset];
      rewrite ?(bool_decide_eq_false_2 (c' = LF)), ?(bool_decide_eq_false_2 (c' = CR)) by done;
      reflexivity. }
  rewrite process_line_app, Hfeed. cbn [mbind result_bind].
  change (csv.process_line TsvDialect (csv.mkReader csv.IN_FIELD [] a (code_points a))
            (String CR ""))
    with (Ok (csv.mkReader csv.START_RECORD [a] "" 0)).
  cbn [csv.state csv.fields]. rewrite bool_decide_eq_true_2 by reflexivity.
  fold (tsv_line (b :: f1 :: rest)). rewrite process_tsv_line by exact Hall.
  cbn [csv.state csv.fields]. rewrite bool_decide_eq_true_2 by reflexivity.
  reflexivity.
Qed.

Lemma carriage_return_splits_record_witness :
  csv.reader (iter_lines "" (tsv_line ["Disease" +:+ String CR "X"; "HPO:hpoa"])) TsvDialect
  = [Ok ["Disease"]; Ok ["X"; "HPO:hpoa"]].
Proof.
  apply (carriage_return_splits_record "Disease" "X" "HPO:hpoa" []).
  - apply readable_check; [reflexivity|intros f' H; discriminate H|reflexivity].
  - discriminate.
  - repeat (apply Forall_cons; split;
            [apply readable_check; [reflexivity|intros f' H; discriminate H|reflexivity]|]).
    apply Forall_nil_2.
Defined.

(** ** The form of an edge identifier *)

Lemma iter_div16 (n : nat) (x : Z) :
  Nat.iter n (fun y => y / 16) x = x / 16 ^ Z.of_nat n.
Proof.
  induction n as [|n IH]; [by rewrite Z.div_1_r|].
  rewrite Nat.iter_succ, IH, Z.div_div by lia.
  rewrite Nat2Z.inj_succ, Z.pow_succ_r by lia. f_equal. lia.
Qed.

Lemma hex_digit_hex (x : Z) :
  Uuid.hex_digit (x mod 16) ∈ String.list_ascii_of_string "0123456789abcdef".
Proof.
  pose proof (Z.mod_pos_bound x 16 ltac:(lia)) as Hx.
  assert (Hcases : x mod 16 = 0 \/ x mod 16 = 1 \/ x mod 16 = 2 \/ x mod 16 = 3
                   \/ x mod 16 = 4 \/ x mod 16 = 5 \/ x mod 16 = 6 \/ x mod 16 = 7
                   \/ x mod 16 = 8 \/ x mod 16 = 9 \/ x mod 16 = 10 \/ x mod 16 = 11
                   \/ x mod 16 = 12 \/ x mod 16 = 13 \/ x mod 16 = 14 \/ x mod 16 = 15)
    by lia.
  repeat destruct Hcases as [->|Hcases]; try rewrite Hcases;
    cbn [Uuid.hex_digit String.list_ascii_of_string];
    repeat first [apply list_elem_of_here|apply list_elem_of_further].
Qed.

(** The bits that [UUID] stamps in: the variant in bits 62 and 63, the
    version in bits 76 to 79. *)
Lemma UUID_bits (bytes : list Z) :
  let u := Uuid.UUID bytes 3 in
  Z.testbit u 62 = false /\ Z.testbit u 63 = true
  /\ Z.testbit u 76 = true /\ Z.testbit u 77 = true
  /\ Z.testbit u 78 = false /\ Z.testbit u 79 = false.
Proof.
  unfold Uuid.UUID. cbn zeta. generalize (Uuid.int_from_bytes bytes). intros int.
  repeat split; rewrite Z.lor_spec, Z.land_spec, Z.lor_spec, Z.land_spec;
    match goal with
    | |- context [Z.testbit int ?k] => destruct (Z.testbit int k)
    end; vm_compute; reflexivity.
Qed.

Lemma bit_of_div (u : Z) (n : Z) (b : bool) :
  0 <= n -> Z.testbit u n = b -> (u / 2 ^ n) mod 2 = Z.b2z b.
Proof.
  intros Hn <-. rewrite <- Z.shiftr_div_pow2 by lia.
  replace (Z.testbit u n) with (Z.testbit (Z.shiftr u n) 0)
    by (rewrite Z.shiftr_spec by lia; f_equal; lia).
  symmetry. apply Z.bit0_mod.
Qed.

Lemma version_digit (bytes : list Z) : (Uuid.UUID bytes 3 / 16 ^ 19) mod 16 = 3.
Proof.
  destruct (UUID_bits bytes) as (_ & _ & H76 & H77 & H78 & H79).
  cbn zeta in *. set (u := Uuid.UUID bytes 3) in *.
  apply bit_of_div in H76, H77, H78, H79; try lia.
  change (2 ^ 77) with (2 ^ 76 * 2) in H77. change (2 ^ 78) with (2 ^ 76 * 4) in H78.
  change (2 ^ 79) with (2 ^ 76 * 8) in H79.
  rewrite <- Z.div_div in H77, H78, H79 by lia.
  change (16 ^ 19) with (2 ^ 76). set (v := u / 2 ^ 76) in *.
  cbn [Z.b2z] in *. clearbody v. clear u. Z.div_mod_to_equations. lia.
Qed.

Lemma variant_digit (bytes : list Z) :
  8 <= (Uuid.UUID bytes 3 / 16 ^ 15) mod 16 <= 11.
Proof.
  destruct (UUID_bits bytes) as (H62 & H63 & _).
  cbn zeta in *. set (u := Uuid.UUID bytes 3) in *.
  apply bit_of_div in H62, H63; try lia.
  change (2 ^ 62) with (2 ^ 60 * 4) in H62. change (2 ^ 63) with (2 ^ 60 * 8) in H63.
  rewrite <- Z.div_div in H62, H63 by lia.
  change (16 ^ 15) with (2 ^ 60). set (v := u / 2 ^ 60) in *.
  cbn [Z.b2z] in *. clearbody v. clear u. Z.div_mod_to_equations. lia.
Qed.

(** The text of [uuid3] has the form of a UUID of version 3. *)
Lemma str_uuid3_text (bytes : list Z) : uuid3_text (Uuid.str (Uuid.UUID bytes 3)).
Proof.
  pose proof (version_digit bytes) as Hversion.
  pose proof (variant_digit bytes) as Hvariant.
  rewrite <- (iter_div16 19) in Hversion. rewrite <- (iter_div16 15) in Hvariant.
  set (u := Uuid.UUID bytes 3) in *. clearbody u.
  cbn [Nat.iter nat_rect] in Hversion, Hvariant.
  unfold Uuid.str. cbn [Uuid.hex String.substring]. rewrite Hversion.
  assert (Hv : Uuid.hex_digit (u / 16 / 16 / 16 / 16 / 16 / 16 / 16 / 16 / 16 / 16
                               / 16 / 16 / 16 / 16 / 16 mod 16)
               ∈ String.list_ascii_of_string "89ab").
  { match type of Hvariant with _ <= ?t <= _ => set (x := t) in * end. clearbody x.
    assert (Hcases : x = 8 \/ x = 9 \/ x = 10 \/ x = 11) by lia.
    destruct Hcases as [->|[->|[->| ->]]];
      cbn [Uuid.hex_digit String.list_ascii_of_string];
      repeat first [apply list_elem_of_here|apply list_elem_of_further]. }
  eexists _, _, _, _, _, _. split; [reflexivity|].
  repeat split; try reflexivity; try exact Hv;
    repeat (apply Forall_cons; split; [apply hex_digit_hex|]); apply Forall_nil_2.
Qed.

(** X17.  Every edge identifier is ["urn:uuid:"] and the text of a UUID of version
    3 and of the RFC 4122 variant: 45 characters, lower-case hexadecimal
    digits in groups of 8, 4, 4, 4 and 12 with hyphens between them, the
    third group starting with [3] and the fourth with [8], [9], [a] or
    [b]. *)
Theorem edge_id_is_uuid3_urn (disease_id hpo_id : option string) (present : bool)
    (id : string) :
  edge_id disease_id hpo_id present = Ok id ->
  String.length id = 45%nat
  /\ exists text, id = "urn:uuid:" +:+ text /\ uuid3_text text.
Proof.
  unfold edge_id. destruct (str_join _ _) as [name|]; [|discriminate].
  cbn [mbind result_bind mret result_ret]. intros [= <-].
  pose proof (str_uuid3_text
                (take 16 (Md5.digest (Uuid.bytes Uuid.NAMESPACE_DNS
                                        ++ Uuid.bytes_of_string name)))) as Htext.
  fold (Uuid.uuid3 Uuid.NAMESPACE_DNS name) in Htext.
  generalize dependent (Uuid.str (Uuid.uuid3 Uuid.NAMESPACE_DNS name)). intros text Htext.
  split; [|by exists text].
  destruct Htext as (a & b & c & d & e & v & -> & [Ha _] & [Hb _] & [Hc _] & [Hd _]
                     & [He _] & _).
  assert (Hlen : forall s t, String.length (s +:+ t) = (String.length s + String.length t)%nat).
  { intros s t. induction s as [|ch s IH]; [reflexivity|].
    rewrite string_app_cons. cbn [String.length]. by rewrite IH. }
  rewrite !Hlen. cbn [String.length]. rewrite Ha, Hb, Hc, Hd, He. reflexivity.
Qed.

Lemma edge_id_is_uuid3_urn_witness :
  edge_id (Some "OMIM:101600") (Some "HP:0001") true
  = Ok "urn:uuid:e9548203-929b-3c25-b9c2-8a3f4ab67528"
  /\ uuid3_text "e9548203-929b-3c25-b9c2-8a3f4ab67528".
Proof.
  assert (Hid : edge_id (Some "OMIM:101600") (Some "HP:0001") true
                = Ok "urn:uuid:e9548203-929b-3c25-b9c2-8a3f4ab67528")
    by (vm_compute; reflexivity).
  split; [exact Hid|].
  destruct (edge_id_is_uuid3_urn _ _ _ _ Hid) as (_ & text & Heq & Htext).
  assert (Htail : forall s t, "urn:uuid:" +:+ s = "urn:uuid:" +:+ t -> s = t).
  { intros s t H. by injection H. }
  apply (Htail "e9548203-929b-3c25-b9c2-8a3f4ab67528") in Heq. by rewrite Heq.
Defined.

(** ** Empty lines *)

Lemma lines_text_cons (line : option (list string)) (lines : list (option (list string))) :
  lines_text (line :: lines) = line_text line +:+ lines_text lines.
Proof.
  unfold lines_text. destruct lines; cbn [fmap list_fmap String.concat];
    by rewrite ?string_app_nil_r.
Qed.

Lemma iter_lines_lines_text (lines : list (option (list string))) :
  Forall record_line lines ->
  iter_lines "" (lines_text lines) = line_text <$> lines.
Proof.
  intros Hall. induction Hall as [|line lines Hline Hall IH]; [reflexivity|].
  rewrite lines_text_cons. cbn [fmap list_fmap]. rewrite <- IH.
  destruct line as [record|]; cbn [line_text].
  - unfold tsv_line. rewrite string_app_assoc.
    change (String LF "" +:+ ?s) with (String LF s).
    destruct Hline as [_ Hrecord]. by rewrite iter_lines_plain by (by apply plain_fields).
  - change (String LF "" +:+ ?s) with ("" +:+ String LF s).
    by rewrite iter_lines_plain by constructor.
Qed.

(** The reader gives an empty record for an empty line, and the
    [DictReader] passes over it. *)
Lemma DictReader_lines (fieldnames : list string) (lines : list (option (list string))) :
  Forall record_line lines ->
  csv.DictReader_rows fieldnames
    (csv.reader_from TsvDialect csv.parse_reset (line_text <$> lines))
  = (fun record => Ok (csv.DictReader_row fieldnames record)) <$> records_of lines.
Proof.
  intros Hall. induction Hall as [|line lines Hline Hall IH]; [reflexivity|].
  destruct line as [record|]; cbn [fmap list_fmap line_text csv.reader_from].
  - destruct Hline as [Hlen Hrecord].
    destruct record as [|f0 [|f1 fields]]; [cbn in Hlen; lia..|].
    rewrite process_tsv_line by done.
    cbn [csv.state csv.fields]. rewrite bool_decide_eq_true_2 by reflexivity.
    cbn [csv.DictReader_rows]. rewrite IH. reflexivity.
  - change (csv.process_line TsvDialect csv.parse_reset (String LF ""))
      with (Ok (csv.mkReader csv.START_RECORD [] "" 0)).
    cbn [csv.state csv.fields]. rewrite bool_decide_eq_true_2 by reflexivity.
    cbn [csv.DictReader_rows]. exact IH.
Qed.

(** X18.  Empty lines among the records, and behind the last of them, count for
    nothing: a file with them is read as the file without them, to the same
    rows and so to the same two sets or the same exception. *)
Theorem empty_lines_are_passed_over (self : DiseaseAnnotations)
    (data_file1 data_file2 : string) (fs1 fs2 : filesystem)
    (p1 p2 p3 p4 p5 : string) (lines : list (option (list string))) :
  plain p1 -> plain p2 -> plain p3 -> plain p4 -> plain p5 ->
  Forall record_line lines ->
  let text lines :=
    p1 +:+ String LF (p2 +:+ String LF (p3 +:+ String LF
      (p4 +:+ String LF (p5 +:+ String LF (lines_text lines))))) in
  rows_of self (text lines) = Ok ((fun record =>
                                     Ok (csv.DictReader_row (_file_header self) record))
                                  <$> records_of lines)
  /\ rows_of self (text lines) = rows_of self (text (Some <$> records_of lines))
  /\ (open_r fs1 data_file1 = Ok (text lines) ->
      open_r fs2 data_file2 = Ok (text (Some <$> records_of lines)) ->
      read_phase self fs1 data_file1 None = read_phase self fs2 data_file2 None).
Proof.
  intros H1 H2 H3 H4 H5 Hall text.
  assert (Hrows : forall ls, Forall record_line ls ->
            rows_of self (text ls)
            = Ok ((fun record => Ok (csv.DictReader_row (_file_header self) record))
                  <$> records_of ls)).
  { intros ls Hls. unfold rows_of, text. rewrite skip_preamble by assumption.
    cbn [mbind result_bind mret result_ret]. unfold csv.DictReader, csv.reader.
    by rewrite iter_lines_lines_text, DictReader_lines. }
  assert (Hsame : records_of (Some <$> records_of lines) = records_of lines).
  { unfold records_of. clear Hall. induction lines as [|[record|] lines IH];
      [reflexivity| |exact IH].
    change (omap id (Some record :: lines)) with (record :: omap id lines).
    change (omap id (Some <$> record :: omap id lines))
      with (record :: omap id (Some <$> omap id lines)).
    by rewrite IH. }
  assert (Hall' : Forall record_line (Some <$> records_of lines)).
  { clear Hsame. unfold records_of. induction Hall as [|[record|] ls Hline Hls IH];
      [exact (Forall_nil_2 _)| |exact IH].
    change (omap id (Some record :: ls)) with (record :: omap id ls).
    cbn [fmap list_fmap]. apply Forall_cons. by split. }
  split; [by apply Hrows|]. split.
  - by rewrite (Hrows lines), (Hrows (Some <$> records_of lines)), Hsame.
  - intros Hopen1 Hopen2. unfold read_phase, _open_file. cbn [truthy].
    rewrite Hopen1, Hopen2. cbn [mbind result_bind].
    by rewrite (Hrows lines), (Hrows (Some <$> records_of lines)), Hsame.
Qed.

Lemma empty_lines_are_passed_over_witness :
  let self := configured false "data/raw" "out" in
  let record := record_of "OMIM:101600" "DiseaseX" "" "HP:0001" "PMID:1" in
  read_phase self (disk (preamble +:+ lines_text [None; Some record; None; None]))
    hpoa_path None
  = read_phase self (disk (preamble +:+ lines_text [Some record])) hpoa_path None.
Proof.
  intros self record.
  assert (Hplain : forall p, bool_decide (plain p) = true -> plain p).
  { intros p. apply bool_decide_eq_true_1. }
  refine (proj2 (proj2 (empty_lines_are_passed_over self hpoa_path hpoa_path _ _
            "#description: HPO annotations for rare diseases"
            "#date: 2020-03-27"
            "#tracker: https://github.com/obophenotype/human-phenotype-ontology"
            "#HPO-version: http://purl.obolibrary.org/obo/hp.obo/hp/releases/2020-03-27"
            (String.concat (String TAB "")
               ["DatabaseID"; "DiseaseName"; "Qualifier"; "HPO_ID"; "Reference";
                "Evidence"; "Onset"; "Frequency"; "Sex"; "Modifier"; "Aspect";
                "Biocuration"])
            [None; Some record; None; None]
            ltac:(apply Hplain; vm_compute; reflexivity)
            ltac:(apply Hplain; vm_compute; reflexivity)
            ltac:(apply Hplain; vm_compute; reflexivity)
            ltac:(apply Hplain; vm_compute; reflexivity)
            ltac:(apply Hplain; vm_compute; reflexivity) _)) _ _).
  - repeat (apply Forall_cons; split; [try exact I|]); [|apply Forall_nil_2].
    split; [cbn [length record record_of]; lia|]. unfold record, record_of.
    repeat (apply Forall_cons; split;
            [apply readable_check; [reflexivity|intros f' H; discriminate H|reflexivity]|]).
    apply Forall_nil_2.
  - vm_compute. reflexivity.
  - vm_compute. reflexivity.
Defined.
